(** * SequenceOrchestrator: admission pipeline and queue drainer

    A shallow embedding of
    [src/modules/communication/sequences/orchestration/SequenceOrchestrator.ts].

    The orchestrator is a class over eight collaborators that it only calls
    through their interfaces.  The embedding keeps that shape:

    - the methods of the class are programs of a small state-and-exception
      monad [M] over a [World] that holds the collaborators;
    - the validator, the utilities, the resource delegator and the executor
      are type classes (the class only imports their types), so every
      theorem holds for all of their implementations;
    - the registry is a finite map and the queue a list;
    - the event bus, the statistics manager and the console only receive
      calls, so they are represented by the journal [trace] of the calls the
      orchestrator makes on them, in program order.

    An [async] method runs synchronously up to its first [await]; the
    embedding of [processSequenceQueue] is split at that point. *)

From Stdlib Require Import ZArith Lia Ascii.
From stdpp Require Import base option list strings gmap fin_maps pretty.

Open Scope string_scope.
Open Scope list_scope.

(** ** Values and records of [SequenceTypes] *)

Inductive SequencePriority := HIGH | NORMAL | CHAINED.

#[global] Instance SequencePriority_eq_dec : EqDecision SequencePriority.
Proof. solve_decision. Defined.

(** The priorities are the string literals of their names. *)
Definition priority_literal (p : SequencePriority) : string :=
  match p with HIGH => "HIGH" | NORMAL => "NORMAL" | CHAINED => "CHAINED" end.

Inductive ConflictType := SAME_RESOURCE | NONE.
Inductive Resolution := ALLOW | REJECT | QUEUE.

#[global] Instance Resolution_eq_dec : EqDecision Resolution.
Proof. solve_decision. Defined.

(** [interface ResourceConflictResult] *)
Record ResourceConflictResult := {
  hasConflict : bool;
  conflictType : ConflictType;
  resolution : Resolution;
  message : string
}.

(** The values a [Record<string, any>] can hold.  Numbers are kept to the
    integers; nothing below computes with them. *)
#[local] Unset Elimination Schemes.
Inductive Value :=
| VUndefined
| VNull
| VBool (b : bool)
| VNumber (z : Z)
| VString (s : string)
| VConflictResult (c : ResourceConflictResult)
| VArray (items : list Value)
| VObject (fields : list (string * Value)).
#[local] Set Elimination Schemes.

(** [Record<string, any>]: a finite map from property names to values. *)
Abbreviation Data := (gmap string Value).

(** [interface SequenceRequest] *)
Record SequenceRequest := {
  sequenceName : string;
  data : Data;
  priority : SequencePriority;
  requestId : string;
  queuedAt : Z
}.

(** Modelled from the spec: the [MusicalSequence] declaration of
    [SequenceTypes] (section 3, Sequence / Movement / Beat).  The
    orchestrator never looks inside a sequence. *)
Record Beat := { beat : nat; event : string }.
Record Movement := { movement_name : string; beats : list Beat }.
Record Sequence := { name : string; tempo : nat; movements : list Movement }.

(** [interface SequenceStartResult]; optional members are options. *)
Record SequenceStartResult := {
  start_requestId : string;
  start_success : bool;
  start_reason : option string;
  start_isDuplicate : option bool
}.

(** [interface QueueProcessingResult] *)
Record QueueProcessingResult := {
  processed : bool;
  drain_sequenceName : option string;
  drain_success : option bool;
  drain_error : option string
}.

Inductive ExecutionType := IMMEDIATE | CONSECUTIVE.

(** [interface SequenceExecutionContext]: the members the orchestrator sets,
    and the request the context was built for. *)
Record SequenceExecutionContext := {
  ctx_request : SequenceRequest;
  ctx_sequence : option Sequence;
  ctx_executionType : ExecutionType;
  ctx_priority : SequencePriority;
  ctx_payload : Data
}.

(** A thrown [Error]. *)
Record JsError := { error_message : string }.

(** ** What the collaborators return *)

(** Result of [SequenceValidator.deduplicateSequenceRequest]. *)
Record DeduplicationResult := {
  isDuplicate : bool;
  hash : string;
  dedup_reason : string
}.

(** Result of [ResourceDelegator.checkResourceConflict].  The resolution is
    the delegator's own lower-case string; [reason] may be absent. *)
Record DelegatorResult := {
  delegator_hasConflict : bool;
  delegator_resolution : string;
  delegator_reason : option string
}.

(** A call on a collaborator either returns or throws. *)
Inductive Except (A : Type) := Returns (a : A) | Raises (e : JsError).
Arguments Returns {A} a.
Arguments Raises {A} e.

(** How the promise of [executeSequence] settles. *)
Inductive Settlement := Fulfilled | Rejected (error : JsError).

(** ** The journal of calls *)

Inductive Level := LOG | WARN | ERROR.

(** Modelled from the spec: [MUSICAL_CONDUCTOR_EVENT_TYPES] of
    [SequenceTypes] (section 6, emitted bus topics). *)
Inductive EventType :=
| SEQUENCE_QUEUED | SEQUENCE_STARTED | SEQUENCE_COMPLETED
| SEQUENCE_FAILED | SEQUENCE_CANCELLED
| MOVEMENT_STARTED | BEAT_STARTED | BEAT_COMPLETED | BEAT_FAILED.

#[global] Instance EventType_eq_dec : EqDecision EventType.
Proof. solve_decision. Defined.

(** Modelled from the spec: the methods of [StatisticsManager]
    (section 4.8). *)
Inductive StatisticsCall :=
| recordSequenceQueued
| recordSequenceStarted
| recordSequenceCompleted (runtimeMs : Z)
| recordError
| recordCancelled
| recordDuplicate
| updateQueueWaitTime (ms : Z).

(** One entry per call made on the console, the event bus, the statistics
    manager, the queue (mutators) and the executor, and one for each
    settlement of a promise the executor returned. *)
Inductive Effect :=
| Console (level : Level) (args : list string)
| Emit (topic : EventType) (payload : list (string * Value))
| Statistics (call : StatisticsCall)
| Enqueue (request : SequenceRequest)
| Dequeue (request : SequenceRequest)
| ExecuteSequence (request : SequenceRequest) (sequence : Sequence)
| ExecutionSettled (request : SequenceRequest) (outcome : Settlement).

(** The life of the executor in a journal: [true] where an execution
    begins, [false] where one ends. *)
Fixpoint executions (t : list Effect) : list bool :=
  match t with
  | [] => []
  | ExecuteSequence _ _ :: t' => true :: executions t'
  | ExecutionSettled _ _ :: t' => false :: executions t'
  | _ :: t' => executions t'
  end.

(** Begins and ends alternate from the state [running]; the result is the
    state at the end, or [None] where an execution begins while another is
    running or ends while none is. *)
Fixpoint alternate (running : bool) (l : list bool) : option bool :=
  match l with
  | [] => Some running
  | b :: l' => if eqb b running then None else alternate b l'
  end.

(** The events published on the bus, oldest first. *)
Fixpoint published (t : list Effect) : list (EventType * list (string * Value)) :=
  match t with
  | [] => []
  | Emit topic payload :: t' => (topic, payload) :: published t'
  | _ :: t' => published t'
  end.

(** Modelled from the spec: the monotonic counters of the statistics
    (section 3, Stats), each the number of calls of its method. *)
Record Counters := {
  queued : nat;
  started : nat;
  completed : nat;
  errored : nat;
  cancelled : nat;
  duplicates : nat
}.

Definition count (c : StatisticsCall) (k : Counters) : Counters :=
  match c with
  | recordSequenceQueued =>
      {| queued := S (queued k); started := started k;
         completed := completed k; errored := errored k;
         cancelled := cancelled k; duplicates := duplicates k |}
  | recordSequenceStarted =>
      {| queued := queued k; started := S (started k);
         completed := completed k; errored := errored k;
         cancelled := cancelled k; duplicates := duplicates k |}
  | recordSequenceCompleted _ =>
      {| queued := queued k; started := started k;
         completed := S (completed k); errored := errored k;
         cancelled := cancelled k; duplicates := duplicates k |}
  | recordError =>
      {| queued := queued k; started := started k;
         completed := completed k; errored := S (errored k);
         cancelled := cancelled k; duplicates := duplicates k |}
  | recordCancelled =>
      {| queued := queued k; started := started k;
         completed := completed k; errored := errored k;
         cancelled := S (cancelled k); duplicates := duplicates k |}
  | recordDuplicate =>
      {| queued := queued k; started := started k;
         completed := completed k; errored := errored k;
         cancelled := cancelled k; duplicates := S (duplicates k) |}
  | updateQueueWaitTime _ => k
  end.

Definition statistics (t : list Effect) : Counters :=
  fold_left
    (fun k e => match e with Statistics c => count c k | _ => k end)
    t
    {| queued := 0; started := 0; completed := 0;
       errored := 0; cancelled := 0; duplicates := 0 |}.

(** The calls the drainer makes. *)
Definition drainer_effect (e : Effect) : bool :=
  match e with
  | Dequeue _ | ExecuteSequence _ _ | Console ERROR _
  | Statistics (updateQueueWaitTime _) => true
  | _ => false
  end.

(** ** Interfaces of the collaborators that are type-only imports *)

(** [SequenceValidator]: the deduplication front end, over its own state. *)
Class SequenceValidator (V : Type) := {
  deduplicateSequenceRequest :
    string -> Data -> SequencePriority -> V -> Except DeduplicationResult * V
}.

(** [SequenceUtilities]: name parsing, instance ids, base context. *)
Class SequenceUtilities (U : Type) := {
  extractSymphonyName : string -> string;
  extractResourceId : string -> Data -> string;
  createSequenceInstanceId : string -> Data -> string -> U -> string * U;
  utilities_createExecutionContext :
    SequenceRequest -> U -> SequenceExecutionContext
}.

(** [ResourceDelegator]: the ownership table and its conflict check. *)
Class ResourceDelegator (D : Type) := {
  checkResourceConflict :
    string -> string -> SequencePriority -> D -> Except DelegatorResult * D
}.

(** The host: [Date.now()], the suffix
    [Math.random().toString(36).substr(2, 9)] and [performance.now()], each as
    a function of the number of clock and random reads made so far. *)
Class Host := {
  Date_now : nat -> Z;
  Math_random_suffix : nat -> string;
  performance_now : nat -> Z
}.

(** ** The queue and the executor *)

Module ExecutionQueue.

(** Modelled from the spec: [ExecutionQueue] (section 4.6), a stable
    priority queue.  HIGH runs first, CHAINED stands at the head of the
    NORMAL band, arrival order inside a band. *)
Definition band (p : SequencePriority) : nat :=
  match p with HIGH => 0 | CHAINED => 1 | NORMAL => 2 end.

Fixpoint enqueue (r : SequenceRequest) (q : list SequenceRequest)
  : list SequenceRequest :=
  match q with
  | [] => [r]
  | x :: q' =>
      if (band (priority x) <=? band (priority r))%nat
      then x :: enqueue r q'
      else r :: x :: q'
  end.

Definition dequeue (q : list SequenceRequest)
  : option (SequenceRequest * list SequenceRequest) :=
  match q with
  | [] => None
  | r :: q' => Some (r, q')
  end.

Definition isEmpty (q : list SequenceRequest) : bool :=
  match q with [] => true | _ => false end.

Definition size (q : list SequenceRequest) : nat := length q.

End ExecutionQueue.

(** [SequenceExecutor], as far as the orchestrator sees it: its running
    flag, its current sequence, and [executeSequence].  The call of
    [executeSequence] takes the executor from one state to the next and
    returns a promise; [settled r o] is the state in which the executor is
    when the promise for [r] settles with outcome [o]. *)
Class SequenceExecutor (E : Type) := {
  isSequenceRunning : E -> bool;
  getCurrentSequence : E -> option SequenceRequest;
  executeSequence : SequenceRequest -> Sequence -> E -> E;
  settled : SequenceRequest -> Settlement -> E -> E
}.

(** Modelled from the spec: only one sequence executes at a time
    (section 4.7).  The executor reports a running sequence from the call of
    [executeSequence] on, and none once the promise has settled. *)
Class SerialExecutor (E : Type) `{!SequenceExecutor E} : Prop := {
  running_while_executing r s (e : E) :
    isSequenceRunning (executeSequence r s e) = true;
  idle_when_settled r o (e : E) :
    isSequenceRunning (settled r o e) = false
}.


(** ** The world and the monad *)

(** How a program ends: it returns a value, it throws, or the fuel of a
    bounded recursion ran out.  Each of the first two leaves a world. *)
Inductive Completion (W A : Type) :=
| Normal (a : A) (w : W)
| Thrown (e : JsError) (w : W)
| Exhausted.
Arguments Normal {W A} a w.
Arguments Thrown {W A} e w.
Arguments Exhausted {W A}.

Section Orchestrator.

Context {V U D E : Type}.
Context `{!SequenceValidator V, !SequenceUtilities U, !ResourceDelegator D}.
Context `{!SequenceExecutor E, !Host}.

(** The private members of the class.  The registry is the name-to-sequence
    map of the specification (section 4.2).  [eventBus] and
    [statisticsManager] are write-only for the orchestrator and live in
    [trace], with the console.  [clock] counts the host reads; [awaiting]
    lists the activations of [processSequenceQueue] that are suspended at
    their [await], oldest first. *)
Record World := {
  sequenceRegistry : gmap string Sequence;
  executionQueue : list SequenceRequest;
  sequenceExecutor : E;
  sequenceValidator : V;
  sequenceUtilities : U;
  resourceDelegator : D;
  clock : nat;
  awaiting : list SequenceRequest;
  trace : list Effect
}.

Definition M (A : Type) : Type := World -> Completion World A.

Definition ret {A} (a : A) : M A := fun w => Normal a w.

Definition bind {A B} (m : M A) (k : A -> M B) : M B :=
  fun w =>
    match m w with
    | Normal a w' => k a w'
    | Thrown e w' => Thrown e w'
    | Exhausted => Exhausted
    end.

Definition throw {A} (e : JsError) : M A := fun w => Thrown e w.

(** [try { body } catch (error) { handler }] *)
Definition try_catch {A} (body : M A) (handler : JsError -> M A) : M A :=
  fun w =>
    match body w with
    | Thrown e w' => handler e w'
    | c => c
    end.

Notation "'let*' x ':=' m 'in' k" := (bind m (fun x => k))
  (at level 10, x name, m at level 100, k at level 200, only parsing).
Notation "m ';;' k" := (bind m (fun _ => k))
  (at level 100, k at level 200, right associativity, only parsing).

(** *** Field updates *)

Definition journal (e : Effect) (w : World) : World :=
  {| sequenceRegistry := sequenceRegistry w;
     executionQueue := executionQueue w;
     sequenceExecutor := sequenceExecutor w;
     sequenceValidator := sequenceValidator w;
     sequenceUtilities := sequenceUtilities w;
     resourceDelegator := resourceDelegator w;
     clock := clock w;
     awaiting := awaiting w;
     trace := trace w ++ [e] |}.

Definition set_executionQueue (q : list SequenceRequest) (w : World) : World :=
  {| sequenceRegistry := sequenceRegistry w;
     executionQueue := q;
     sequenceExecutor := sequenceExecutor w;
     sequenceValidator := sequenceValidator w;
     sequenceUtilities := sequenceUtilities w;
     resourceDelegator := resourceDelegator w;
     clock := clock w;
     awaiting := awaiting w;
     trace := trace w |}.

Definition set_sequenceExecutor (e : E) (w : World) : World :=
  {| sequenceRegistry := sequenceRegistry w;
     executionQueue := executionQueue w;
     sequenceExecutor := e;
     sequenceValidator := sequenceValidator w;
     sequenceUtilities := sequenceUtilities w;
     resourceDelegator := resourceDelegator w;
     clock := clock w;
     awaiting := awaiting w;
     trace := trace w |}.

Definition set_sequenceValidator (v : V) (w : World) : World :=
  {| sequenceRegistry := sequenceRegistry w;
     executionQueue := executionQueue w;
     sequenceExecutor := sequenceExecutor w;
     sequenceValidator := v;
     sequenceUtilities := sequenceUtilities w;
     resourceDelegator := resourceDelegator w;
     clock := clock w;
     awaiting := awaiting w;
     trace := trace w |}.

Definition set_sequenceUtilities (u : U) (w : World) : World :=
  {| sequenceRegistry := sequenceRegistry w;
     executionQueue := executionQueue w;
     sequenceExecutor := sequenceExecutor w;
     sequenceValidator := sequenceValidator w;
     sequenceUtilities := u;
     resourceDelegator := resourceDelegator w;
     clock := clock w;
     awaiting := awaiting w;
     trace := trace w |}.

Definition set_resourceDelegator (d : D) (w : World) : World :=
  {| sequenceRegistry := sequenceRegistry w;
     executionQueue := executionQueue w;
     sequenceExecutor := sequenceExecutor w;
     sequenceValidator := sequenceValidator w;
     sequenceUtilities := sequenceUtilities w;
     resourceDelegator := d;
     clock := clock w;
     awaiting := awaiting w;
     trace := trace w |}.

Definition set_clock (n : nat) (w : World) : World :=
  {| sequenceRegistry := sequenceRegistry w;
     executionQueue := executionQueue w;
     sequenceExecutor := sequenceExecutor w;
     sequenceValidator := sequenceValidator w;
     sequenceUtilities := sequenceUtilities w;
     resourceDelegator := resourceDelegator w;
     clock := n;
     awaiting := awaiting w;
     trace := trace w |}.

Definition set_awaiting (a : list SequenceRequest) (w : World) : World :=
  {| sequenceRegistry := sequenceRegistry w;
     executionQueue := executionQueue w;
     sequenceExecutor := sequenceExecutor w;
     sequenceValidator := sequenceValidator w;
     sequenceUtilities := sequenceUtilities w;
     resourceDelegator := resourceDelegator w;
     clock := clock w;
     awaiting := a;
     trace := trace w |}.

(** *** Calls on the collaborators *)

Definition tick : M nat :=
  fun w => Normal (clock w) (set_clock (S (clock w)) w).

Definition host_Date_now : M Z := let* t := tick in ret (Date_now t).
Definition host_Math_random_suffix : M string :=
  let* t := tick in ret (Math_random_suffix t).
Definition host_performance_now : M Z :=
  let* t := tick in ret (performance_now t).

Definition console (level : Level) (args : list string) : M unit :=
  fun w => Normal tt (journal (Console level args) w).

(** Modelled from the spec: [EventBus.emit] (sections 4.1 and 7).  A
    listener that throws never reaches the publisher, so the call returns;
    what was published is kept in the journal. *)
Definition eventBus_emit (topic : EventType)
  (payload : list (string * Value)) : M unit :=
  fun w => Normal tt (journal (Emit topic payload) w).

(** The statistics manager counts (section 4.8); its methods return. *)
Definition statisticsManager_recordSequenceQueued : M unit :=
  fun w => Normal tt (journal (Statistics recordSequenceQueued) w).

Definition statisticsManager_recordError : M unit :=
  fun w => Normal tt (journal (Statistics recordError) w).

Definition statisticsManager_updateQueueWaitTime (waitTime : Z) : M unit :=
  fun w => Normal tt (journal (Statistics (updateQueueWaitTime waitTime)) w).

Definition sequenceRegistry_get (n : string) : M (option Sequence) :=
  fun w => Normal (sequenceRegistry w !! n) w.

Definition sequenceRegistry_getNames : M (list string) :=
  fun w => Normal ((map_to_list (sequenceRegistry w)).*1) w.

Definition executionQueue_isEmpty : M bool :=
  fun w => Normal (ExecutionQueue.isEmpty (executionQueue w)) w.

Definition executionQueue_size : M nat :=
  fun w => Normal (ExecutionQueue.size (executionQueue w)) w.

Definition executionQueue_enqueue (r : SequenceRequest) : M unit :=
  fun w =>
    Normal tt
      (set_executionQueue (ExecutionQueue.enqueue r (executionQueue w))
         (journal (Enqueue r) w)).

Definition executionQueue_dequeue : M (option SequenceRequest) :=
  fun w =>
    match ExecutionQueue.dequeue (executionQueue w) with
    | Some (r, q') => Normal (Some r) (set_executionQueue q' (journal (Dequeue r) w))
    | None => Normal None w
    end.

Definition sequenceExecutor_isSequenceRunning : M bool :=
  fun w => Normal (isSequenceRunning (sequenceExecutor w)) w.

Definition sequenceExecutor_getCurrentSequence : M (option SequenceRequest) :=
  fun w => Normal (getCurrentSequence (sequenceExecutor w)) w.

(** The call itself: the executor takes the request.  The promise it
    returns settles in a later turn, see [settle]. *)
Definition sequenceExecutor_executeSequence (r : SequenceRequest)
  (s : Sequence) : M unit :=
  fun w =>
    Normal tt
      (set_sequenceExecutor
         (executeSequence r s (sequenceExecutor w))
         (journal (ExecuteSequence r s) w)).

Definition sequenceValidator_deduplicateSequenceRequest (n : string)
  (d : Data) (p : SequencePriority) : M DeduplicationResult :=
  fun w =>
    match deduplicateSequenceRequest n d p (sequenceValidator w) with
    | (Returns r, v) => Normal r (set_sequenceValidator v w)
    | (Raises e, v) => Thrown e (set_sequenceValidator v w)
    end.

Definition sequenceUtilities_createSequenceInstanceId (n : string)
  (d : Data) (tag : string) : M string :=
  fun w =>
    let '(id, u) := createSequenceInstanceId n d tag (sequenceUtilities w) in
    Normal id (set_sequenceUtilities u w).

Definition sequenceUtilities_createExecutionContext (r : SequenceRequest)
  : M SequenceExecutionContext :=
  fun w => Normal (utilities_createExecutionContext r (sequenceUtilities w)) w.

Definition resourceDelegator_checkResourceConflict (resourceId : string)
  (instanceId : string) (p : SequencePriority) : M DelegatorResult :=
  fun w =>
    match checkResourceConflict resourceId instanceId p (resourceDelegator w) with
    | (Returns r, d) => Normal r (set_resourceDelegator d w)
    | (Raises e, d) => Thrown e (set_resourceDelegator d w)
    end.

(** ** The methods of [SequenceOrchestrator] *)

(** The double quote inside the template literals. *)
Definition dq : string :=
  String (Ascii.Ascii false true false false false true false false) EmptyString.

(** [generateRequestId]:
    [`${sequenceName}-${Date.now()}-${Math.random().toString(36).substr(2, 9)}`] *)
Definition generateRequestId (sequenceName : string) : M string :=
  let* now := host_Date_now in
  let* suffix := host_Math_random_suffix in
  ret (sequenceName +:+ "-" +:+ pretty now +:+ "-" +:+ suffix).

(** [logSequenceNotFound] *)
Definition logSequenceNotFound (sequenceName : string) : M unit :=
  console ERROR
    ["❌ SequenceOrchestrator: Sequence " +:+ dq +:+ sequenceName +:+ dq
       +:+ " not found!"] ;;
  console ERROR
    ["❌ This means the plugin for " +:+ dq +:+ sequenceName +:+ dq
       +:+ " is not loaded or registered."] ;;
  let* names := sequenceRegistry_getNames in
  console ERROR ("❌ Available sequences:" :: names) ;;
  if decide (sequenceName = "ElementLibrary.library-drop-symphony") then
    console ERROR
      ["❌ CRITICAL: ElementLibrary.library-drop-symphony not available - drag-and-drop will not work!"] ;;
    console ERROR
      ["❌ Check plugin loading logs above for ElementLibrary.library-drop-symphony errors."]
  else ret tt.

(** [handleDuplicateSequence] *)
Definition handleDuplicateSequence (sequenceName : string)
  (deduplicationResult : DeduplicationResult) : M SequenceStartResult :=
  console WARN
    ["🎼 SequenceOrchestrator: " +:+ dedup_reason deduplicationResult] ;;
  let* now := host_Date_now in
  let* suffix := host_Math_random_suffix in
  let duplicateRequestId :=
    sequenceName +:+ "-duplicate-" +:+ pretty now +:+ "-" +:+ suffix in
  eventBus_emit SEQUENCE_CANCELLED
    [("sequenceName", VString sequenceName);
     ("requestId", VString duplicateRequestId);
     ("reason", VString "duplicate-request");
     ("hash", VString (hash deduplicationResult))] ;;
  ret {| start_requestId := duplicateRequestId;
         start_success := false;
         start_isDuplicate := Some true;
         start_reason := Some (dedup_reason deduplicationResult) |}.

(** The object [extractOrchestrationMetadata] returns. *)
Record OrchestrationMetadata := {
  symphonyName : string;
  resourceId : string;
  instanceId : string
}.

(** [extractOrchestrationMetadata] *)
Definition extractOrchestrationMetadata (sequenceName : string) (data : Data)
  : M OrchestrationMetadata :=
  let symphony := extractSymphonyName sequenceName in
  let resource := extractResourceId sequenceName data in
  let* instance :=
    sequenceUtilities_createSequenceInstanceId sequenceName data "NORMAL" in
  ret {| symphonyName := symphony;
         resourceId := resource;
         instanceId := instance |}.

(** [delegatorResult.reason || "No conflict detected"]: an absent or empty
    reason is falsy. *)
Definition reason_or_default (reason : option string) : string :=
  match reason with
  | None => "No conflict detected"
  | Some "" => "No conflict detected"
  | Some r => r
  end.

(** The object literal [checkResourceConflicts] returns: the delegator's
    result in the conductor's format. *)
Definition toConflictResult (delegatorResult : DelegatorResult)
  : ResourceConflictResult :=
  {| hasConflict := delegator_hasConflict delegatorResult;
     conflictType :=
       if delegator_hasConflict delegatorResult
       then SAME_RESOURCE else NONE;
     resolution :=
       if decide (delegator_resolution delegatorResult = "override")
       then ALLOW
       else if decide (delegator_resolution delegatorResult = "reject")
       then REJECT
       else if decide (delegator_resolution delegatorResult = "queue")
       then QUEUE
       else ALLOW;
     message := reason_or_default (delegator_reason delegatorResult) |}.

(** [checkResourceConflicts] *)
Definition checkResourceConflicts (metadata : OrchestrationMetadata)
  (priority : SequencePriority) : M ResourceConflictResult :=
  let* delegatorResult :=
    resourceDelegator_checkResourceConflict
      (resourceId metadata) (instanceId metadata) priority in
  ret (toConflictResult delegatorResult).

(** The [data] member built by [createSequenceRequest]: the spread of the
    caller's object, then the five keys, in source order. *)
Definition request_data (data : Data) (metadata : OrchestrationMetadata)
  (conflictResult : ResourceConflictResult) (sequenceHash : string) : Data :=
  <["sequenceHash" := VString sequenceHash]>
    (<["conflictResult" := VConflictResult conflictResult]>
       (<["resourceId" := VString (resourceId metadata)]>
          (<["symphonyName" := VString (symphonyName metadata)]>
             (<["instanceId" := VString (instanceId metadata)]> data)))).

(** [createSequenceRequest] *)
Definition createSequenceRequest (sequenceName : string) (data : Data)
  (priority : SequencePriority) (requestId : string)
  (metadata : OrchestrationMetadata) (conflictResult : ResourceConflictResult)
  (sequenceHash : string) : M SequenceRequest :=
  let* now := host_performance_now in
  ret {| sequenceName := sequenceName;
         data := request_data data metadata conflictResult sequenceHash;
         priority := priority;
         requestId := requestId;
         queuedAt := now |}.

(** [recordSequenceExecution]: the body is one [console.log]. *)
Definition recordSequenceExecution (sequenceHash : string) : M unit :=
  console LOG
    ["🎼 SequenceOrchestrator: Recording sequence execution: " +:+ sequenceHash].

(** [emitSequenceQueuedEvent] *)
Definition emitSequenceQueuedEvent (sequenceName : string)
  (requestId : string) (priority : SequencePriority) : M unit :=
  let* queueLength := executionQueue_size in
  eventBus_emit SEQUENCE_QUEUED
    [("sequenceName", VString sequenceName);
     ("requestId", VString requestId);
     ("priority", VString (priority_literal priority));
     ("queueLength", VNumber (Z.of_nat queueLength))].

(** *** The queue drainer *)

(** Where a call of the [async] method [processSequenceQueue] stands when
    control comes back to its caller: its promise is already resolved with a
    result, or the activation is parked at [await executeSequence(...)]. *)
Inductive Activation :=
| Resolved (result : QueueProcessingResult)
| Parked (nextRequest : SequenceRequest).

Definition not_processed : QueueProcessingResult :=
  {| processed := false; drain_sequenceName := None;
     drain_success := None; drain_error := None |}.

(** [await]: park the activation until the executor's promise settles. *)
Definition await_executor (nextRequest : SequenceRequest) : M Activation :=
  fun w => Normal (Parked nextRequest)
             (set_awaiting (awaiting w ++ [nextRequest]) w).

(** [processSequenceQueue], up to its [await].  The recursive call is in the
    source; [fuel] bounds its depth, and [processSequenceQueue] below supplies
    enough of it. *)
Fixpoint processSequenceQueue_fuel (fuel : nat) : M Activation :=
  match fuel with
  | O => fun _ => Exhausted
  | S fuel' =>
      let* empty := executionQueue_isEmpty in
      let* emptyOrRunning :=
        (if empty then ret true else sequenceExecutor_isSequenceRunning) in
      if (emptyOrRunning : bool) then ret (Resolved not_processed)
      else
        let* dequeued := executionQueue_dequeue in
        match dequeued with
        | None => ret (Resolved not_processed)
        | Some nextRequest =>
            let* now := host_performance_now in
            let waitTime := (now - queuedAt nextRequest)%Z in
            statisticsManager_updateQueueWaitTime waitTime ;;
            let* sequence := sequenceRegistry_get (sequenceName nextRequest) in
            match sequence with
            | None =>
                console ERROR
                  ["❌ SequenceOrchestrator: Sequence "
                     +:+ sequenceName nextRequest
                     +:+ " not found in registry"] ;;
                processSequenceQueue_fuel fuel' ;;
                ret (Resolved
                       {| processed := true;
                          drain_sequenceName := Some (sequenceName nextRequest);
                          drain_success := Some false;
                          drain_error := Some "Sequence not found in registry" |})
            | Some sequence =>
                sequenceExecutor_executeSequence nextRequest sequence ;;
                await_executor nextRequest
            end
        end
  end.

Definition processSequenceQueue : M Activation :=
  fun w => processSequenceQueue_fuel (S (length (executionQueue w))) w.

(** [processSequenceQueue] from its [await] on, once the executor's promise
    has settled: the rest of the [try] block, or the [catch] block. *)
Definition processSequenceQueue_resume (nextRequest : SequenceRequest)
  (outcome : Settlement) : M QueueProcessingResult :=
  match outcome with
  | Fulfilled =>
      processSequenceQueue ;;
      ret {| processed := true;
             drain_sequenceName := Some (sequenceName nextRequest);
             drain_success := Some true;
             drain_error := None |}
  | Rejected error =>
      console ERROR
        ["❌ SequenceOrchestrator: Failed to execute sequence "
           +:+ sequenceName nextRequest +:+ ":";
         error_message error] ;;
      processSequenceQueue ;;
      ret {| processed := true;
             drain_sequenceName := Some (sequenceName nextRequest);
             drain_success := Some false;
             drain_error := Some (error_message error) |}
  end.

(** [processQueueIfIdle].  The call of the [async] method is not awaited:
    its body runs up to its [await] and the promise is dropped. *)
Definition processQueueIfIdle : M unit :=
  let* running := sequenceExecutor_isSequenceRunning in
  if (running : bool) then ret tt
  else processSequenceQueue ;; ret tt.

(** *** Admission *)

(** [startSequence], with its default arguments already applied. *)
Definition startSequence (sequenceName : string) (data : Data)
  (priority : SequencePriority) : M SequenceStartResult :=
  let* requestId := generateRequestId sequenceName in
  try_catch
    (let* sequence := sequenceRegistry_get sequenceName in
     match sequence with
     | None =>
         logSequenceNotFound sequenceName ;;
         throw {| error_message :=
                    "Sequence " +:+ dq +:+ sequenceName +:+ dq +:+ " not found" |}
     | Some _ =>
         let* deduplicationResult :=
           sequenceValidator_deduplicateSequenceRequest
             sequenceName data priority in
         if isDuplicate deduplicationResult then
           handleDuplicateSequence sequenceName deduplicationResult
         else
           recordSequenceExecution (hash deduplicationResult) ;;
           let* orchestrationMetadata :=
             extractOrchestrationMetadata sequenceName data in
           let* conflictResult :=
             checkResourceConflicts orchestrationMetadata priority in
           if decide (resolution conflictResult = REJECT) then
             console WARN
               ["🎼 SequenceOrchestrator: Sequence request rejected - "
                  +:+ message conflictResult] ;;
             throw {| error_message :=
                        "Resource conflict: " +:+ message conflictResult |}
           else
             let* sequenceRequest :=
               createSequenceRequest sequenceName data priority requestId
                 orchestrationMetadata conflictResult
                 (hash deduplicationResult) in
             statisticsManager_recordSequenceQueued ;;
             executionQueue_enqueue sequenceRequest ;;
             processQueueIfIdle ;;
             emitSequenceQueuedEvent sequenceName requestId priority ;;
             console LOG
               ["🎼 SequenceOrchestrator: Sequence " +:+ sequenceName
                  +:+ " queued successfully"] ;;
             ret {| start_requestId := requestId;
                    start_success := true;
                    start_reason := None;
                    start_isDuplicate := None |}
     end)
    (fun error =>
       console ERROR
         ["🎼 SequenceOrchestrator: Failed to start sequence: " +:+ sequenceName;
          error_message error] ;;
       statisticsManager_recordError ;;
       ret {| start_requestId := requestId;
              start_success := false;
              start_reason := Some (error_message error);
              start_isDuplicate := None |}).

(** The call as the signature has it: [data = {}] and
    [priority = SEQUENCE_PRIORITIES.NORMAL] when the argument is left out. *)
Definition startSequence_call (sequenceName : string) (data : option Data)
  (priority : option SequencePriority) : M SequenceStartResult :=
  startSequence sequenceName (default ∅ data) (default NORMAL priority).

(** [createExecutionContext] *)
Definition createExecutionContext (sequenceRequest : SequenceRequest)
  : M SequenceExecutionContext :=
  let* baseContext :=
    sequenceUtilities_createExecutionContext sequenceRequest in
  let* sequence := sequenceRegistry_get (sequenceName sequenceRequest) in
  match sequence with
  | None =>
      throw {| error_message :=
                 "Sequence " +:+ sequenceName sequenceRequest +:+ " not found" |}
  | Some sequence =>
      ret {| ctx_request := ctx_request baseContext;
             ctx_payload := ctx_payload baseContext;
             ctx_sequence := Some sequence;
             ctx_executionType :=
               if decide (priority sequenceRequest = HIGH)
               then IMMEDIATE else CONSECUTIVE;
             ctx_priority := priority sequenceRequest |}
  end.

(** [getDebugInfo]; [x?.sequenceName || null] is [null] for an absent
    sequence and for an empty name. *)
Record DebugInfo := {
  queueSize : nat;
  isExecuting : bool;
  currentSequence : option string;
  processedSequences : nat
}.

Definition getDebugInfo : M DebugInfo :=
  let* size := executionQueue_size in
  let* running := sequenceExecutor_isSequenceRunning in
  let* current := sequenceExecutor_getCurrentSequence in
  ret {| queueSize := size;
         isExecuting := running;
         currentSequence :=
           match current with
           | Some c =>
               if decide (sequenceName c = "") then None
               else Some (sequenceName c)
           | None => None
           end;
         processedSequences := 0 |}.

(** *** Turns of the event loop *)

(** The promise of the oldest parked activation settles: the executor has
    let go of its sequence, and the activation runs on from its [await]. *)
Definition settle (outcome : Settlement) : M (option QueueProcessingResult) :=
  fun w =>
    match awaiting w with
    | [] => Normal None w
    | nextRequest :: rest =>
        bind (processSequenceQueue_resume nextRequest outcome)
          (fun r => ret (Some r))
          (set_awaiting rest
             (set_sequenceExecutor
                (settled nextRequest outcome (sequenceExecutor w))
                (journal (ExecutionSettled nextRequest outcome) w)))
    end.

(** What can happen in one turn: a client starts a sequence, a client calls
    the drainer, or the executor's promise settles. *)
Inductive Turn :=
| CallStartSequence (sequenceName : string) (data : Data)
    (priority : SequencePriority)
| CallProcessSequenceQueue
| ExecutorSettles (outcome : Settlement).

Definition world_of {A} (c : Completion World A) (w : World) : World :=
  match c with
  | Normal _ w' => w'
  | Thrown _ w' => w'
  | Exhausted => w
  end.

Definition turn (t : Turn) (w : World) : World :=
  match t with
  | CallStartSequence n d p => world_of (startSequence n d p w) w
  | CallProcessSequenceQueue => world_of (processSequenceQueue w) w
  | ExecutorSettles outcome => world_of (settle outcome w) w
  end.

Definition run (ts : list Turn) (w : World) : World :=
  fold_left (fun w t => turn t w) ts w.

(** *** Names for what a call of [startSequence] computes on the way *)

(** The request id generated when the clock stands at [t]. *)
Definition requestId_at (sequenceName : string) (t : nat) : string :=
  sequenceName +:+ "-" +:+ pretty (Date_now t) +:+ "-"
    +:+ Math_random_suffix (S t).

(** The id [handleDuplicateSequence] generates when the clock stands at [t]. *)
Definition duplicateRequestId_at (sequenceName : string) (t : nat) : string :=
  sequenceName +:+ "-duplicate-" +:+ pretty (Date_now t) +:+ "-"
    +:+ Math_random_suffix (S t).

(** The metadata extracted for a request that was given instance id [i]. *)
Definition metadata_for (sequenceName : string) (data : Data) (i : string)
  : OrchestrationMetadata :=
  {| symphonyName := extractSymphonyName sequenceName;
     resourceId := extractResourceId sequenceName data;
     instanceId := i |}.

(** The console lines of [logSequenceNotFound]. *)
Definition notFound_lines (sequenceName : string) (names : list string)
  : list Effect :=
  [ Console ERROR
      ["❌ SequenceOrchestrator: Sequence " +:+ dq +:+ sequenceName +:+ dq
         +:+ " not found!"];
    Console ERROR
      ["❌ This means the plugin for " +:+ dq +:+ sequenceName +:+ dq
         +:+ " is not loaded or registered."];
    Console ERROR ("❌ Available sequences:" :: names) ]
  ++ (if decide (sequenceName = "ElementLibrary.library-drop-symphony")
      then [ Console ERROR
               ["❌ CRITICAL: ElementLibrary.library-drop-symphony not available - drag-and-drop will not work!"];
             Console ERROR
               ["❌ Check plugin loading logs above for ElementLibrary.library-drop-symphony errors."] ]
      else []).

(** The journal entries of the [catch] block of [startSequence]. *)
Definition catch_lines (sequenceName : string) (error : JsError)
  : list Effect :=
  [ Console ERROR
      ["🎼 SequenceOrchestrator: Failed to start sequence: " +:+ sequenceName;
       error_message error];
    Statistics recordError ].

(** The result of the [catch] block. *)
Definition failed (requestId : string) (error : JsError)
  : SequenceStartResult :=
  {| start_requestId := requestId;
     start_success := false;
     start_reason := Some (error_message error);
     start_isDuplicate := None |}.

(** The two errors [startSequence] throws itself. *)
Definition notFound_error (sequenceName : string) : JsError :=
  {| error_message :=
       "Sequence " +:+ dq +:+ sequenceName +:+ dq +:+ " not found" |}.

Definition conflict_error (conflictResult : ResourceConflictResult) : JsError :=
  {| error_message := "Resource conflict: " +:+ message conflictResult |}.

(** What the validator answers in world [w]. *)
Definition deduplication (sequenceName : string) (data : Data)
  (priority : SequencePriority) (w : World)
  : Except DeduplicationResult * V :=
  deduplicateSequenceRequest sequenceName data priority (sequenceValidator w).

(** The instance id the utilities hand out in world [w]. *)
Definition instanceId_in (sequenceName : string) (data : Data) (w : World)
  : string :=
  (createSequenceInstanceId sequenceName data "NORMAL" (sequenceUtilities w)).1.

(** What the delegator answers in world [w]. *)
Definition delegation (sequenceName : string) (data : Data)
  (priority : SequencePriority) (w : World) : Except DelegatorResult * D :=
  checkResourceConflict (extractResourceId sequenceName data)
    (instanceId_in sequenceName data w) priority (resourceDelegator w).

(** The request [createSequenceRequest] builds in world [w]. *)
Definition request_in (sequenceName : string) (data : Data)
  (priority : SequencePriority) (deduplicationResult : DeduplicationResult)
  (delegatorResult : DelegatorResult) (w : World) : SequenceRequest :=
  {| sequenceName := sequenceName;
     data :=
       request_data data
         (metadata_for sequenceName data (instanceId_in sequenceName data w))
         (toConflictResult delegatorResult) (hash deduplicationResult);
     priority := priority;
     requestId := requestId_at sequenceName (clock w);
     queuedAt := performance_now (S (S (clock w))) |}.

Definition recording_line (sequenceHash : string) : Effect :=
  Console LOG
    ["🎼 SequenceOrchestrator: Recording sequence execution: " +:+ sequenceHash].

Definition rejected_line (conflictResult : ResourceConflictResult) : Effect :=
  Console WARN
    ["🎼 SequenceOrchestrator: Sequence request rejected - "
       +:+ message conflictResult].

Definition duplicate_line (deduplicationResult : DeduplicationResult) : Effect :=
  Console WARN
    ["🎼 SequenceOrchestrator: " +:+ dedup_reason deduplicationResult].

Definition queued_line (sequenceName : string) : Effect :=
  Console LOG
    ["🎼 SequenceOrchestrator: Sequence " +:+ sequenceName
       +:+ " queued successfully"].

(** The payload of SEQUENCE_CANCELLED. *)
Definition cancelled_payload (sequenceName requestId sequenceHash : string)
  : list (string * Value) :=
  [("sequenceName", VString sequenceName);
   ("requestId", VString requestId);
   ("reason", VString "duplicate-request");
   ("hash", VString sequenceHash)].

(** The payload of SEQUENCE_QUEUED. *)
Definition queued_payload (sequenceName requestId : string)
  (priority : SequencePriority) (queueLength : nat) : list (string * Value) :=
  [("sequenceName", VString sequenceName);
   ("requestId", VString requestId);
   ("priority", VString (priority_literal priority));
   ("queueLength", VNumber (Z.of_nat queueLength))].

(** The world right after phase 7 of an admission: the hash is logged, the
    queued statistic recorded, the request enqueued. *)
Definition enqueued (request : SequenceRequest) (sequenceHash : string)
  (v : V) (u : U) (dl : D) (w : World) : World :=
  {| sequenceRegistry := sequenceRegistry w;
     executionQueue := ExecutionQueue.enqueue request (executionQueue w);
     sequenceExecutor := sequenceExecutor w;
     sequenceValidator := v;
     sequenceUtilities := u;
     resourceDelegator := dl;
     clock := S (S (S (clock w)));
     awaiting := awaiting w;
     trace := trace w ++ [recording_line sequenceHash;
                          Statistics recordSequenceQueued;
                          Enqueue request] |}.

(** The world at the end of an admission, from the world [w2] that phase 8
    left: SEQUENCE_QUEUED is published with the length the queue has then. *)
Definition announced (sequenceName requestId : string)
  (priority : SequencePriority) (w2 : World) : World :=
  journal (queued_line sequenceName)
    (journal
       (Emit SEQUENCE_QUEUED
          (queued_payload sequenceName requestId priority
             (ExecutionQueue.size (executionQueue w2))))
       w2).

Definition succeeded (requestId : string) : SequenceStartResult :=
  {| start_requestId := requestId;
     start_success := true;
     start_reason := None;
     start_isDuplicate := None |}.

(** The entries the statistics manager and the queue receive, as
    predicates on journal entries. *)
Definition is_enqueue (e : Effect) : bool :=
  match e with Enqueue _ => true | _ => false end.

Definition is_recordSequenceQueued (e : Effect) : bool :=
  match e with Statistics recordSequenceQueued => true | _ => false end.

Definition is_emit (e : Effect) : bool :=
  match e with Emit _ _ => true | _ => false end.

Definition is_statistics (e : Effect) : bool :=
  match e with Statistics _ => true | _ => false end.

(** The orchestration state a failed admission must leave alone. *)
Record untouched (w w' : World) : Prop := {
  same_registry : sequenceRegistry w' = sequenceRegistry w;
  same_queue : executionQueue w' = executionQueue w;
  same_executor : sequenceExecutor w' = sequenceExecutor w;
  same_awaiting : awaiting w' = awaiting w
}.

(** Executions do not overlap: in the journal every execution begins
    after the one before has ended, the executor holds a sequence exactly
    when the last one has not ended yet, and exactly then one activation of
    the drainer is parked on it. *)
Record serial (w : World) : Prop := {
  serial_journal :
    alternate false (executions (trace w))
    = Some (isSequenceRunning (sequenceExecutor w));
  serial_parked :
    length (awaiting w)
    = if isSequenceRunning (sequenceExecutor w) then 1 else 0
}.

(** The executor is idle and the queue holds something to drain. *)
Definition drainable (w : World) : bool :=
  negb (ExecutionQueue.isEmpty (executionQueue w))
  && negb (isSequenceRunning (sequenceExecutor w)).

(** The world in which [processSequenceQueue] goes on after it has taken
    [nextRequest] off the queue and found its sequence missing: the request
    is off the queue, the clock is read once, the wait time and the console
    line are journalled. *)
Definition skipped (nextRequest : SequenceRequest)
  (rest : list SequenceRequest) (w : World) : World :=
  journal
    (Console ERROR
       ["❌ SequenceOrchestrator: Sequence " +:+ sequenceName nextRequest
          +:+ " not found in registry"])
    (journal
       (Statistics
          (updateQueueWaitTime
             (performance_now (clock w) - queuedAt nextRequest)%Z))
       (set_clock (S (clock w))
          (set_executionQueue rest (journal (Dequeue nextRequest) w)))).

(** The world in which the activation is parked after it has taken
    [nextRequest] off the queue and handed it to the executor. *)
Definition handed (nextRequest : SequenceRequest) (sequence : Sequence)
  (rest : list SequenceRequest) (w : World) : World :=
  set_awaiting (awaiting w ++ [nextRequest])
    (set_sequenceExecutor
       (executeSequence nextRequest sequence
          (sequenceExecutor w))
       (journal (ExecuteSequence nextRequest sequence)
          (journal
             (Statistics
                (updateQueueWaitTime
                   (performance_now (clock w) - queuedAt nextRequest)%Z))
             (set_clock (S (clock w))
                (set_executionQueue rest (journal (Dequeue nextRequest) w)))))).

(** What a run of the drainer may change: it takes requests off the front of
    the queue, journals drainer calls [es], and hands at most one request to
    an idle executor.  The registry and the other collaborators are as
    before. *)
Record drained_by (es : list Effect) (w w' : World) : Prop := {
  drained_registry : sequenceRegistry w' = sequenceRegistry w;
  drained_validator : sequenceValidator w' = sequenceValidator w;
  drained_utilities : sequenceUtilities w' = sequenceUtilities w;
  drained_delegator : resourceDelegator w' = resourceDelegator w;
  drained_queue : exists taken, executionQueue w = taken ++ executionQueue w';
  drained_trace : trace w' = trace w ++ es;
  drained_effects : Forall (fun e => drainer_effect e = true) es;
  drained_executor :
    (sequenceExecutor w' = sequenceExecutor w /\ awaiting w' = awaiting w
     /\ executions es = [])
    \/ (isSequenceRunning (sequenceExecutor w) = false
        /\ exists r s,
             sequenceExecutor w' = executeSequence r s (sequenceExecutor w)
             /\ awaiting w' = awaiting w ++ [r]
             /\ executions es = [true])
}.

Definition drained (w w' : World) : Prop := exists es, drained_by es w w'.

(** The six ways through [startSequence], each with the result it returns
    and the world it leaves.  [startSequence_paths] shows that every call
    takes one of them. *)
Inductive Admission (w : World) (n : string) (d : Data) (p : SequencePriority)
  : SequenceStartResult -> World -> Prop :=
| path_not_found w' :
    sequenceRegistry w !! n = None ->
    trace w'
    = trace w ++ notFound_lines n ((map_to_list (sequenceRegistry w)).*1)
        ++ catch_lines n (notFound_error n) ->
    untouched w w' ->
    Admission w n d p
      (failed (requestId_at n (clock w)) (notFound_error n)) w'
| path_validator_threw s e w' :
    sequenceRegistry w !! n = Some s ->
    (deduplication n d p w).1 = Raises e ->
    trace w' = trace w ++ catch_lines n e ->
    untouched w w' ->
    Admission w n d p (failed (requestId_at n (clock w)) e) w'
| path_duplicate s dd w' :
    sequenceRegistry w !! n = Some s ->
    (deduplication n d p w).1 = Returns dd ->
    isDuplicate dd = true ->
    trace w'
    = trace w
        ++ [duplicate_line dd;
            Emit SEQUENCE_CANCELLED
              (cancelled_payload n
                 (duplicateRequestId_at n (S (S (clock w)))) (hash dd))] ->
    untouched w w' ->
    Admission w n d p
      {| start_requestId := duplicateRequestId_at n (S (S (clock w)));
         start_success := false;
         start_reason := Some (dedup_reason dd);
         start_isDuplicate := Some true |} w'
| path_delegator_threw s dd e w' :
    sequenceRegistry w !! n = Some s ->
    (deduplication n d p w).1 = Returns dd ->
    isDuplicate dd = false ->
    (delegation n d p w).1 = Raises e ->
    trace w' = trace w ++ recording_line (hash dd) :: catch_lines n e ->
    untouched w w' ->
    Admission w n d p (failed (requestId_at n (clock w)) e) w'
| path_rejected s dd dr w' :
    sequenceRegistry w !! n = Some s ->
    (deduplication n d p w).1 = Returns dd ->
    isDuplicate dd = false ->
    (delegation n d p w).1 = Returns dr ->
    delegator_resolution dr = "reject" ->
    trace w'
    = trace w
        ++ recording_line (hash dd) :: rejected_line (toConflictResult dr)
        :: catch_lines n (conflict_error (toConflictResult dr)) ->
    untouched w w' ->
    Admission w n d p
      (failed (requestId_at n (clock w))
         (conflict_error (toConflictResult dr))) w'
| path_admitted s dd dr w2 :
    sequenceRegistry w !! n = Some s ->
    (deduplication n d p w).1 = Returns dd ->
    isDuplicate dd = false ->
    (delegation n d p w).1 = Returns dr ->
    delegator_resolution dr <> "reject" ->
    let w1 :=
      enqueued (request_in n d p dd dr w) (hash dd)
        (deduplication n d p w).2
        (createSequenceInstanceId n d "NORMAL" (sequenceUtilities w)).2
        (delegation n d p w).2 w in
    (if isSequenceRunning (sequenceExecutor w)
     then w2 = w1
     else exists a, processSequenceQueue w1 = Normal a w2) ->
    drained w1 w2 ->
    Admission w n d p
      (succeeded (requestId_at n (clock w)))
      (announced n (requestId_at n (clock w)) p w2).

End Orchestrator.

Arguments World : clear implicits.
Arguments M : clear implicits.

(** ** Reference collaborators

    Implementations of the three interfaces after the specification, and a
    host.  The general theorems do not depend on them; they supply the
    concrete runs. *)

Module Reference.

(** Modelled from the spec: [SequenceValidator.deduplicateSequenceRequest]
    (section 4.3) over the DedupWindow (section 3), a list of
    [(hash, insertedAt)].  A request is a duplicate iff its hash is in the
    window; the hash is returned either way, for the orchestrator to record.
    The canonical hash is a parameter. *)
Abbreviation DedupWindow := (list (string * Z)).

Definition in_window (h : string) (w : DedupWindow) : bool :=
  bool_decide (h ∈ w.*1).

Definition window_validator
  (canonicalHash : string -> Data -> SequencePriority -> string)
  : SequenceValidator DedupWindow := {|
  deduplicateSequenceRequest n d p w :=
    let h := canonicalHash n d p in
    if in_window h w
    then (Returns {| isDuplicate := true; hash := h;
                     dedup_reason := "Duplicate sequence request: " +:+ n |}, w)
    else (Returns {| isDuplicate := false; hash := h;
                     dedup_reason := "New request" |}, w)
|}.

(** Everything before the last dot of [s], if it has one. *)
Fixpoint up_to_last_dot (s : string) : option string :=
  match s with
  | EmptyString => None
  | String c rest =>
      match up_to_last_dot rest with
      | Some t => Some (String c t)
      | None => if decide (c = "."%char) then Some EmptyString else None
      end
  end.

(** Everything before the first colon of [s]. *)
Fixpoint before_colon (s : string) : string :=
  match s with
  | EmptyString => EmptyString
  | String c rest =>
      if decide (c = ":"%char) then EmptyString else String c (before_colon rest)
  end.

Definition symphony_of (n : string) : string := default n (up_to_last_dot n).

Definition resource_of (n : string) (d : Data) : string :=
  match d !! "elementId" with
  | Some (VString e) => e
  | _ =>
      match d !! "resourceId" with
      | Some (VString r) => r
      | _ => symphony_of n
      end
  end.

(** Modelled from the spec: [SequenceUtilities] (section 4.4).  The state is
    the monotonic counter of instance ids. *)
#[global] Instance counter_utilities : SequenceUtilities nat := {|
  extractSymphonyName := symphony_of;
  extractResourceId := resource_of;
  createSequenceInstanceId n d tag counter :=
    (n +:+ ":" +:+ resource_of n d +:+ ":" +:+ pretty counter, S counter);
  utilities_createExecutionContext r counter :=
    {| ctx_request := r;
       ctx_sequence := None;
       ctx_executionType := CONSECUTIVE;
       ctx_priority := NORMAL;
       ctx_payload := ∅ |}
|}.

(** Modelled from the spec: [ResourceDelegator] (section 4.5): the ownership
    table and the resources configured in strict mode. *)
Record Ownership := {
  owners : gmap string (string * SequencePriority);
  strict : list string
}.

Definition take (resourceId instanceId : string) (p : SequencePriority)
  (o : Ownership) : Ownership :=
  {| owners := <[resourceId := (instanceId, p)]> (owners o);
     strict := strict o |}.

Definition same_symphony (i j : string) : bool :=
  bool_decide (symphony_of (before_colon i) = symphony_of (before_colon j)).

#[global] Instance table_delegator : ResourceDelegator Ownership := {|
  checkResourceConflict resourceId instanceId p o :=
    match owners o !! resourceId with
    | None =>
        (Returns {| delegator_hasConflict := false;
                    delegator_resolution := "allow";
                    delegator_reason := None |},
         take resourceId instanceId p o)
    | Some (owner, ownerPriority) =>
        if decide (owner = instanceId) then
          (Returns {| delegator_hasConflict := false;
                      delegator_resolution := "allow";
                      delegator_reason := None |}, o)
        else if bool_decide (p = HIGH) && negb (bool_decide (ownerPriority = HIGH))
        then
          (Returns {| delegator_hasConflict := true;
                      delegator_resolution := "override";
                      delegator_reason := Some "Higher priority request" |},
           take resourceId instanceId p o)
        else if bool_decide (p = CHAINED) && same_symphony owner instanceId
        then
          (Returns {| delegator_hasConflict := true;
                      delegator_resolution := "queue";
                      delegator_reason := Some "Chained behind its symphony" |},
           o)
        else if bool_decide (resourceId ∈ strict o) then
          (Returns {| delegator_hasConflict := true;
                      delegator_resolution := "reject";
                      delegator_reason :=
                        Some ("Resource " +:+ resourceId +:+ " is owned by "
                                +:+ owner) |}, o)
        else
          (Returns {| delegator_hasConflict := true;
                      delegator_resolution := "queue";
                      delegator_reason := Some "Resource is busy" |}, o)
    end
|}.

(** Modelled from the spec: [SequenceExecutor] (section 4.7) reduced to its
    current sequence, set by [executeSequence] and cleared at settlement. *)
#[global] Instance current_executor
  : SequenceExecutor (option SequenceRequest) := {|
  isSequenceRunning e := match e with Some _ => true | None => false end;
  getCurrentSequence e := e;
  executeSequence r s e := Some r;
  settled r o e := None
|}.

(** The conductor over the reference collaborators. *)
Abbreviation Conductor :=
  (World DedupWindow nat Ownership (option SequenceRequest)).

(** A host whose clocks advance with every read. *)
#[global] Instance stepping_host : Host := {|
  Date_now t := (1700000000000 + Z.of_nat t)%Z;
  Math_random_suffix t := "r" +:+ pretty t;
  performance_now t := (10 * Z.of_nat t)%Z
|}.

(** A canonical text of the request stands for its hash here. *)
Definition textual_hash (n : string) (d : Data) (p : SequencePriority) : string :=
  n +:+ "|" +:+ priority_literal p +:+ "|"
    +:+ String.concat "," ((map_to_list d).*1).

#[global] Instance textual_validator : SequenceValidator DedupWindow :=
  window_validator textual_hash.

Definition ping : Sequence :=
  {| name := "Demo.ping-symphony"; tempo := 120;
     movements :=
       [ {| movement_name := "main";
            beats := [ {| beat := 1; event := "a" |};
                       {| beat := 2; event := "b" |};
                       {| beat := 3; event := "c" |} ] |} ] |}.

(** A fresh conductor with one registered sequence. *)
Definition fresh : Conductor :=
  {| sequenceRegistry := {[ "Demo.ping-symphony" := ping ]};
     executionQueue := [];
     sequenceExecutor := None;
     sequenceValidator := [];
     sequenceUtilities := 0;
     resourceDelegator := {| owners := ∅; strict := [] |};
     clock := 0;
     awaiting := [];
     trace := [] |}.

(** The conductor while the sequence it was just asked to play is running. *)
Definition playing : Conductor :=
  run [CallStartSequence "Demo.ping-symphony" ∅ NORMAL] fresh.

(** A request admitted earlier, for a sequence that has since been
    unregistered. *)
Definition orphan : SequenceRequest :=
  {| sequenceName := "Demo.gone-symphony";
     data := ∅;
     priority := NORMAL;
     requestId := "Demo.gone-symphony-1699999999000-r0";
     queuedAt := 0 |}.

(** An idle conductor whose queue holds [orphan]. *)
Definition orphaned : Conductor :=
  {| sequenceRegistry := {[ "Demo.ping-symphony" := ping ]};
     executionQueue := [orphan];
     sequenceExecutor := None;
     sequenceValidator := [];
     sequenceUtilities := 0;
     resourceDelegator := {| owners := ∅; strict := [] |};
     clock := 0;
     awaiting := [];
     trace := [] |}.

(** A conductor whose window already holds the hash of the request
    [("Demo.ping-symphony", {}, NORMAL)]. *)
Definition replayed : Conductor :=
  {| sequenceRegistry := {[ "Demo.ping-symphony" := ping ]};
     executionQueue := [];
     sequenceExecutor := None;
     sequenceValidator := [(textual_hash "Demo.ping-symphony" ∅ NORMAL, 0%Z)];
     sequenceUtilities := 0;
     resourceDelegator := {| owners := ∅; strict := [] |};
     clock := 0;
     awaiting := [];
     trace := [] |}.

(** A conductor whose resource [Demo] is in strict mode and owned by another
    instance. *)
Definition contended : Conductor :=
  {| sequenceRegistry := {[ "Demo.ping-symphony" := ping ]};
     executionQueue := [];
     sequenceExecutor := None;
     sequenceValidator := [];
     sequenceUtilities := 0;
     resourceDelegator :=
       {| owners := {[ "Demo" := ("Other.pong-symphony:Demo:7", NORMAL) ]};
          strict := ["Demo"] |};
     clock := 0;
     awaiting := [];
     trace := [] |}.

(** The conductor after it was asked to play a sequence nobody registered. *)
Definition refused : Conductor :=
  run [CallStartSequence "Demo.pong" ∅ NORMAL] fresh.

(** What the validator and the delegator answer the first request for
    [ping] in [fresh], and what the validator answers in [replayed]. *)
Definition unseen : DeduplicationResult :=
  {| isDuplicate := false;
     hash := "Demo.ping-symphony|NORMAL|";
     dedup_reason := "New request" |}.

Definition seen : DeduplicationResult :=
  {| isDuplicate := true;
     hash := "Demo.ping-symphony|NORMAL|";
     dedup_reason := "Duplicate sequence request: Demo.ping-symphony" |}.

Definition allowed : DelegatorResult :=
  {| delegator_hasConflict := false;
     delegator_resolution := "allow";
     delegator_reason := None |}.

Definition denied : DelegatorResult :=
  {| delegator_hasConflict := true;
     delegator_resolution := "reject";
     delegator_reason :=
       Some "Resource Demo is owned by Other.pong-symphony:Demo:7" |}.

Definition boom : JsError := {| error_message := "boom" |}.

(** [orphaned] after a call of the drainer, [replayed] after the play it has
    seen before, [playing] after the executor's promise rejected. *)
Definition orphan_skipped : Conductor :=
  run [CallProcessSequenceQueue] orphaned.

Definition replay_cancelled : Conductor :=
  run [CallStartSequence "Demo.ping-symphony" ∅ NORMAL] replayed.

Definition play_failed : Conductor :=
  run [ExecutorSettles (Rejected boom)] playing.

(** A HIGH request for the registered sequence. *)
Definition urgent : SequenceRequest :=
  {| sequenceName := "Demo.ping-symphony";
     data := ∅;
     priority := HIGH;
     requestId := "Demo.ping-symphony-1700000000000-r1";
     queuedAt := 0 |}.

End Reference.

(** ** Accounts of the journal

    What the queue, the executor and the bus were asked to do, read off the
    journal, and names for the entries the drainer writes. *)

(** The requests passed to [executionQueue.enqueue], oldest first. *)
Fixpoint enqueues (t : list Effect) : list SequenceRequest :=
  match t with
  | [] => []
  | Enqueue r :: t' => r :: enqueues t'
  | _ :: t' => enqueues t'
  end.

(** The requests [executionQueue.dequeue] returned, oldest first. *)
Fixpoint dequeues (t : list Effect) : list SequenceRequest :=
  match t with
  | [] => []
  | Dequeue r :: t' => r :: dequeues t'
  | _ :: t' => dequeues t'
  end.

(** The arguments of the calls of [executeSequence], oldest first. *)
Fixpoint handed_over (t : list Effect) : list (SequenceRequest * Sequence) :=
  match t with
  | [] => []
  | ExecuteSequence r s :: t' => (r, s) :: handed_over t'
  | _ :: t' => handed_over t'
  end.

(** The number of calls of [recordSequenceQueued]. *)
Fixpoint queued_calls (t : list Effect) : nat :=
  match t with
  | [] => 0
  | Statistics recordSequenceQueued :: t' => S (queued_calls t')
  | _ :: t' => queued_calls t'
  end.

(** The member [key] of a payload object literal. *)
Fixpoint payload_get (key : string) (payload : list (string * Value))
  : option Value :=
  match payload with
  | [] => None
  | (k, v) :: rest => if decide (k = key) then Some v else payload_get key rest
  end.

(** The [requestId] members of the SEQUENCE_QUEUED events, oldest first. *)
Fixpoint announced_ids (t : list Effect) : list string :=
  match t with
  | [] => []
  | Emit SEQUENCE_QUEUED payload :: t' =>
      match payload_get "requestId" payload with
      | Some (VString i) => i :: announced_ids t'
      | _ => announced_ids t'
      end
  | _ :: t' => announced_ids t'
  end.

(** A request id begins with the name of its sequence and a dash. *)
Definition names_sequence (id sequenceName : string) : Prop :=
  exists tail, id = sequenceName +:+ "-" +:+ tail.

(** The calls the class makes on the bus and on the statistics manager:
    the topics SEQUENCE_QUEUED and SEQUENCE_CANCELLED, and the methods
    [recordSequenceQueued], [recordError] and [updateQueueWaitTime]. *)
Definition reported (e : Effect) : bool :=
  match e with
  | Emit SEQUENCE_QUEUED _ | Emit SEQUENCE_CANCELLED _ => true
  | Emit _ _ => false
  | Statistics recordSequenceQueued | Statistics recordError
  | Statistics (updateQueueWaitTime _) => true
  | Statistics _ => false
  | _ => true
  end.

Section Accounts.

Context {V U D E : Type}.
Context `{!SequenceValidator V, !SequenceUtilities U, !ResourceDelegator D}.
Context `{!SequenceExecutor E, !Host}.

(** The wait-time statistic [processSequenceQueue] records for
    [nextRequest] when the clock stands at [t]. *)
Definition wait_line (t : nat) (nextRequest : SequenceRequest) : Effect :=
  Statistics
    (updateQueueWaitTime (performance_now t - queuedAt nextRequest)%Z).

(** The console line for a dequeued request whose sequence is missing, and
    the result the activation resolves with. *)
Definition missing_line (nextRequest : SequenceRequest) : Effect :=
  Console ERROR
    ["❌ SequenceOrchestrator: Sequence " +:+ sequenceName nextRequest
       +:+ " not found in registry"].

Definition not_in_registry (nextRequest : SequenceRequest)
  : QueueProcessingResult :=
  {| processed := true;
     drain_sequenceName := Some (sequenceName nextRequest);
     drain_success := Some false;
     drain_error := Some "Sequence not found in registry" |}.

(** The console line of the [catch] block of [processSequenceQueue]. *)
Definition failure_line (nextRequest : SequenceRequest) (error : JsError)
  : Effect :=
  Console ERROR
    ["❌ SequenceOrchestrator: Failed to execute sequence "
       +:+ sequenceName nextRequest +:+ ":";
     error_message error].

(** What the drainer journals while it takes [orphans] off the queue, one
    after the other from clock [t] on, and finds no sequence for any. *)
Fixpoint skip_lines (t : nat) (orphans : list SequenceRequest) : list Effect :=
  match orphans with
  | [] => []
  | r :: rest =>
      Dequeue r :: wait_line t r :: missing_line r :: skip_lines (S t) rest
  end.

(** The result an activation resolves with once the promise of
    [executeSequence] for [nextRequest] has settled. *)
Definition settled_result (nextRequest : SequenceRequest)
  (outcome : Settlement) : QueueProcessingResult :=
  {| processed := true;
     drain_sequenceName := Some (sequenceName nextRequest);
     drain_success :=
       Some (match outcome with Fulfilled => true | Rejected _ => false end);
     drain_error :=
       match outcome with
       | Fulfilled => None
       | Rejected error => Some (error_message error)
       end |}.

(** The books of a step from [w] to [w'] that journals [es]: the registry
    is as before; the requests that were in the queue or were enqueued are
    those that were dequeued or are still in the queue; a dequeued request
    is handed to the executor exactly when its sequence is registered, with
    that sequence; every enqueue is counted once and announced once, under
    the id of the request; the bus and the statistics manager receive only
    the calls listed in [reported]. *)
Record accounted (es : list Effect) (w w' : World V U D E) : Prop := {
  accounted_trace : trace w' = trace w ++ es;
  accounted_registry : sequenceRegistry w' = sequenceRegistry w;
  accounted_queue :
    executionQueue w ++ enqueues es ≡ₚ dequeues es ++ executionQueue w';
  accounted_handed :
    handed_over es
    = omap (fun r => pair r <$> (sequenceRegistry w !! sequenceName r))
        (dequeues es);
  accounted_announced : announced_ids es = requestId <$> enqueues es;
  accounted_counted : queued_calls es = length (enqueues es);
  accounted_reported : Forall (fun e => reported e = true) es
}.

End Accounts.

(** ** Admission when the calls of phases 7 to 9 throw

    [startSequence] once more, with the calls it makes after it has built
    the request, on the statistics manager, the queue and the executor
    ([recordSequenceQueued], [enqueue], [isSequenceRunning], [size]),
    allowed to throw.  A call that throws has no other effect.  The call
    of the [async] method [processSequenceQueue] returns a promise and does
    not throw. *)

(** Which of the four calls throw, and what. *)
Record Faults := {
  recordSequenceQueued_throws : option JsError;
  enqueue_throws : option JsError;
  isSequenceRunning_throws : option JsError;
  size_throws : option JsError
}.

Definition no_faults : Faults :=
  {| recordSequenceQueued_throws := None;
     enqueue_throws := None;
     isSequenceRunning_throws := None;
     size_throws := None |}.

Section Faulty.

Context {V U D E : Type}.
Context `{!SequenceValidator V, !SequenceUtilities U, !ResourceDelegator D}.
Context `{!SequenceExecutor E, !Host}.

Notation "'let*' x ':=' m 'in' k" := (bind m (fun x => k))
  (at level 10, x name, m at level 100, k at level 200, only parsing).
Notation "m ';;' k" := (bind m (fun _ => k))
  (at level 100, k at level 200, right associativity, only parsing).

Definition may_throw {A} (fault : option JsError) (call : M V U D E A)
  : M V U D E A :=
  match fault with
  | Some error => throw error
  | None => call
  end.

(** [processQueueIfIdle] *)
Definition processQueueIfIdle_under (f : Faults) : M V U D E unit :=
  let* running :=
    may_throw (isSequenceRunning_throws f) sequenceExecutor_isSequenceRunning in
  if (running : bool) then ret tt
  else processSequenceQueue ;; ret tt.

(** [emitSequenceQueuedEvent] *)
Definition emitSequenceQueuedEvent_under (f : Faults) (sequenceName : string)
  (requestId : string) (priority : SequencePriority) : M V U D E unit :=
  let* queueLength := may_throw (size_throws f) executionQueue_size in
  eventBus_emit SEQUENCE_QUEUED
    [("sequenceName", VString sequenceName);
     ("requestId", VString requestId);
     ("priority", VString (priority_literal priority));
     ("queueLength", VNumber (Z.of_nat queueLength))].

(** [startSequence] *)
Definition startSequence_under (f : Faults) (sequenceName : string)
  (data : Data) (priority : SequencePriority) : M V U D E SequenceStartResult :=
  let* requestId := generateRequestId sequenceName in
  try_catch
    (let* sequence := sequenceRegistry_get sequenceName in
     match sequence with
     | None =>
         logSequenceNotFound sequenceName ;;
         throw {| error_message :=
                    "Sequence " +:+ dq +:+ sequenceName +:+ dq +:+ " not found" |}
     | Some _ =>
         let* deduplicationResult :=
           sequenceValidator_deduplicateSequenceRequest
             sequenceName data priority in
         if isDuplicate deduplicationResult then
           handleDuplicateSequence sequenceName deduplicationResult
         else
           recordSequenceExecution (hash deduplicationResult) ;;
           let* orchestrationMetadata :=
             extractOrchestrationMetadata sequenceName data in
           let* conflictResult :=
             checkResourceConflicts orchestrationMetadata priority in
           if decide (resolution conflictResult = REJECT) then
             console WARN
               ["🎼 SequenceOrchestrator: Sequence request rejected - "
                  +:+ message conflictResult] ;;
             throw {| error_message :=
                        "Resource conflict: " +:+ message conflictResult |}
           else
             let* sequenceRequest :=
               createSequenceRequest sequenceName data priority requestId
                 orchestrationMetadata conflictResult
                 (hash deduplicationResult) in
             may_throw (recordSequenceQueued_throws f)
               statisticsManager_recordSequenceQueued ;;
             may_throw (enqueue_throws f)
               (executionQueue_enqueue sequenceRequest) ;;
             processQueueIfIdle_under f ;;
             emitSequenceQueuedEvent_under f sequenceName requestId priority ;;
             console LOG
               ["🎼 SequenceOrchestrator: Sequence " +:+ sequenceName
                  +:+ " queued successfully"] ;;
             ret {| start_requestId := requestId;
                    start_success := true;
                    start_reason := None;
                    start_isDuplicate := None |}
     end)
    (fun error =>
       console ERROR
         ["🎼 SequenceOrchestrator: Failed to start sequence: " +:+ sequenceName;
          error_message error] ;;
       statisticsManager_recordError ;;
       ret {| start_requestId := requestId;
              start_success := false;
              start_reason := Some (error_message error);
              start_isDuplicate := None |}).

End Faulty.

(** ** Further scenes

    Worlds and test doubles for the concrete runs of the further
    properties. *)

Module Scenes.

Import Reference.

(** A validator whose check throws, whatever the request. *)
#[global] Instance throwing_validator : SequenceValidator unit := {|
  deduplicateSequenceRequest n d p v := (Raises boom, v)
|}.

(** A conductor over that validator, with [ping] registered. *)
Definition jinxed : World unit nat Ownership (option SequenceRequest) :=
  {| sequenceRegistry := {[ "Demo.ping-symphony" := ping ]};
     executionQueue := [];
     sequenceExecutor := None;
     sequenceValidator := tt;
     sequenceUtilities := 0;
     resourceDelegator := {| owners := ∅; strict := [] |};
     clock := 0;
     awaiting := [];
     trace := [] |}.

(** Modelled from the spec: a validator over the DedupWindow (sections 3
    and 4.3) that records: its check inserts the hash of a request it lets
    pass.  Eviction after [W] ms is left out; the orchestrator passes no
    time to the validator. *)
Record Detector := { recent : list string }.

#[global] Instance recording_validator : SequenceValidator Detector := {|
  deduplicateSequenceRequest n d p v :=
    let h := textual_hash n d p in
    if bool_decide (h ∈ recent v)
    then (Returns {| isDuplicate := true; hash := h;
                     dedup_reason := "Duplicate sequence request: " +:+ n |}, v)
    else (Returns {| isDuplicate := false; hash := h;
                     dedup_reason := "New request" |},
          {| recent := h :: recent v |})
|}.

(** A fresh conductor over that validator, with [ping] registered. *)
Definition vigilant : World Detector nat Ownership (option SequenceRequest) :=
  {| sequenceRegistry := {[ "Demo.ping-symphony" := ping ]};
     executionQueue := [];
     sequenceExecutor := None;
     sequenceValidator := {| recent := [] |};
     sequenceUtilities := 0;
     resourceDelegator := {| owners := ∅; strict := [] |};
     clock := 0;
     awaiting := [];
     trace := [] |}.

(** The same conductor when the resource [Demo] is in strict mode and
    owned by another instance, so that the delegator rejects the play. *)
Definition wary : World Detector nat Ownership (option SequenceRequest) :=
  {| sequenceRegistry := {[ "Demo.ping-symphony" := ping ]};
     executionQueue := [];
     sequenceExecutor := None;
     sequenceValidator := {| recent := [] |};
     sequenceUtilities := 0;
     resourceDelegator :=
       {| owners := {[ "Demo" := ("Other.pong-symphony:Demo:7", NORMAL) ]};
          strict := ["Demo"] |};
     clock := 0;
     awaiting := [];
     trace := [] |}.



(** An idle conductor whose queue holds a request for a sequence that is
    gone, then one for [ping], then another one for the missing sequence. *)
Definition backlog : Conductor :=
  {| sequenceRegistry := {[ "Demo.ping-symphony" := ping ]};
     executionQueue := [orphan; urgent; orphan];
     sequenceExecutor := None;
     sequenceValidator := [];
     sequenceUtilities := 0;
     resourceDelegator := {| owners := ∅; strict := [] |};
     clock := 7;
     awaiting := [];
     trace := [] |}.

(** The conductor while [ping] is running and a second, HIGH request for it
    waits in the queue; the request that is running and the one waiting. *)
Definition encore : Conductor :=
  run [CallStartSequence "Demo.ping-symphony" ∅ NORMAL;
       CallStartSequence "Demo.ping-symphony" ∅ HIGH] fresh.

Definition on_stage : SequenceRequest := default orphan (head (awaiting encore)).

Definition in_the_wings : SequenceRequest :=
  default orphan (head (executionQueue encore)).

(** A busy evening: plays, a refused play, settlements and a stray call of
    the drainer. *)
Definition evening : list Turn :=
  [CallStartSequence "Demo.ping-symphony" ∅ NORMAL;
   CallStartSequence "Demo.ping-symphony" ∅ HIGH;
   CallStartSequence "Demo.pong" ∅ NORMAL;
   ExecutorSettles (Rejected boom);
   CallProcessSequenceQueue;
   ExecutorSettles Fulfilled;
   ExecutorSettles Fulfilled].

End Scenes.


(** * Properties *)

Section Drainer.

Context {V U D E : Type}.
Context `{!SequenceValidator V, !SequenceUtilities U, !ResourceDelegator D}.
Context `{!SequenceExecutor E, !Host}.

Implicit Types (w : World V U D E) (r : SequenceRequest).

(** ** The drainer *)

(** Unfold the calls on the collaborators and the monad. *)
Ltac calls :=
  unfold bind, ret, throw, executionQueue_isEmpty, executionQueue_size,
    executionQueue_enqueue, executionQueue_dequeue,
    sequenceExecutor_isSequenceRunning, sequenceExecutor_getCurrentSequence,
    sequenceExecutor_executeSequence, sequenceRegistry_get,
    sequenceRegistry_getNames, statisticsManager_recordSequenceQueued,
    statisticsManager_recordError, statisticsManager_updateQueueWaitTime,
    eventBus_emit, console, host_Date_now, host_Math_random_suffix,
    host_performance_now, tick, await_executor in *;
  cbn -[lookup insert map_to_list pretty String.append] in *.

Lemma drain_gate fuel w :
  drainable w = false ->
  processSequenceQueue_fuel (S fuel) w = Normal (Resolved not_processed) w.
Proof.
  unfold drainable. intros Hg. cbn. calls.
  destruct (ExecutionQueue.isEmpty (executionQueue w)); [reflexivity|].
  destruct (isSequenceRunning (sequenceExecutor w));
    [reflexivity|discriminate].
Qed.

Lemma drain_skip fuel w r q :
  isSequenceRunning (sequenceExecutor w) = false ->
  executionQueue w = r :: q ->
  sequenceRegistry w !! sequenceName r = None ->
  processSequenceQueue_fuel (S fuel) w
  = bind (processSequenceQueue_fuel fuel)
      (fun _ =>
         ret (Resolved
                {| processed := true;
                   drain_sequenceName := Some (sequenceName r);
                   drain_success := Some false;
                   drain_error := Some "Sequence not found in registry" |}))
      (skipped r q w).
Proof.
  intros He Hq Hr. cbn -[lookup]. calls.
  repeat progress (rewrite ?Hq, ?He, ?Hr; cbn -[lookup]).
  reflexivity.
Qed.

Lemma drain_hand fuel w r q s :
  isSequenceRunning (sequenceExecutor w) = false ->
  executionQueue w = r :: q ->
  sequenceRegistry w !! sequenceName r = Some s ->
  processSequenceQueue_fuel (S fuel) w = Normal (Parked r) (handed r s q w).
Proof.
  intros He Hq Hr. cbn -[lookup]. calls.
  repeat progress (rewrite ?Hq, ?He, ?Hr; cbn -[lookup]).
  reflexivity.
Qed.

Lemma drained_refl w : drained w w.
Proof.
  exists []. split; try reflexivity.
  - exists []. reflexivity.
  - symmetry. apply app_nil_r.
  - constructor.
  - left. repeat split; reflexivity.
Qed.

Lemma executions_app t1 t2 :
  executions (t1 ++ t2) = executions t1 ++ executions t2.
Proof.
  induction t1 as [|e t1 IH]; [reflexivity|].
  destruct e; cbn; rewrite ?IH; reflexivity.
Qed.

(** Skipping a request whose sequence is missing, then draining on. *)
Lemma drained_after_skip w r q w' :
  executionQueue w = r :: q -> drained (skipped r q w) w' -> drained w w'.
Proof.
  intros Hq [es [R V' U' D' [t Q] T F X]].
  exists ([Dequeue r;
           Statistics
             (updateQueueWaitTime (performance_now (clock w) - queuedAt r)%Z);
           Console ERROR
             ["❌ SequenceOrchestrator: Sequence " +:+ sequenceName r
                +:+ " not found in registry"]] ++ es).
  split; [exact R|exact V'|exact U'|exact D'| | | |exact X].
  - exists (r :: t). rewrite Hq. cbn in Q. rewrite Q. reflexivity.
  - rewrite T. cbn [trace skipped journal set_clock set_executionQueue].
    rewrite <- !app_assoc. reflexivity.
  - apply Forall_app. split; [repeat constructor|exact F].
Qed.

Lemma drained_handed w r q s :
  isSequenceRunning (sequenceExecutor w) = false ->
  executionQueue w = r :: q -> drained w (handed r s q w).
Proof.
  intros He Hq. eexists. split; try reflexivity.
  - exists [r]. rewrite Hq. reflexivity.
  - cbn. rewrite <- !app_assoc. reflexivity.
  - repeat constructor.
  - right. split; [assumption|]. exists r, s. repeat split; reflexivity.
Qed.

(** The drainer returns: with more fuel than the queue is long it neither
    runs out of fuel nor throws, and all it does is a [drained] step. *)
Lemma drain_total fuel w :
  length (executionQueue w) < fuel ->
  exists a w', processSequenceQueue_fuel fuel w = Normal a w' /\ drained w w'.
Proof.
  revert w. induction fuel as [|fuel IH]; intros w Hlen; [lia|].
  destruct (executionQueue w) as [|r q] eqn:Hq.
  { exists (Resolved not_processed), w. split; [|apply drained_refl].
    apply drain_gate. unfold drainable. rewrite Hq. reflexivity. }
  destruct (isSequenceRunning (sequenceExecutor w)) eqn:He.
  { exists (Resolved not_processed), w. split; [|apply drained_refl].
    apply drain_gate. unfold drainable. rewrite Hq, He. reflexivity. }
  destruct (sequenceRegistry w !! sequenceName r) as [s|] eqn:Hr.
  - exists (Parked r), (handed r s q w). split.
    + apply drain_hand; assumption.
    + apply drained_handed; assumption.
  - destruct (IH (skipped r q w)) as (a & w' & Hrun & Hd).
    { cbn in *. lia. }
    eexists _, w'. split.
    + rewrite (drain_skip fuel w r q He Hq Hr). unfold bind. rewrite Hrun.
      reflexivity.
    + exact (drained_after_skip w r q w' Hq Hd).
Qed.

(** Any sufficient amount of fuel gives the same run. *)
Lemma drain_fuel fuel w :
  length (executionQueue w) < fuel ->
  processSequenceQueue_fuel fuel w = processSequenceQueue w.
Proof.
  unfold processSequenceQueue.
  revert w. induction fuel as [|fuel IH]; intros w Hlen; [lia|].
  destruct (executionQueue w) as [|r q] eqn:Hq.
  { rewrite !drain_gate; [reflexivity| |]; unfold drainable; rewrite Hq;
      reflexivity. }
  destruct (isSequenceRunning (sequenceExecutor w)) eqn:He.
  { rewrite !drain_gate; [reflexivity| |]; unfold drainable; rewrite Hq, He;
      reflexivity. }
  destruct (sequenceRegistry w !! sequenceName r) as [s|] eqn:Hr.
  - rewrite !(drain_hand _ w r q s He Hq Hr). reflexivity.
  - rewrite !(drain_skip _ w r q He Hq Hr). unfold bind.
    rewrite IH by (cbn in *; lia).
    cbn [length]. reflexivity.
Qed.

Lemma processSequenceQueue_total w :
  exists a w', processSequenceQueue w = Normal a w' /\ drained w w'.
Proof. apply drain_total. lia. Qed.

(** *** What the drainer leaves alone *)

Lemma published_app t1 t2 : published (t1 ++ t2) = published t1 ++ published t2.
Proof.
  induction t1 as [|e t1 IH]; [reflexivity|].
  destruct e; cbn; rewrite ?IH; reflexivity.
Qed.

Lemma published_drainer es :
  Forall (fun e => drainer_effect e = true) es -> published es = [].
Proof.
  induction 1 as [|e es He _ IH]; [reflexivity|].
  destruct e; cbn in *; try discriminate; exact IH.
Qed.

Lemma statistics_app t1 t2 :
  statistics (t1 ++ t2)
  = fold_left
      (fun k e => match e with Statistics c => count c k | _ => k end)
      t2 (statistics t1).
Proof. unfold statistics. apply fold_left_app. Qed.

Lemma drained_published w w' :
  drained w w' -> published (trace w') = published (trace w).
Proof.
  intros [es Hd]. rewrite (drained_trace _ _ _ Hd), published_app.
  rewrite (published_drainer es (drained_effects _ _ _ Hd)).
  apply app_nil_r.
Qed.

(** *** Executions do not overlap *)

Lemma alternate_app b l1 l2 :
  alternate b (l1 ++ l2)
  = match alternate b l1 with
    | Some b' => alternate b' l2
    | None => None
    end.
Proof.
  revert b. induction l1 as [|x l1 IH]; intros b; [reflexivity|].
  cbn. destruct (eqb x b); [reflexivity|apply IH].
Qed.

Lemma serial_drained `{!SerialExecutor E} w w' :
  drained w w' -> serial w -> serial w'.
Proof.
  intros [es Hd] [Hj Hp].
  destruct (drained_executor _ _ _ Hd)
    as [(He & Ha & Hx)|(He & r & s & He' & Ha & Hx)].
  - split.
    + rewrite (drained_trace _ _ _ Hd), executions_app, Hx, app_nil_r, He.
      exact Hj.
    + rewrite Ha, He. exact Hp.
  - split.
    + rewrite (drained_trace _ _ _ Hd), executions_app, alternate_app, Hj, Hx.
      rewrite He, He', running_while_executing. reflexivity.
    + rewrite Ha, length_app, Hp, He, He', running_while_executing.
      reflexivity.
Qed.

(** A step that leaves the executor and the parked activations alone and
    journals nothing about executions keeps the runs serial. *)
Lemma serial_quiet w w' es :
  sequenceExecutor w' = sequenceExecutor w ->
  awaiting w' = awaiting w ->
  trace w' = trace w ++ es ->
  executions es = [] ->
  serial w -> serial w'.
Proof.
  intros He Ha Ht Hx [Hj Hp]. split.
  - rewrite Ht, executions_app, Hx, app_nil_r, He. exact Hj.
  - rewrite Ha, He. exact Hp.
Qed.

End Drainer.

Section Admission.

Context {V U D E : Type}.
Context `{!SequenceValidator V, !SequenceUtilities U, !ResourceDelegator D}.
Context `{!SequenceExecutor E, !Host}.

Implicit Types (w : World V U D E) (r : SequenceRequest).
Implicit Types (n : string) (d : Data) (p : SequencePriority).

(** Unfold the straight-line methods of the class. *)
Ltac methods :=
  unfold startSequence, generateRequestId, logSequenceNotFound,
    handleDuplicateSequence, extractOrchestrationMetadata,
    checkResourceConflicts, createSequenceRequest, recordSequenceExecution,
    emitSequenceQueuedEvent, processQueueIfIdle, try_catch,
    sequenceValidator_deduplicateSequenceRequest,
    sequenceUtilities_createSequenceInstanceId,
    sequenceUtilities_createExecutionContext,
    resourceDelegator_checkResourceConflict in *;
  unfold bind, ret, throw, executionQueue_isEmpty, executionQueue_size,
    executionQueue_enqueue, executionQueue_dequeue,
    sequenceExecutor_isSequenceRunning, sequenceExecutor_getCurrentSequence,
    sequenceExecutor_executeSequence, sequenceRegistry_get,
    sequenceRegistry_getNames, statisticsManager_recordSequenceQueued,
    statisticsManager_recordError, statisticsManager_updateQueueWaitTime,
    eventBus_emit, console, host_Date_now, host_Math_random_suffix,
    host_performance_now, tick in *;
  cbn -[lookup insert map_to_list pretty String.append toConflictResult
        processSequenceQueue ExecutionQueue.enqueue] in *.

(** ** The paths through [startSequence] *)

Lemma world_eq w w' :
  sequenceRegistry w = sequenceRegistry w' ->
  executionQueue w = executionQueue w' ->
  sequenceExecutor w = sequenceExecutor w' ->
  sequenceValidator w = sequenceValidator w' ->
  sequenceUtilities w = sequenceUtilities w' ->
  resourceDelegator w = resourceDelegator w' ->
  clock w = clock w' ->
  awaiting w = awaiting w' ->
  trace w = trace w' ->
  w = w'.
Proof. destruct w, w'. cbn. intros. congruence. Qed.

Lemma start_not_found w n d p :
  sequenceRegistry w !! n = None ->
  exists w',
    startSequence n d p w
    = Normal (failed (requestId_at n (clock w)) (notFound_error n)) w'
    /\ trace w'
       = trace w
           ++ notFound_lines n ((map_to_list (sequenceRegistry w)).*1)
           ++ catch_lines n (notFound_error n)
    /\ untouched w w'.
Proof.
  intros Hreg. methods. rewrite Hreg. cbn -[lookup map_to_list String.append].
  unfold notFound_lines, failed, requestId_at.
  destruct (decide (n = "ElementLibrary.library-drop-symphony"));
    cbn -[lookup map_to_list String.append pretty];
    (eexists; split; [reflexivity|]; split; [|split; reflexivity]);
    cbn -[lookup map_to_list String.append pretty];
    rewrite <- !app_assoc; reflexivity.
Qed.

Lemma start_dedup_raises w n d p s e :
  sequenceRegistry w !! n = Some s ->
  (deduplication n d p w).1 = Raises e ->
  exists w',
    startSequence n d p w = Normal (failed (requestId_at n (clock w)) e) w'
    /\ trace w' = trace w ++ catch_lines n e
    /\ untouched w w'.
Proof.
  unfold deduplication. intros Hreg Hdd. methods. rewrite Hreg. methods.
  destruct (deduplicateSequenceRequest n d p (sequenceValidator w))
    as [[dd|e'] v]; cbn in Hdd; [discriminate|]. injection Hdd as ->.
  methods. eexists; split; [reflexivity|].
  split; [|split; reflexivity].
  cbn. rewrite <- !app_assoc. reflexivity.
Qed.

Lemma start_duplicate w n d p s dd :
  sequenceRegistry w !! n = Some s ->
  (deduplication n d p w).1 = Returns dd ->
  isDuplicate dd = true ->
  exists w',
    startSequence n d p w
    = Normal {| start_requestId := duplicateRequestId_at n (S (S (clock w)));
                start_success := false;
                start_reason := Some (dedup_reason dd);
                start_isDuplicate := Some true |} w'
    /\ trace w'
       = trace w
           ++ [duplicate_line dd;
               Emit SEQUENCE_CANCELLED
                 (cancelled_payload n
                    (duplicateRequestId_at n (S (S (clock w)))) (hash dd))]
    /\ untouched w w'.
Proof.
  unfold deduplication. intros Hreg Hdd Hdup. methods. rewrite Hreg. methods.
  destruct (deduplicateSequenceRequest n d p (sequenceValidator w))
    as [[dd'|e'] v]; cbn in Hdd; [|discriminate]. injection Hdd as ->.
  methods. rewrite Hdup. methods.
  eexists; split; [reflexivity|].
  split; [|split; reflexivity].
  cbn. rewrite <- !app_assoc. reflexivity.
Qed.

Lemma start_delegator_raises w n d p s dd e :
  sequenceRegistry w !! n = Some s ->
  (deduplication n d p w).1 = Returns dd ->
  isDuplicate dd = false ->
  (delegation n d p w).1 = Raises e ->
  exists w',
    startSequence n d p w = Normal (failed (requestId_at n (clock w)) e) w'
    /\ trace w' = trace w ++ recording_line (hash dd) :: catch_lines n e
    /\ untouched w w'.
Proof.
  unfold deduplication, delegation, instanceId_in.
  intros Hreg Hdd Hdup Hdl. methods. rewrite Hreg. methods.
  destruct (deduplicateSequenceRequest n d p (sequenceValidator w))
    as [[dd'|e'] v]; cbn in Hdd; [|discriminate]. injection Hdd as ->.
  methods. rewrite Hdup. methods.
  destruct (createSequenceInstanceId n d "NORMAL" (sequenceUtilities w))
    as [i u]. methods.
  destruct (checkResourceConflict (extractResourceId n d) i p
              (resourceDelegator w)) as [[dr|e'] dl]; cbn in Hdl;
    [discriminate|]. injection Hdl as ->.
  methods. eexists; split; [reflexivity|].
  split; [|split; reflexivity].
  cbn. rewrite <- !app_assoc. reflexivity.
Qed.

Lemma toConflictResult_reject dr :
  resolution (toConflictResult dr) = REJECT
  <-> delegator_resolution dr = "reject".
Proof.
  unfold toConflictResult. cbn.
  repeat case_decide; split; intros; congruence.
Qed.

Lemma start_rejected w n d p s dd dr :
  sequenceRegistry w !! n = Some s ->
  (deduplication n d p w).1 = Returns dd ->
  isDuplicate dd = false ->
  (delegation n d p w).1 = Returns dr ->
  delegator_resolution dr = "reject" ->
  exists w',
    startSequence n d p w
    = Normal (failed (requestId_at n (clock w))
                (conflict_error (toConflictResult dr))) w'
    /\ trace w'
       = trace w
           ++ recording_line (hash dd) :: rejected_line (toConflictResult dr)
           :: catch_lines n (conflict_error (toConflictResult dr))
    /\ untouched w w'.
Proof.
  unfold deduplication, delegation, instanceId_in.
  intros Hreg Hdd Hdup Hdl Hrej. methods. rewrite Hreg. methods.
  destruct (deduplicateSequenceRequest n d p (sequenceValidator w))
    as [[dd'|e'] v]; cbn in Hdd; [|discriminate]. injection Hdd as ->.
  methods. rewrite Hdup. methods.
  destruct (createSequenceInstanceId n d "NORMAL" (sequenceUtilities w))
    as [i u]. methods.
  destruct (checkResourceConflict (extractResourceId n d) i p
              (resourceDelegator w)) as [[dr'|e'] dl]; cbn in Hdl;
    [|discriminate]. injection Hdl as ->.
  apply toConflictResult_reject in Hrej.
  methods. rewrite Hrej. methods.
  eexists; split; [reflexivity|].
  split; [|split; reflexivity].
  cbn. rewrite <- !app_assoc. reflexivity.
Qed.

Lemma start_admitted_step w n d p s dd v i u dr dl :
  sequenceRegistry w !! n = Some s ->
  deduplicateSequenceRequest n d p (sequenceValidator w) = (Returns dd, v) ->
  isDuplicate dd = false ->
  createSequenceInstanceId n d "NORMAL" (sequenceUtilities w) = (i, u) ->
  checkResourceConflict (extractResourceId n d) i p (resourceDelegator w)
  = (Returns dr, dl) ->
  delegator_resolution dr <> "reject" ->
  let w1 :=
    enqueued
      {| sequenceName := n;
         data := request_data d (metadata_for n d i)
                   (toConflictResult dr) (hash dd);
         priority := p;
         requestId := requestId_at n (clock w);
         queuedAt := performance_now (S (S (clock w))) |}
      (hash dd) v u dl w in
  exists w2,
    (if isSequenceRunning (sequenceExecutor w)
     then w2 = w1
     else exists a, processSequenceQueue w1 = Normal a w2)
    /\ drained w1 w2
    /\ startSequence n d p w
       = Normal (succeeded (requestId_at n (clock w)))
           (announced n (requestId_at n (clock w)) p w2).
Proof.
  intros Hreg Hdd Hdup Hi Hdl Hrej w1.
  rewrite <- toConflictResult_reject in Hrej.
  unfold startSequence, generateRequestId, try_catch.
  methods. rewrite Hreg. methods. rewrite Hdd. methods. rewrite Hdup.
  methods. rewrite Hi. methods. rewrite Hdl. methods.
  destruct (decide (resolution (toConflictResult dr) = REJECT));
    [contradiction|].
  methods.
  match goal with
  | |- context [set_executionQueue ?q ?x] =>
      replace (set_executionQueue q x) with w1
  end.
  2:{ unfold w1, enqueued, recording_line, requestId_at, metadata_for.
      apply world_eq; methods; rewrite <- ?app_assoc; reflexivity. }
  destruct (isSequenceRunning (sequenceExecutor w)).
  - exists w1. split; [reflexivity|]. split; [apply drained_refl|].
    reflexivity.
  - destruct (processSequenceQueue_total w1) as (a & w2 & Hq & Hd).
    exists w2. split; [exists a; exact Hq|].
    split; [exact Hd|]. cbv beta. rewrite Hq. reflexivity.
Qed.

Lemma start_admitted w n d p s dd dr :
  sequenceRegistry w !! n = Some s ->
  (deduplication n d p w).1 = Returns dd ->
  isDuplicate dd = false ->
  (delegation n d p w).1 = Returns dr ->
  delegator_resolution dr <> "reject" ->
  let w1 :=
    enqueued (request_in n d p dd dr w) (hash dd)
      (deduplication n d p w).2
      (createSequenceInstanceId n d "NORMAL" (sequenceUtilities w)).2
      (delegation n d p w).2 w in
  exists w2,
    (if isSequenceRunning (sequenceExecutor w)
     then w2 = w1
     else exists a, processSequenceQueue w1 = Normal a w2)
    /\ drained w1 w2
    /\ startSequence n d p w
       = Normal (succeeded (requestId_at n (clock w)))
           (announced n (requestId_at n (clock w)) p w2).
Proof.
  unfold request_in, deduplication, delegation, instanceId_in.
  intros Hreg Hdd Hdup Hdl Hrej.
  destruct (deduplicateSequenceRequest n d p (sequenceValidator w))
    as [dd' v] eqn:Edd.
  destruct (createSequenceInstanceId n d "NORMAL" (sequenceUtilities w))
    as [i u] eqn:Ei.
  cbn [fst snd] in *.
  destruct (checkResourceConflict (extractResourceId n d) i p
              (resourceDelegator w)) as [dr' dl] eqn:Edl.
  cbn [fst snd] in *. subst dd' dr'.
  exact (start_admitted_step w n d p s dd v i u dr dl
           Hreg Edd Hdup Ei Edl Hrej).
Qed.


(** Every call of [startSequence] returns, along one of the six paths. *)
Lemma startSequence_paths w n d p :
  exists res w', startSequence n d p w = Normal res w'
                 /\ Admission w n d p res w'.
Proof.
  destruct (sequenceRegistry w !! n) as [s|] eqn:Hreg.
  2:{ destruct (start_not_found w n d p Hreg) as (w' & Hrun & Ht & Hu).
      eexists _, w'. split; [exact Hrun|]. by apply path_not_found. }
  destruct ((deduplication n d p w).1) as [dd|e] eqn:Hdd.
  2:{ destruct (start_dedup_raises w n d p s e Hreg Hdd) as (w' & Hrun & Ht & Hu).
      eexists _, w'. split; [exact Hrun|]. by eapply path_validator_threw. }
  destruct (isDuplicate dd) eqn:Hdup.
  { destruct (start_duplicate w n d p s dd Hreg Hdd Hdup)
      as (w' & Hrun & Ht & Hu).
    eexists _, w'. split; [exact Hrun|]. by eapply path_duplicate. }
  destruct ((delegation n d p w).1) as [dr|e] eqn:Hdl.
  2:{ destruct (start_delegator_raises w n d p s dd e Hreg Hdd Hdup Hdl)
        as (w' & Hrun & Ht & Hu).
      eexists _, w'. split; [exact Hrun|]. by eapply path_delegator_threw. }
  destruct (decide (delegator_resolution dr = "reject")) as [Hrej|Hrej].
  { destruct (start_rejected w n d p s dd dr Hreg Hdd Hdup Hdl Hrej)
      as (w' & Hrun & Ht & Hu).
    eexists _, w'. split; [exact Hrun|]. by eapply path_rejected. }
  destruct (start_admitted w n d p s dd dr Hreg Hdd Hdup Hdl Hrej)
    as (w2 & Hw2 & Hd & Hrun).
  eexists _, _. split; [exact Hrun|]. by eapply path_admitted.
Qed.

(** ** The drainer after its [await] *)

Lemma resume_fulfilled w r :
  exists a w',
    processSequenceQueue w = Normal a w' /\ drained w w'
    /\ processSequenceQueue_resume r Fulfilled w
       = Normal {| processed := true;
                   drain_sequenceName := Some (sequenceName r);
                   drain_success := Some true;
                   drain_error := None |} w'.
Proof.
  destruct (processSequenceQueue_total w) as (a & w' & Hq & Hd).
  exists a, w'. split; [exact Hq|]. split; [exact Hd|].
  unfold processSequenceQueue_resume, bind. rewrite Hq. reflexivity.
Qed.

Lemma resume_rejected w r e :
  let w0 :=
    journal
      (Console ERROR
         ["❌ SequenceOrchestrator: Failed to execute sequence "
            +:+ sequenceName r +:+ ":";
          error_message e]) w in
  exists a w',
    processSequenceQueue w0 = Normal a w' /\ drained w0 w'
    /\ processSequenceQueue_resume r (Rejected e) w
       = Normal {| processed := true;
                   drain_sequenceName := Some (sequenceName r);
                   drain_success := Some false;
                   drain_error := Some (error_message e) |} w'.
Proof.
  intros w0.
  destruct (processSequenceQueue_total w0) as (a & w' & Hq & Hd).
  exists a, w'. split; [exact Hq|]. split; [exact Hd|].
  unfold processSequenceQueue_resume, bind, console. fold w0.
  rewrite Hq. reflexivity.
Qed.

(** ** Turns keep the executions serial *)

Lemma admission_serial `{!SerialExecutor E} w n d p res w' :
  Admission w n d p res w' -> serial w -> serial w'.
Proof.
  intros Hadm Hs.
  destruct Hadm as
    [w' Hreg Ht Hu | s e w' Hreg Hdd Ht Hu | s dd w' Hreg Hdd Hdup Ht Hu
    | s dd e w' Hreg Hdd Hdup Hdl Ht Hu
    | s dd dr w' Hreg Hdd Hdup Hdl Hrej Ht Hu
    | s dd dr w2 Hreg Hdd Hdup Hdl Hrej w1 Hw2 Hd ].
  1-5: eapply (serial_quiet w w');
         [apply Hu|apply Hu|exact Ht| |exact Hs].
  - unfold notFound_lines. case_decide; reflexivity.
  - reflexivity.
  - reflexivity.
  - reflexivity.
  - reflexivity.
  - assert (Hs1 : serial w1).
    { eapply (serial_quiet w w1); [reflexivity|reflexivity|reflexivity| |exact Hs].
      reflexivity. }
    pose proof (serial_drained w1 w2 Hd Hs1) as Hs2.
    eapply (serial_quiet w2); [reflexivity|reflexivity| | |exact Hs2].
    + unfold announced. cbn. rewrite <- app_assoc. reflexivity.
    + reflexivity.
Qed.

Lemma turn_serial `{!SerialExecutor E} t w : serial w -> serial (turn t w).
Proof.
  intros Hs. destruct t as [n d p| |outcome]; unfold turn.
  - destruct (startSequence_paths w n d p) as (res & w' & Hrun & Hadm).
    rewrite Hrun. cbn [world_of].
    exact (admission_serial w n d p res w' Hadm Hs).
  - destruct (processSequenceQueue_total w) as (a & w' & Hq & Hd).
    rewrite Hq. cbn [world_of]. exact (serial_drained w w' Hd Hs).
  - unfold settle. destruct Hs as [Hj Hp].
    destruct (awaiting w) as [|cur rest] eqn:Ha.
    { cbn [world_of]. split; [exact Hj|]. rewrite Ha. exact Hp. }
    destruct (isSequenceRunning (sequenceExecutor w)) eqn:He;
      [|discriminate Hp].
    destruct rest as [|? ?]; [|discriminate Hp].
    set (w1 := set_awaiting [] _).
    assert (Hs1 : serial w1).
    { split; unfold w1; cbn.
      - rewrite executions_app, alternate_app, Hj, idle_when_settled.
        reflexivity.
      - rewrite idle_when_settled. reflexivity. }
    destruct outcome as [|e].
    + destruct (resume_fulfilled w1 cur) as (a & w' & _ & Hd & Hres).
      unfold bind at 1. rewrite Hres. cbn.
      exact (serial_drained _ _ Hd Hs1).
    + destruct (resume_rejected w1 cur e) as (a & w' & _ & Hd & Hres).
      unfold bind at 1. rewrite Hres. cbn.
      refine (serial_drained _ _ Hd _).
      eapply (serial_quiet w1); [reflexivity|reflexivity|reflexivity| |exact Hs1].
      reflexivity.
Qed.

Lemma run_serial `{!SerialExecutor E} ts w : serial w -> serial (run ts w).
Proof.
  revert w. induction ts as [|t ts IH]; intros w Hs; [exact Hs|].
  cbn. apply IH, turn_serial, Hs.
Qed.

End Admission.

(** * The claims *)

Section Claims.

Context {V U D E : Type}.
Context `{!SequenceValidator V, !SequenceUtilities U, !ResourceDelegator D}.
Context `{!SequenceExecutor E, !Host}.

Implicit Types (w : World V U D E) (r : SequenceRequest).
Implicit Types (n : string) (d : Data) (p : SequencePriority).

(** ** Small facts the claims share *)

Lemma append_assoc (a b c : string) : (a +:+ b) +:+ c = a +:+ (b +:+ c).
Proof.
  induction a as [|x a IH]; [reflexivity|].
  change (String x ((a +:+ b) +:+ c) = String x (a +:+ (b +:+ c))).
  by rewrite IH.
Qed.

Lemma enqueue_In r (q : list SequenceRequest) :
  In r (ExecutionQueue.enqueue r q).
Proof.
  induction q as [|x q IH]; cbn; [by left|].
  destruct (ExecutionQueue.band (priority x) <=? ExecutionQueue.band (priority r))%nat;
    [right; exact IH|by left].
Qed.

Lemma enqueue_length r (q : list SequenceRequest) :
  length (ExecutionQueue.enqueue r q) = S (length q).
Proof.
  induction q as [|x q IH]; cbn; [reflexivity|].
  destruct (ExecutionQueue.band (priority x) <=? ExecutionQueue.band (priority r))%nat;
    cbn; [by rewrite IH|reflexivity].
Qed.


Lemma statistics_quiet es k :
  Forall (fun e => is_statistics e = false) es ->
  fold_left
    (fun k e => match e with Statistics c => count c k | _ => k end) es k
  = k.
Proof.
  intros Hes. revert k. induction Hes as [|e es He _ IH]; intros k; [reflexivity|].
  cbn [fold_left]. rewrite IH. destruct e; try reflexivity. discriminate.
Qed.

Lemma errored_caught n e es k :
  Forall (fun e => is_statistics e = false) es ->
  errored
    (fold_left
       (fun k e => match e with Statistics c => count c k | _ => k end)
       (es ++ catch_lines n e) k)
  = S (errored k).
Proof.
  intros Hes. rewrite fold_left_app, (statistics_quiet es k Hes). reflexivity.
Qed.

Lemma published_caught n e es :
  Forall (fun e => is_emit e = false) es ->
  published (es ++ catch_lines n e) = [].
Proof.
  intros Hes. rewrite published_app. cbn. rewrite app_nil_r.
  induction Hes as [|x es Hx _ IH]; [reflexivity|].
  destruct x; try exact IH. discriminate.
Qed.

Lemma notFound_lines_console n names :
  Forall (fun e => is_statistics e = false) (notFound_lines n names)
  /\ Forall (fun e => is_emit e = false) (notFound_lines n names)
  /\ Forall (fun e => is_enqueue e = false /\ is_recordSequenceQueued e = false)
       (notFound_lines n names).
Proof.
  unfold notFound_lines. case_decide; repeat split; repeat constructor.
Qed.

(** The five keys [createSequenceRequest] writes, and the rest of the
    caller's object. *)
Lemma request_data_lookup d (m : OrchestrationMetadata)
  (c : ResourceConflictResult) (h : string) (k : string) :
  request_data d m c h !! k
  = if decide (k = "sequenceHash") then Some (VString h)
    else if decide (k = "conflictResult") then Some (VConflictResult c)
    else if decide (k = "resourceId") then Some (VString (resourceId m))
    else if decide (k = "symphonyName") then Some (VString (symphonyName m))
    else if decide (k = "instanceId") then Some (VString (instanceId m))
    else d !! k.
Proof.
  unfold request_data.
  repeat (case_decide; [subst; by simplify_map_eq|]).
  by simplify_map_eq.
Qed.

(** ** C6: the drainer waits for an idle executor *)

(** C6.  If the queue is empty or the executor reports a running sequence,
    [processSequenceQueue] dequeues nothing, leaves the whole world as it
    is and resolves with [{ processed: false }].  Hence, with an executor
    that reports a running sequence from [executeSequence] until the promise
    settles, executions never overlap: from a world in which they are
    serial, every sequence of turns (admissions, calls of the drainer,
    settlements of the executor's promise) leads to a world in which they are
    serial, that is, in the journal every [executeSequence] comes after the
    settlement of the one before. *)
Theorem C6_drainer_waits_for_idle_executor w :
  (ExecutionQueue.isEmpty (executionQueue w) = true
   \/ isSequenceRunning (sequenceExecutor w) = true ->
   processSequenceQueue w = Normal (Resolved not_processed) w)
  /\ (SerialExecutor E -> serial w -> forall ts, serial (run ts w)).
Proof.
  split.
  - intros Hgate. apply drain_gate. unfold drainable.
    destruct Hgate as [-> | ->]; [reflexivity|].
    apply andb_false_r.
  - intros Hlaws Hs ts. exact (run_serial ts w Hs).
Qed.

(** ** C2: a request whose sequence is gone at drain time *)

(** C2, as amended.  When the drainer takes a request off the queue and the
    registry no longer knows its sequence, it publishes nothing on the bus:
    it logs the error on the console, goes on draining what is left of the
    queue, and resolves with [{ processed: true, sequenceName,
    success: false, error: "Sequence not found in registry" }]. *)
Theorem C2_missing_sequence_is_skipped w r q :
  isSequenceRunning (sequenceExecutor w) = false ->
  executionQueue w = r :: q ->
  sequenceRegistry w !! sequenceName r = None ->
  exists a w',
    processSequenceQueue (skipped r q w) = Normal a w'
    /\ processSequenceQueue w
       = Normal
           (Resolved
              {| processed := true;
                 drain_sequenceName := Some (sequenceName r);
                 drain_success := Some false;
                 drain_error := Some "Sequence not found in registry" |})
           w'
    /\ published (trace w') = published (trace w).
Proof.
  intros He Hq Hr.
  destruct (processSequenceQueue_total (skipped r q w)) as (a & w' & Hrun & Hd).
  exists a, w'. split; [exact Hrun|]. split.
  - unfold processSequenceQueue at 1. rewrite Hq. cbn [length].
    rewrite (drain_skip _ w r q He Hq Hr). unfold bind.
    rewrite drain_fuel by (cbn; lia). rewrite Hrun. reflexivity.
  - rewrite (drained_published _ _ Hd).
    change (trace (skipped r q w)) with
      (((trace w ++ [Dequeue r])
          ++ [Statistics
                (updateQueueWaitTime
                   (performance_now (clock w) - queuedAt r)%Z)])
         ++ [Console ERROR
               ["❌ SequenceOrchestrator: Sequence " +:+ sequenceName r
                  +:+ " not found in registry"]]).
    rewrite !published_app. cbn. rewrite !app_nil_r. reflexivity.
Qed.

(** ** C7: a rejection of the executor's promise *)

(** C7, as amended.  When the promise of [executeSequence] rejects, the
    [catch] block of [processSequenceQueue] does not rethrow and publishes
    nothing on the bus: it logs the error on the console, goes on draining
    the queue, and resolves with [{ processed: true, sequenceName,
    success: false, error }] carrying the message of the error. *)
Theorem C7_rejection_is_absorbed w r e :
  exists a w',
    processSequenceQueue
      (journal
         (Console ERROR
            ["❌ SequenceOrchestrator: Failed to execute sequence "
               +:+ sequenceName r +:+ ":";
             error_message e]) w)
    = Normal a w'
    /\ processSequenceQueue_resume r (Rejected e) w
       = Normal {| processed := true;
                   drain_sequenceName := Some (sequenceName r);
                   drain_success := Some false;
                   drain_error := Some (error_message e) |} w'
    /\ published (trace w') = published (trace w).
Proof.
  destruct (resume_rejected w r e) as (a & w' & Hrun & Hd & Hres).
  exists a, w'. split; [exact Hrun|]. split; [exact Hres|].
  rewrite (drained_published _ _ Hd). cbn [trace journal].
  rewrite published_app. cbn. apply app_nil_r.
Qed.

(** ** C3: a duplicate request *)

(** C3, as amended.  When the deduplication check reports a duplicate,
    [startSequence] publishes SEQUENCE_CANCELLED with the reason
    ["duplicate-request"], makes no call on the statistics manager, enqueues
    nothing, and returns [{ success: false, isDuplicate: true }] with the
    validator's reason and a request id generated anew, after the one the
    call began with, that carries the tag ["duplicate"]. *)
Theorem C3_duplicate_is_cancelled w n d p s dd :
  sequenceRegistry w !! n = Some s ->
  (deduplication n d p w).1 = Returns dd ->
  isDuplicate dd = true ->
  let id := duplicateRequestId_at n (S (S (clock w))) in
  exists w',
    startSequence n d p w
    = Normal {| start_requestId := id;
                start_success := false;
                start_reason := Some (dedup_reason dd);
                start_isDuplicate := Some true |} w'
    /\ trace w'
       = trace w
           ++ [duplicate_line dd;
               Emit SEQUENCE_CANCELLED (cancelled_payload n id (hash dd))]
    /\ statistics (trace w') = statistics (trace w)
    /\ executionQueue w' = executionQueue w
    /\ id = (n +:+ "-") +:+ "duplicate"
              +:+ ("-" +:+ pretty (Date_now (S (S (clock w)))) +:+ "-"
                     +:+ Math_random_suffix (S (S (S (clock w))))).
Proof.
  intros Hreg Hdd Hdup id.
  destruct (start_duplicate w n d p s dd Hreg Hdd Hdup) as (w' & Hrun & Ht & Hu).
  exists w'. split; [exact Hrun|]. split; [exact Ht|]. split; [|split].
  - rewrite Ht, statistics_app. reflexivity.
  - apply Hu.
  - unfold id, duplicateRequestId_at. rewrite append_assoc. reflexivity.
Qed.

(** ** C4: errors at admission *)

(** C4, as amended.  When the sequence is missing from the registry, or the
    delegator resolves the conflict with ["reject"], [startSequence] returns
    synchronously [{ requestId, success: false, reason }] with the message of
    the error, and records the error with the statistics manager; it
    publishes nothing on the event bus. *)
Theorem C4_admission_errors_are_returned w n d p :
  (sequenceRegistry w !! n = None ->
   exists w',
     startSequence n d p w
     = Normal (failed (requestId_at n (clock w)) (notFound_error n)) w'
     /\ published (trace w') = published (trace w)
     /\ errored (statistics (trace w')) = S (errored (statistics (trace w))))
  /\ (forall s dd dr,
        sequenceRegistry w !! n = Some s ->
        (deduplication n d p w).1 = Returns dd ->
        isDuplicate dd = false ->
        (delegation n d p w).1 = Returns dr ->
        delegator_resolution dr = "reject" ->
        exists w',
          startSequence n d p w
          = Normal (failed (requestId_at n (clock w))
                      (conflict_error (toConflictResult dr))) w'
          /\ published (trace w') = published (trace w)
          /\ errored (statistics (trace w'))
             = S (errored (statistics (trace w)))).
Proof.
  split.
  - intros Hreg.
    destruct (start_not_found w n d p Hreg) as (w' & Hrun & Ht & Hu).
    destruct (notFound_lines_console n ((map_to_list (sequenceRegistry w)).*1))
      as (Hstat & Hemit & _).
    exists w'. split; [exact Hrun|]. rewrite Ht. split.
    + rewrite published_app, published_caught by exact Hemit. apply app_nil_r.
    + rewrite statistics_app. apply errored_caught, Hstat.
  - intros s dd dr Hreg Hdd Hdup Hdl Hrej.
    destruct (start_rejected w n d p s dd dr Hreg Hdd Hdup Hdl Hrej)
      as (w' & Hrun & Ht & Hu).
    exists w'. split; [exact Hrun|]. rewrite Ht. split.
    + rewrite published_app. cbn. apply app_nil_r.
    + rewrite statistics_app. reflexivity.
Qed.

(** ** C5: an admitted request *)

(** C5, as amended.  When the sequence is registered, the request is not a
    duplicate and the delegator does not reject it, [startSequence], in this
    order: records the queued statistic; enqueues the request it built; if
    the executor is idle, runs [processSequenceQueue] within the same call,
    up to its [await] (the request at the head of the queue is already
    taken off and handed to the executor when control comes back);
    publishes SEQUENCE_QUEUED with [sequenceName], [requestId], [priority]
    and the [queueLength] the queue has at that moment, after that drain
    (with a busy executor: the length before the call plus one); and returns
    [{ requestId, success: true }]. *)
Theorem C5_admitted_request_is_queued w n d p s dd dr :
  sequenceRegistry w !! n = Some s ->
  (deduplication n d p w).1 = Returns dd ->
  isDuplicate dd = false ->
  (delegation n d p w).1 = Returns dr ->
  delegator_resolution dr <> "reject" ->
  let id := requestId_at n (clock w) in
  let request := request_in n d p dd dr w in
  exists w1 w2 w',
    trace w1
    = trace w ++ [recording_line (hash dd);
                  Statistics recordSequenceQueued;
                  Enqueue request]
    /\ executionQueue w1 = ExecutionQueue.enqueue request (executionQueue w)
    /\ sequenceExecutor w1 = sequenceExecutor w
    /\ (if isSequenceRunning (sequenceExecutor w)
        then w2 = w1 /\ length (executionQueue w2) = S (length (executionQueue w))
        else exists a, processSequenceQueue w1 = Normal a w2)
    /\ trace w'
       = trace w2
           ++ [Emit SEQUENCE_QUEUED
                 (queued_payload n id p (length (executionQueue w2)));
               queued_line n]
    /\ startSequence n d p w = Normal (succeeded id) w'.
Proof.
  intros Hreg Hdd Hdup Hdl Hrej id request.
  destruct (start_admitted w n d p s dd dr Hreg Hdd Hdup Hdl Hrej)
    as (w2 & Hw2 & Hd & Hrun).
  exists (enqueued request (hash dd) (deduplication n d p w).2
            (createSequenceInstanceId n d "NORMAL" (sequenceUtilities w)).2
            (delegation n d p w).2 w), w2, (announced n id p w2).
  split; [reflexivity|]. split; [reflexivity|]. split; [reflexivity|].
  split; [|split; [|exact Hrun]].
  - destruct (isSequenceRunning (sequenceExecutor w));
      [|exact Hw2].
    split; [exact Hw2|]. rewrite Hw2. cbn [executionQueue enqueued].
    apply enqueue_length.
  - unfold announced. cbn [trace journal]. rewrite <- app_assoc. reflexivity.
Qed.

(** ** C8: the data of the queued request *)

(** C8.  For an admitted request, the [SequenceRequest] handed to the queue
    carries, inside its [data], the caller's object merged with
    [instanceId], [symphonyName], [resourceId], [conflictResult] and
    [sequenceHash]: these five keys hold the orchestrator's values whatever
    the caller supplied under them, and every other key holds what the
    caller supplied. *)
Theorem C8_request_data_is_merged w n d p s dd dr :
  sequenceRegistry w !! n = Some s ->
  (deduplication n d p w).1 = Returns dd ->
  isDuplicate dd = false ->
  (delegation n d p w).1 = Returns dr ->
  delegator_resolution dr <> "reject" ->
  let request := request_in n d p dd dr w in
  (exists w' es,
     startSequence n d p w = Normal (succeeded (requestId_at n (clock w))) w'
     /\ trace w'
        = trace w ++ recording_line (hash dd)
            :: Statistics recordSequenceQueued :: Enqueue request :: es
     /\ Forall (fun e => is_enqueue e = false) es)
  /\ In request (ExecutionQueue.enqueue request (executionQueue w))
  /\ data request !! "instanceId" = Some (VString (instanceId_in n d w))
  /\ data request !! "symphonyName" = Some (VString (extractSymphonyName n))
  /\ data request !! "resourceId" = Some (VString (extractResourceId n d))
  /\ data request !! "conflictResult"
     = Some (VConflictResult (toConflictResult dr))
  /\ data request !! "sequenceHash" = Some (VString (hash dd))
  /\ forall k,
       k <> "instanceId" -> k <> "symphonyName" -> k <> "resourceId" ->
       k <> "conflictResult" -> k <> "sequenceHash" ->
       data request !! k = d !! k.
Proof.
  intros Hreg Hdd Hdup Hdl Hrej request.
  split; [|split; [apply enqueue_In|]].
  - destruct (start_admitted w n d p s dd dr Hreg Hdd Hdup Hdl Hrej)
      as (w2 & _ & [es Hd] & Hrun).
    eexists _, _. split; [exact Hrun|].
    unfold announced. cbn [trace journal].
    rewrite (drained_trace _ _ _ Hd). cbn [trace enqueued].
    rewrite <- !app_assoc. cbn [app]. split; [reflexivity|].
    apply Forall_app. split; [|repeat constructor].
    eapply Forall_impl; [exact (drained_effects _ _ _ Hd)|].
    intros e He. destruct e; try reflexivity. discriminate.
  - unfold request, request_in. cbn [data].
    rewrite !request_data_lookup. cbn.
    repeat split; try reflexivity.
    intros k H1 H2 H3 H4 H5. rewrite request_data_lookup.
    repeat (case_decide; [congruence|]). reflexivity.
Qed.

(** ** C9: a failed admission changes neither queue nor queued counter *)


(** With no call that throws, [startSequence_under] is [startSequence]. *)
Lemma startSequence_under_no_faults n d p :
  startSequence_under no_faults n d p = startSequence (V:=V) (E:=E) n d p.
Proof. reflexivity. Qed.


(** ** C10: the execution context *)

(** C10.  When the sequence of the request is in the registry,
    [createExecutionContext] returns a context for that sequence whose
    [executionType] is ["IMMEDIATE"] if and only if the priority of the
    request is ["HIGH"], and ["CONSECUTIVE"] otherwise; when the sequence is
    not in the registry it throws and returns no context. *)
Theorem C10_execution_type_follows_priority w r :
  (forall s,
     sequenceRegistry w !! sequenceName r = Some s ->
     exists ctx,
       createExecutionContext r w = Normal ctx w
       /\ ctx_sequence ctx = Some s
       /\ ctx_priority ctx = priority r
       /\ (ctx_executionType ctx = IMMEDIATE <-> priority r = HIGH)
       /\ (priority r <> HIGH -> ctx_executionType ctx = CONSECUTIVE))
  /\ (sequenceRegistry w !! sequenceName r = None ->
      exists e, createExecutionContext r w = Thrown e w).
Proof.
  split.
  - intros s Hreg. unfold createExecutionContext.
    unfold bind, sequenceUtilities_createExecutionContext,
      sequenceRegistry_get, ret.
    rewrite Hreg. eexists. split; [reflexivity|]. cbn.
    split; [reflexivity|]. split; [reflexivity|].
    case_decide; split; try split; intros; congruence.
  - intros Hreg. unfold createExecutionContext.
    unfold bind, sequenceUtilities_createExecutionContext,
      sequenceRegistry_get, throw.
    rewrite Hreg. eexists. reflexivity.
Qed.

(** ** C1: the hash of a request that passed the deduplication check *)


End Claims.

(** * The claims on concrete runs *)

Import Reference.
Import Scenes.

(** The reference executor reports its current sequence as running. *)
Lemma current_executor_is_serial : SerialExecutor (option SequenceRequest).
Proof. split; reflexivity. Qed.

(** The validator that only checks its window leaves the window as it is. *)
Lemma window_validator_checks_only n d p (v : DedupWindow) :
  (deduplicateSequenceRequest n d p v).2 = v.
Proof.
  cbn. destruct (in_window (textual_hash n d p) v); reflexivity.
Qed.



(** On that run the queued counter, the enqueues and the events show one
    admission and one cancellation. *)
Lemma recorded_play_is_admitted_once :
  let w := run [CallStartSequence "Demo.ping-symphony" ∅ NORMAL;
                CallStartSequence "Demo.ping-symphony" ∅ NORMAL] vigilant in
  queued (statistics (trace w)) = 1
  /\ length (filter (fun e => is_enqueue e = true) (trace w)) = 1
  /\ (published (trace w)).*1 = [SEQUENCE_QUEUED; SEQUENCE_CANCELLED].
Proof. vm_compute. repeat split. Qed.

(** The hash is in the window before the delegator is asked: a play the
    delegator rejects is recorded all the same, and the same play, asked
    for again, is cancelled as a duplicate without reaching the
    delegator. *)
Lemma rejected_play_is_recorded :
  let w := run [CallStartSequence "Demo.ping-symphony" ∅ NORMAL;
                CallStartSequence "Demo.ping-symphony" ∅ NORMAL] wary in
  errored (statistics (trace w)) = 1
  /\ (published (trace w)).*1 = [SEQUENCE_CANCELLED]
  /\ enqueues (trace w) = []
  /\ sequenceUtilities w = 1.
Proof. vm_compute. repeat split. Qed.

(** With the validator that only checks its window nothing records the
    hash, and two identical calls in a row are both admitted. *)
Lemma double_play_is_admitted_twice :
  let w := run [CallStartSequence "Demo.ping-symphony" ∅ NORMAL;
                CallStartSequence "Demo.ping-symphony" ∅ NORMAL] fresh in
  queued (statistics (trace w)) = 2
  /\ length (filter (fun e => is_enqueue e = true) (trace w)) = 2
  /\ (published (trace w)).*1 = [SEQUENCE_QUEUED; SEQUENCE_QUEUED].
Proof. vm_compute. repeat split. Qed.

(** The drainer meets [orphan], whose sequence is gone. *)
Lemma C2_missing_sequence_is_skipped_witness :
  exists a w',
    processSequenceQueue (skipped orphan [] orphaned) = Normal a w'
    /\ processSequenceQueue orphaned
       = Normal
           (Resolved
              {| processed := true;
                 drain_sequenceName := Some "Demo.gone-symphony";
                 drain_success := Some false;
                 drain_error := Some "Sequence not found in registry" |})
           w'
    /\ published (trace w') = published (trace orphaned).
Proof.
  apply (C2_missing_sequence_is_skipped orphaned orphan []).
  - reflexivity.
  - reflexivity.
  - vm_compute. reflexivity.
Defined.

(** The claim C2 as stated fails there: [orphan] is taken off the queue, its
    sequence is not in the registry, and no SEQUENCE_FAILED (indeed nothing
    at all) is published. *)
Lemma C2_no_event_for_missing_sequence :
  (exists a, processSequenceQueue orphaned = Normal a orphan_skipped)
  /\ In (Dequeue orphan) (trace orphan_skipped)
  /\ sequenceRegistry orphaned !! sequenceName orphan = None
  /\ ~ (exists payload,
          In (Emit SEQUENCE_FAILED payload) (trace orphan_skipped))
  /\ published (trace orphan_skipped) = [].
Proof.
  split; [eexists; vm_compute; reflexivity|].
  split; [vm_compute; left; reflexivity|].
  split; [vm_compute; reflexivity|].
  split; [|vm_compute; reflexivity].
  vm_compute. intros [payload [Hin|[Hin|[Hin|[]]]]]; discriminate Hin.
Qed.

(** A request whose hash is in the window. *)
Lemma C3_duplicate_is_cancelled_witness :
  exists w',
    startSequence "Demo.ping-symphony" ∅ NORMAL replayed
    = Normal
        {| start_requestId :=
             duplicateRequestId_at "Demo.ping-symphony" 2;
           start_success := false;
           start_reason := Some (dedup_reason seen);
           start_isDuplicate := Some true |} w'
    /\ trace w'
       = trace replayed
           ++ [duplicate_line seen;
               Emit SEQUENCE_CANCELLED
                 (cancelled_payload "Demo.ping-symphony"
                    (duplicateRequestId_at "Demo.ping-symphony" 2)
                    (hash seen))]
    /\ statistics (trace w') = statistics (trace replayed)
    /\ executionQueue w' = executionQueue replayed
    /\ duplicateRequestId_at "Demo.ping-symphony" 2
       = ("Demo.ping-symphony" +:+ "-") +:+ "duplicate"
           +:+ ("-" +:+ pretty (Date_now 2) +:+ "-" +:+ Math_random_suffix 3).
Proof.
  apply (C3_duplicate_is_cancelled replayed "Demo.ping-symphony" ∅ NORMAL
           ping seen).
  - vm_compute. reflexivity.
  - vm_compute. reflexivity.
  - reflexivity.
Defined.

(** The claim C3 as stated fails there: the call is answered as a duplicate
    and the duplicate counter of the statistics stays at zero; the
    statistics manager receives no call. *)
Lemma C3_duplicate_is_not_counted :
  (exists res,
     startSequence "Demo.ping-symphony" ∅ NORMAL replayed
     = Normal res replay_cancelled
     /\ start_isDuplicate res = Some true)
  /\ duplicates (statistics (trace replay_cancelled)) = 0
  /\ forallb (fun e => negb (is_statistics e)) (trace replay_cancelled) = true.
Proof.
  split; [eexists; split; [vm_compute; reflexivity|reflexivity]|].
  split; vm_compute; reflexivity.
Qed.

(** A sequence nobody registered, and a request the delegator rejects. *)
Lemma C4_admission_errors_are_returned_witness :
  (exists w',
     startSequence "Demo.pong" ∅ NORMAL fresh
     = Normal (failed (requestId_at "Demo.pong" 0) (notFound_error "Demo.pong"))
         w'
     /\ published (trace w') = published (trace fresh)
     /\ errored (statistics (trace w'))
        = S (errored (statistics (trace fresh))))
  /\ (exists w',
        startSequence "Demo.ping-symphony" ∅ NORMAL contended
        = Normal (failed (requestId_at "Demo.ping-symphony" 0)
                    (conflict_error (toConflictResult denied))) w'
        /\ published (trace w') = published (trace contended)
        /\ errored (statistics (trace w'))
           = S (errored (statistics (trace contended)))).
Proof.
  split.
  - apply (proj1 (C4_admission_errors_are_returned fresh "Demo.pong" ∅ NORMAL)).
    vm_compute. reflexivity.
  - apply (proj2 (C4_admission_errors_are_returned contended
                    "Demo.ping-symphony" ∅ NORMAL) ping unseen denied).
    + vm_compute. reflexivity.
    + vm_compute. reflexivity.
    + reflexivity.
    + vm_compute. reflexivity.
    + reflexivity.
Defined.

(** The claim C4 as stated fails there: the call fails with a reason, and
    neither a cancellation nor a failure nor any other event is published. *)
Lemma C4_no_event_for_admission_error :
  (exists res,
     startSequence "Demo.pong" ∅ NORMAL fresh = Normal res refused
     /\ start_success res = false)
  /\ sequenceRegistry fresh !! "Demo.pong" = None
  /\ published (trace refused) = [].
Proof.
  split; [eexists; split; [vm_compute; reflexivity|reflexivity]|].
  split; vm_compute; reflexivity.
Qed.

(** The first request on a fresh conductor. *)
Lemma C5_admitted_request_is_queued_witness :
  let id := requestId_at "Demo.ping-symphony" 0 in
  let request :=
    request_in "Demo.ping-symphony" ∅ NORMAL unseen allowed fresh in
  exists w1 w2 w' : Conductor,
    trace w1
    = trace fresh ++ [recording_line (hash unseen);
                      Statistics recordSequenceQueued;
                      Enqueue request]
    /\ executionQueue w1
       = ExecutionQueue.enqueue request (executionQueue fresh)
    /\ sequenceExecutor w1 = sequenceExecutor fresh
    /\ (if isSequenceRunning (sequenceExecutor fresh)
        then w2 = w1
             /\ length (executionQueue w2) = S (length (executionQueue fresh))
        else exists a, processSequenceQueue w1 = Normal a w2)
    /\ trace w'
       = trace w2
           ++ [Emit SEQUENCE_QUEUED
                 (queued_payload "Demo.ping-symphony" id NORMAL
                    (length (executionQueue w2)));
               queued_line "Demo.ping-symphony"]
    /\ startSequence "Demo.ping-symphony" ∅ NORMAL fresh
       = Normal (succeeded id) w'.
Proof.
  apply (C5_admitted_request_is_queued fresh "Demo.ping-symphony" ∅ NORMAL
           ping unseen allowed).
  - vm_compute. reflexivity.
  - vm_compute. reflexivity.
  - reflexivity.
  - vm_compute. reflexivity.
  - discriminate.
Defined.

(** The claim C5 as stated fails there.  Were the drain scheduled on the
    next turn, the call would return with its request still in the queue, an
    idle executor, and a SEQUENCE_QUEUED event reporting a queue of length
    one.  On the code the executor already holds the request when the call
    returns, [executeSequence] is journalled before the event, and the event
    reports a queue of length zero. *)
Lemma C5_drain_runs_inside_the_call :
  let id := requestId_at "Demo.ping-symphony" 0 in
  startSequence "Demo.ping-symphony" ∅ NORMAL fresh
  = Normal (succeeded id) playing
  /\ sequenceExecutor playing
     = Some (request_in "Demo.ping-symphony" ∅ NORMAL unseen allowed fresh)
  /\ executionQueue playing = []
  /\ executions (trace playing) = [true]
  /\ published (trace playing)
     = [(SEQUENCE_QUEUED, queued_payload "Demo.ping-symphony" id NORMAL 0)]
  /\ ~ (sequenceExecutor playing = None
        /\ length (executionQueue playing) = 1).
Proof.
  split; [vm_compute; reflexivity|]. split; [vm_compute; reflexivity|].
  split; [vm_compute; reflexivity|]. split; [vm_compute; reflexivity|].
  split; [vm_compute; reflexivity|].
  vm_compute. intros [Hidle _]. discriminate Hidle.
Qed.

(** A busy executor stops the drainer; two plays and two settlements stay
    serial. *)
Lemma C6_drainer_waits_for_idle_executor_witness :
  processSequenceQueue playing = Normal (Resolved not_processed) playing
  /\ serial
       (run [CallStartSequence "Demo.ping-symphony" ∅ NORMAL;
             CallStartSequence "Demo.ping-symphony" ∅ HIGH;
             ExecutorSettles (Rejected boom);
             CallProcessSequenceQueue;
             ExecutorSettles Fulfilled] fresh).
Proof.
  split.
  - apply (proj1 (C6_drainer_waits_for_idle_executor playing)).
    right. vm_compute. reflexivity.
  - apply (proj2 (C6_drainer_waits_for_idle_executor fresh)).
    + exact current_executor_is_serial.
    + split; reflexivity.
Defined.

(** The claim C7 as stated fails on a rejection while [ping] is running: the
    drainer resolves with the error and publishes no SEQUENCE_FAILED; the
    only event on the bus is the SEQUENCE_QUEUED of the admission. *)
Lemma C7_no_event_for_rejection :
  settle (Rejected boom) playing
  = Normal
      (Some {| processed := true;
               drain_sequenceName := Some "Demo.ping-symphony";
               drain_success := Some false;
               drain_error := Some "boom" |})
      play_failed
  /\ (published (trace play_failed)).*1 = [SEQUENCE_QUEUED]
  /\ ~ (exists payload,
          In (SEQUENCE_FAILED, payload) (published (trace play_failed))).
Proof.
  split; [vm_compute; reflexivity|]. split; [vm_compute; reflexivity|].
  vm_compute. intros [payload [Hin|[]]]. discriminate Hin.
Qed.

(** The request built for the first play on a fresh conductor. *)
Lemma C8_request_data_is_merged_witness :
  let request :=
    request_in "Demo.ping-symphony" ∅ NORMAL unseen allowed fresh in
  data request !! "sequenceHash" = Some (VString "Demo.ping-symphony|NORMAL|")
  /\ data request !! "elementId" = None.
Proof.
  pose proof (C8_request_data_is_merged fresh "Demo.ping-symphony" ∅ NORMAL
                ping unseen allowed) as H.
  destruct H as (_ & _ & _ & _ & _ & _ & Hhash & Hrest).
  - vm_compute. reflexivity.
  - vm_compute. reflexivity.
  - reflexivity.
  - vm_compute. reflexivity.
  - discriminate.
  - split; [exact Hhash|].
    rewrite Hrest by discriminate. reflexivity.
Defined.



(** A HIGH request for a registered sequence, and a request for one that is
    gone. *)
Lemma C10_execution_type_follows_priority_witness :
  (exists ctx,
     createExecutionContext urgent fresh = Normal ctx fresh
     /\ ctx_sequence ctx = Some ping
     /\ ctx_priority ctx = HIGH
     /\ (ctx_executionType ctx = IMMEDIATE <-> priority urgent = HIGH)
     /\ (priority urgent <> HIGH -> ctx_executionType ctx = CONSECUTIVE))
  /\ (exists e, createExecutionContext orphan fresh = Thrown e fresh).
Proof.
  split.
  - apply (proj1 (C10_execution_type_follows_priority fresh urgent) ping).
    vm_compute. reflexivity.
  - apply (proj2 (C10_execution_type_follows_priority fresh orphan)).
    vm_compute. reflexivity.
Defined.

(** * Further properties of the orchestrator *)

Section Coverage.

Context {V U D E : Type}.
Context `{!SequenceValidator V, !SequenceUtilities U, !ResourceDelegator D}.
Context `{!SequenceExecutor E, !Host}.

Implicit Types (w : World V U D E) (r : SequenceRequest).
Implicit Types (n : string) (d : Data) (p : SequencePriority).

(** Unfold the straight-line methods of the class and the calls they make. *)
Ltac steps :=
  unfold startSequence, generateRequestId, logSequenceNotFound,
    handleDuplicateSequence, extractOrchestrationMetadata,
    checkResourceConflicts, createSequenceRequest, recordSequenceExecution,
    emitSequenceQueuedEvent, processQueueIfIdle, getDebugInfo, try_catch,
    sequenceValidator_deduplicateSequenceRequest,
    sequenceUtilities_createSequenceInstanceId,
    sequenceUtilities_createExecutionContext,
    resourceDelegator_checkResourceConflict in *;
  unfold bind, ret, throw, executionQueue_isEmpty, executionQueue_size,
    executionQueue_enqueue, executionQueue_dequeue,
    sequenceExecutor_isSequenceRunning, sequenceExecutor_getCurrentSequence,
    sequenceExecutor_executeSequence, sequenceRegistry_get,
    sequenceRegistry_getNames, statisticsManager_recordSequenceQueued,
    statisticsManager_recordError, statisticsManager_updateQueueWaitTime,
    eventBus_emit, console, host_Date_now, host_Math_random_suffix,
    host_performance_now, tick in *;
  cbn -[lookup insert map_to_list pretty String.append toConflictResult
        processSequenceQueue ExecutionQueue.enqueue] in *.

(** ** The conversion of the delegator's answer *)

Lemma reason_or_default_nonempty reason : reason_or_default reason <> "".
Proof. destruct reason as [[|c s]|]; discriminate. Qed.

(** X1.  [checkResourceConflicts] passes an error thrown by the delegator
    on, and converts an answer as follows: [hasConflict] is copied and
    [conflictType] is ["SAME_RESOURCE"] exactly when it is set; the
    resolution is ["REJECT"] exactly for the delegator's ["reject"],
    ["QUEUE"] exactly for ["queue"], and ["ALLOW"] for every other string,
    known or not; the message is never empty: it is the delegator's reason,
    or ["No conflict detected"] when the reason is absent or empty. *)
Theorem X1_conflict_result_conversion w (m : OrchestrationMetadata) p :
  match checkResourceConflict (resourceId m) (instanceId m) p
          (resourceDelegator w) with
  | (Returns dr, dl) =>
      exists c,
        checkResourceConflicts m p w = Normal c (set_resourceDelegator dl w)
        /\ hasConflict c = delegator_hasConflict dr
        /\ (conflictType c = SAME_RESOURCE <-> hasConflict c = true)
        /\ (resolution c = REJECT <-> delegator_resolution dr = "reject")
        /\ (resolution c = QUEUE <-> delegator_resolution dr = "queue")
        /\ (resolution c = ALLOW
            <-> delegator_resolution dr <> "reject"
                /\ delegator_resolution dr <> "queue")
        /\ message c <> ""
        /\ (delegator_reason dr = None \/ delegator_reason dr = Some ""
            -> message c = "No conflict detected")
        /\ (forall reason,
              delegator_reason dr = Some reason -> reason <> "" ->
              message c = reason)
  | (Raises e, dl) =>
      checkResourceConflicts m p w = Thrown e (set_resourceDelegator dl w)
  end.
Proof.
  unfold checkResourceConflicts, resourceDelegator_checkResourceConflict,
    bind, ret.
  destruct (checkResourceConflict (resourceId m) (instanceId m) p
              (resourceDelegator w)) as [[dr|e] dl]; [|reflexivity].
  exists (toConflictResult dr). split; [reflexivity|].
  unfold toConflictResult. cbn [hasConflict conflictType resolution message].
  split; [reflexivity|]. split.
  { destruct (delegator_hasConflict dr); split; intros; congruence. }
  split; [repeat case_decide; split; intros; congruence|].
  split; [repeat case_decide; split; intros; congruence|].
  split.
  { repeat case_decide; split; try congruence; try (intros [? ?]; congruence);
      intros _; split; congruence. }
  split; [apply reason_or_default_nonempty|]. split.
  - intros [-> | ->]; reflexivity.
  - intros reason -> Hne. destruct reason; [contradiction|reflexivity].
Qed.

(** ** What a call of [startSequence] returns and leaves behind *)

Lemma counters_drainer es k :
  Forall (fun e => drainer_effect e = true) es ->
  fold_left
    (fun k e => match e with Statistics c => count c k | _ => k end) es k
  = k.
Proof.
  intros Hes. revert k.
  induction Hes as [|e es He _ IH]; intros k; [reflexivity|].
  cbn [fold_left]. rewrite IH.
  destruct e as [| |c| | | |]; try reflexivity.
  destruct c; try discriminate He. reflexivity.
Qed.

(** X2.  An error thrown by the validator or by the delegator does not
    leave [startSequence]: the call returns [{ requestId, success: false,
    reason }] with the message of the error and the id generated at the
    start of the call, records the error once with the statistics manager,
    publishes nothing, and leaves the queue and the executor alone. *)
Theorem X2_collaborator_errors_are_returned w n d p s e :
  sequenceRegistry w !! n = Some s ->
  (deduplication n d p w).1 = Raises e
  \/ (exists dd,
        (deduplication n d p w).1 = Returns dd
        /\ isDuplicate dd = false
        /\ (delegation n d p w).1 = Raises e) ->
  exists w',
    startSequence n d p w
    = Normal {| start_requestId := requestId_at n (clock w);
                start_success := false;
                start_reason := Some (error_message e);
                start_isDuplicate := None |} w'
    /\ published (trace w') = published (trace w)
    /\ errored (statistics (trace w')) = S (errored (statistics (trace w)))
    /\ executionQueue w' = executionQueue w
    /\ sequenceExecutor w' = sequenceExecutor w.
Proof.
  intros Hreg [Hdd|(dd & Hdd & Hdup & Hdl)].
  - destruct (start_dedup_raises w n d p s e Hreg Hdd) as (w' & Hrun & Ht & Hu).
    exists w'. split; [exact Hrun|]. rewrite Ht.
    split; [rewrite published_app; apply app_nil_r|].
    split; [rewrite statistics_app; reflexivity|].
    split; apply Hu.
  - destruct (start_delegator_raises w n d p s dd e Hreg Hdd Hdup Hdl)
      as (w' & Hrun & Ht & Hu).
    exists w'. split; [exact Hrun|]. rewrite Ht.
    split; [rewrite published_app; apply app_nil_r|].
    split; [rewrite statistics_app; reflexivity|].
    split; apply Hu.
Qed.

(** X3.  The shape of the result.  Here every value thrown inside
    [startSequence] is an [Error] with a string message, as the [catch]
    block takes it to be when it reads [error.message].  Whenever the call
    then returns a result, the result is of one of three shapes: a success
    without a reason; a failure with a reason; or a failure with a reason
    that is flagged [isDuplicate].  The flag is never [false].  A result
    that is not flagged carries the id generated at the start of the call,
    a flagged one the id [handleDuplicateSequence] generated two clock
    reads later; either id begins with the name of the sequence and a
    dash. *)
Theorem X3_result_shape w n d p res w' :
  startSequence n d p w = Normal res w' ->
  (start_success res = true <-> start_reason res = None)
  /\ (start_isDuplicate res = None
      /\ start_requestId res = requestId_at n (clock w)
      \/ start_isDuplicate res = Some true
         /\ start_success res = false
         /\ start_requestId res = duplicateRequestId_at n (S (S (clock w))))
  /\ names_sequence (start_requestId res) n.
Proof.
  intros Hrun.
  destruct (startSequence_paths w n d p) as (res0 & w0 & Hrun0 & Hadm).
  rewrite Hrun in Hrun0. injection Hrun0 as <- <-.
  assert (Hid : names_sequence (requestId_at n (clock w)) n).
  { eexists. unfold requestId_at. reflexivity. }
  destruct Hadm as
    [w' Hreg Ht Hu | s e w' Hreg Hdd Ht Hu | s dd w' Hreg Hdd Hdup Ht Hu
    | s dd e w' Hreg Hdd Hdup Hdl Ht Hu
    | s dd dr w' Hreg Hdd Hdup Hdl Hrej Ht Hu
    | s dd dr w2 Hreg Hdd Hdup Hdl Hrej w1 Hw2 Hd ];
    cbn [start_success start_reason start_isDuplicate start_requestId
         failed succeeded].
  1,2,4,5,6:
    (split; [split; intros; congruence|]; split; [left; split; reflexivity|];
     exact Hid).
  split; [split; intros; congruence|].
  split; [right; repeat split; reflexivity|].
  exists ("duplicate-" +:+ pretty (Date_now (S (S (clock w)))) +:+ "-"
            +:+ Math_random_suffix (S (S (S (clock w))))).
  reflexivity.
Qed.

(** X4.  Every call of [startSequence] makes exactly one counting call on
    the statistics manager, or none: [recordSequenceQueued] when it
    succeeds, [recordError] when it fails, nothing when it answers a
    duplicate.  The other counters (started, completed, cancelled,
    duplicates) are never touched. *)
Theorem X4_one_counter_per_call w n d p :
  exists res w',
    startSequence n d p w = Normal res w'
    /\ statistics (trace w')
       = if start_success res
         then count recordSequenceQueued (statistics (trace w))
         else match start_isDuplicate res with
              | Some true => statistics (trace w)
              | _ => count recordError (statistics (trace w))
              end.
Proof.
  destruct (startSequence_paths w n d p) as (res & w' & Hrun & Hadm).
  exists res, w'. split; [exact Hrun|].
  destruct Hadm as
    [w' Hreg Ht Hu | s e w' Hreg Hdd Ht Hu | s dd w' Hreg Hdd Hdup Ht Hu
    | s dd e w' Hreg Hdd Hdup Hdl Ht Hu
    | s dd dr w' Hreg Hdd Hdup Hdl Hrej Ht Hu
    | s dd dr w2 Hreg Hdd Hdup Hdl Hrej w1 Hw2 [es Hd] ];
    cbn [start_success start_isDuplicate failed succeeded].
  - rewrite Ht, statistics_app, fold_left_app.
    rewrite (statistics_quiet
               (notFound_lines n ((map_to_list (sequenceRegistry w)).*1)))
      by apply notFound_lines_console.
    reflexivity.
  - rewrite Ht, statistics_app. reflexivity.
  - rewrite Ht, statistics_app. reflexivity.
  - rewrite Ht, statistics_app. reflexivity.
  - rewrite Ht, statistics_app. reflexivity.
  - unfold announced. cbn [trace journal].
    rewrite (drained_trace _ _ _ Hd). cbn [trace enqueued w1].
    rewrite !statistics_app.
    cbn [fold_left].
    rewrite (counters_drainer es _ (drained_effects _ _ _ Hd)).
    reflexivity.
Qed.

(** X5.  Every call of [startSequence] publishes one event or none, and the
    event carries the request id the call returns: SEQUENCE_QUEUED, with the
    length the queue has when the call returns, after a success;
    SEQUENCE_CANCELLED after a duplicate; nothing after any other
    failure. *)
Theorem X5_one_event_per_call w n d p :
  exists res w',
    startSequence n d p w = Normal res w'
    /\ match start_success res, start_isDuplicate res with
       | true, _ =>
           published (trace w')
           = published (trace w)
               ++ [(SEQUENCE_QUEUED,
                    queued_payload n (start_requestId res) p
                      (length (executionQueue w')))]
       | false, Some true =>
           exists sequenceHash,
             published (trace w')
             = published (trace w)
                 ++ [(SEQUENCE_CANCELLED,
                      cancelled_payload n (start_requestId res) sequenceHash)]
       | false, _ => published (trace w') = published (trace w)
       end.
Proof.
  destruct (startSequence_paths w n d p) as (res & w' & Hrun & Hadm).
  exists res, w'. split; [exact Hrun|].
  destruct Hadm as
    [w' Hreg Ht Hu | s e w' Hreg Hdd Ht Hu | s dd w' Hreg Hdd Hdup Ht Hu
    | s dd e w' Hreg Hdd Hdup Hdl Ht Hu
    | s dd dr w' Hreg Hdd Hdup Hdl Hrej Ht Hu
    | s dd dr w2 Hreg Hdd Hdup Hdl Hrej w1 Hw2 Hd ];
    cbn [start_success start_isDuplicate start_requestId failed succeeded].
  - rewrite Ht, published_app, published_caught; [apply app_nil_r|].
    apply notFound_lines_console.
  - rewrite Ht, published_app. apply app_nil_r.
  - exists (hash dd). rewrite Ht, published_app. reflexivity.
  - rewrite Ht, published_app. apply app_nil_r.
  - rewrite Ht, published_app. apply app_nil_r.
  - unfold announced. cbn [trace journal executionQueue].
    rewrite !published_app, (drained_published _ _ Hd).
    cbn [trace enqueued w1]. rewrite published_app. cbn.
    rewrite !app_nil_r. reflexivity.
Qed.

(** X6.  A failed admission is not undone on the collaborators.  A request
    for an unknown sequence reaches none of them: the registry is asked
    first.  A duplicate stops at the validator: no instance id is made and
    the delegator is not asked.  A request the delegator rejects has been
    through all three: the validator is in the state its check left, one
    instance id is spent, and the delegator is in the state in which its
    own check left it. *)
Theorem X6_failed_admission_keeps_collaborator_effects w n d p :
  (sequenceRegistry w !! n = None ->
   exists res w',
     startSequence n d p w = Normal res w'
     /\ sequenceValidator w' = sequenceValidator w
     /\ sequenceUtilities w' = sequenceUtilities w
     /\ resourceDelegator w' = resourceDelegator w)
  /\ (forall s dd,
        sequenceRegistry w !! n = Some s ->
        (deduplication n d p w).1 = Returns dd ->
        isDuplicate dd = true ->
        exists res w',
          startSequence n d p w = Normal res w'
          /\ sequenceValidator w' = (deduplication n d p w).2
          /\ sequenceUtilities w' = sequenceUtilities w
          /\ resourceDelegator w' = resourceDelegator w)
  /\ (forall s dd dr,
        sequenceRegistry w !! n = Some s ->
        (deduplication n d p w).1 = Returns dd ->
        isDuplicate dd = false ->
        (delegation n d p w).1 = Returns dr ->
        delegator_resolution dr = "reject" ->
        exists res w',
          startSequence n d p w = Normal res w'
          /\ start_success res = false
          /\ sequenceValidator w' = (deduplication n d p w).2
          /\ sequenceUtilities w'
             = (createSequenceInstanceId n d "NORMAL" (sequenceUtilities w)).2
          /\ resourceDelegator w' = (delegation n d p w).2).
Proof.
  split; [|split].
  - intros Hreg. steps. rewrite Hreg.
    cbn -[lookup map_to_list String.append pretty].
    destruct (decide (n = "ElementLibrary.library-drop-symphony"));
      eexists _, _; (split; [reflexivity|]); repeat split; reflexivity.
  - unfold deduplication. intros s dd Hreg Hdd Hdup. steps. rewrite Hreg. steps.
    destruct (deduplicateSequenceRequest n d p (sequenceValidator w))
      as [[dd'|e'] v]; cbn in Hdd; [|discriminate]. injection Hdd as ->.
    steps. rewrite Hdup. steps.
    eexists _, _; (split; [reflexivity|]); repeat split; reflexivity.
  - unfold deduplication, delegation, instanceId_in.
    intros s dd dr Hreg Hdd Hdup Hdl Hrej. steps. rewrite Hreg. steps.
    destruct (deduplicateSequenceRequest n d p (sequenceValidator w))
      as [[dd'|e'] v]; cbn in Hdd; [|discriminate]. injection Hdd as ->.
    steps. rewrite Hdup. steps.
    destruct (createSequenceInstanceId n d "NORMAL" (sequenceUtilities w))
      as [i u]. steps.
    destruct (checkResourceConflict (extractResourceId n d) i p
                (resourceDelegator w)) as [[dr'|e'] dl]; cbn in Hdl;
      [|discriminate]. injection Hdl as ->.
    apply toConflictResult_reject in Hrej.
    steps. rewrite Hrej. steps.
    eexists _, _; (split; [reflexivity|]); repeat split; reflexivity.
Qed.

(** X7.  On an idle conductor with an empty queue an admitted request does
    not wait: within the call of [startSequence] it is enqueued, taken off
    the queue again, its wait time recorded (the time between two
    successive reads of [performance.now()]), and handed to the executor
    with the registered sequence; only then SEQUENCE_QUEUED is published,
    with [queueLength] 0.  When the call returns the queue is empty and one
    activation of the drainer is parked on the request. *)
Theorem X7_idle_admission_starts_at_once w n d p s dd dr :
  sequenceRegistry w !! n = Some s ->
  (deduplication n d p w).1 = Returns dd ->
  isDuplicate dd = false ->
  (delegation n d p w).1 = Returns dr ->
  delegator_resolution dr <> "reject" ->
  isSequenceRunning (sequenceExecutor w) = false ->
  executionQueue w = [] ->
  let id := requestId_at n (clock w) in
  let request := request_in n d p dd dr w in
  exists w',
    startSequence n d p w = Normal (succeeded id) w'
    /\ executionQueue w' = []
    /\ sequenceExecutor w' = executeSequence request s (sequenceExecutor w)
    /\ awaiting w' = awaiting w ++ [request]
    /\ trace w'
       = trace w
           ++ [recording_line (hash dd);
               Statistics recordSequenceQueued;
               Enqueue request;
               Dequeue request;
               wait_line (S (S (S (clock w)))) request;
               ExecuteSequence request s;
               Emit SEQUENCE_QUEUED (queued_payload n id p 0);
               queued_line n].
Proof.
  intros Hreg Hdd Hdup Hdl Hrej He Hq id request.
  destruct (start_admitted w n d p s dd dr Hreg Hdd Hdup Hdl Hrej)
    as (w2 & Hw2 & _ & Hrun).
  rewrite He in Hw2. destruct Hw2 as (a & Hdrain).
  fold request in Hdrain.
  set (w1 := enqueued request (hash dd) (deduplication n d p w).2
               (createSequenceInstanceId n d "NORMAL" (sequenceUtilities w)).2
               (delegation n d p w).2 w) in *.
  assert (Hhand : processSequenceQueue w1
                  = Normal (Parked request) (handed request s [] w1)).
  { unfold processSequenceQueue. apply drain_hand.
    - exact He.
    - unfold w1. cbn [executionQueue enqueued]. rewrite Hq. reflexivity.
    - exact Hreg. }
  rewrite Hhand in Hdrain. injection Hdrain as _ <-.
  eexists. split; [exact Hrun|].
  split; [reflexivity|]. split; [reflexivity|]. split; [reflexivity|].
  unfold announced, handed, w1, wait_line.
  cbn [trace journal set_awaiting set_sequenceExecutor set_clock
       set_executionQueue enqueued clock executionQueue ExecutionQueue.size
       length].
  rewrite <- !app_assoc. reflexivity.
Qed.

(** ** The drainer, request by request *)

Lemma drain_past orphans : forall w fuel r s rest,
  isSequenceRunning (sequenceExecutor w) = false ->
  executionQueue w = orphans ++ r :: rest ->
  Forall (fun o => sequenceRegistry w !! sequenceName o = None) orphans ->
  sequenceRegistry w !! sequenceName r = Some s ->
  length (executionQueue w) < fuel ->
  exists w',
    processSequenceQueue_fuel fuel w
    = Normal (match orphans with
              | [] => Parked r
              | o :: _ => Resolved (not_in_registry o)
              end) w'
    /\ executionQueue w' = rest
    /\ sequenceExecutor w' = executeSequence r s (sequenceExecutor w)
    /\ awaiting w' = awaiting w ++ [r]
    /\ trace w'
       = trace w ++ skip_lines (clock w) orphans
           ++ [Dequeue r; wait_line (length orphans + clock w) r;
               ExecuteSequence r s].
Proof.
  induction orphans as [|o os IH]; intros w fuel r s rest He Hq Hmiss Hr Hlen.
  - destruct fuel as [|fuel]; [lia|].
    exists (handed r s rest w). split; [apply drain_hand; assumption|].
    repeat split. unfold handed, wait_line.
    cbn [trace journal set_awaiting set_sequenceExecutor set_clock
         set_executionQueue skip_lines length app Nat.add].
    rewrite <- !app_assoc. reflexivity.
  - destruct fuel as [|fuel]; [lia|].
    apply Forall_cons in Hmiss as [Ho Hos].
    destruct (IH (skipped o (os ++ r :: rest) w) fuel r s rest)
      as (w' & Hrun & Hq' & He' & Ha' & Ht'); try assumption.
    { reflexivity. }
    { rewrite Hq in Hlen. cbn in *. lia. }
    exists w'. split.
    { rewrite (drain_skip fuel w o (os ++ r :: rest) He Hq Ho).
      unfold bind. rewrite Hrun. reflexivity. }
    split; [exact Hq'|]. split; [exact He'|]. split; [exact Ha'|].
    rewrite Ht'. unfold skipped.
    cbn [trace journal set_clock set_executionQueue clock skip_lines length].
    rewrite Nat.add_succ_r. rewrite <- !app_assoc. reflexivity.
Qed.

Lemma drain_out orphans : forall w fuel,
  isSequenceRunning (sequenceExecutor w) = false ->
  executionQueue w = orphans ->
  Forall (fun o => sequenceRegistry w !! sequenceName o = None) orphans ->
  length (executionQueue w) < fuel ->
  exists w',
    processSequenceQueue_fuel fuel w
    = Normal (match orphans with
              | [] => Resolved not_processed
              | o :: _ => Resolved (not_in_registry o)
              end) w'
    /\ executionQueue w' = []
    /\ sequenceExecutor w' = sequenceExecutor w
    /\ awaiting w' = awaiting w
    /\ trace w' = trace w ++ skip_lines (clock w) orphans.
Proof.
  induction orphans as [|o os IH]; intros w fuel He Hq Hmiss Hlen.
  - destruct fuel as [|fuel]; [lia|].
    exists w. split.
    { apply drain_gate. unfold drainable. rewrite Hq. reflexivity. }
    split; [exact Hq|]. repeat split. symmetry. apply app_nil_r.
  - destruct fuel as [|fuel]; [lia|].
    apply Forall_cons in Hmiss as [Ho Hos].
    destruct (IH (skipped o os w) fuel) as (w' & Hrun & Hq' & He' & Ha' & Ht');
      try assumption.
    { reflexivity. }
    { rewrite Hq in Hlen. cbn in *. lia. }
    exists w'. split.
    { rewrite (drain_skip fuel w o os He Hq Ho).
      unfold bind. rewrite Hrun. reflexivity. }
    split; [exact Hq'|]. split; [exact He'|]. split; [exact Ha'|].
    rewrite Ht'. unfold skipped.
    cbn [trace journal set_clock set_executionQueue clock skip_lines].
    rewrite <- !app_assoc. reflexivity.
Qed.

(** X8.  One call of [processSequenceQueue] on an idle executor works
    through the queue from its head: every request whose sequence is
    missing from the registry is taken off, its wait time recorded and an
    error logged, until the first request with a registered sequence, which
    is taken off, has its wait time recorded and is handed to the executor
    with that sequence.  The requests behind it stay queued in their order.
    If no request has a registered sequence, the queue ends up empty and the
    executor is not called.  The promise resolves for the request at the
    head of the queue: it is pending on the executor if that request is
    the one handed over, and resolved with the not-found result
    otherwise. *)
Theorem X8_drainer_skips_to_the_first_registered_request w orphans :
  isSequenceRunning (sequenceExecutor w) = false ->
  Forall (fun o => sequenceRegistry w !! sequenceName o = None) orphans ->
  (forall r s rest,
     executionQueue w = orphans ++ r :: rest ->
     sequenceRegistry w !! sequenceName r = Some s ->
     exists w',
       processSequenceQueue w
       = Normal (match orphans with
                 | [] => Parked r
                 | o :: _ => Resolved (not_in_registry o)
                 end) w'
       /\ executionQueue w' = rest
       /\ sequenceExecutor w' = executeSequence r s (sequenceExecutor w)
       /\ awaiting w' = awaiting w ++ [r]
       /\ trace w'
          = trace w ++ skip_lines (clock w) orphans
              ++ [Dequeue r; wait_line (length orphans + clock w) r;
                  ExecuteSequence r s])
  /\ (executionQueue w = orphans ->
      exists w',
        processSequenceQueue w
        = Normal (match orphans with
                  | [] => Resolved not_processed
                  | o :: _ => Resolved (not_in_registry o)
                  end) w'
        /\ executionQueue w' = []
        /\ sequenceExecutor w' = sequenceExecutor w
        /\ awaiting w' = awaiting w
        /\ trace w' = trace w ++ skip_lines (clock w) orphans).
Proof.
  intros He Hmiss. split.
  - intros r s rest Hq Hr. unfold processSequenceQueue.
    apply drain_past; try assumption. lia.
  - intros Hq. unfold processSequenceQueue.
    apply drain_out; try assumption. lia.
Qed.

(** X9.  When the promise of [executeSequence] settles and the executor
    reports idle again, the activation parked on it goes on at once,
    whether the promise was fulfilled or rejected: it resolves with
    [{ processed: true, sequenceName, success }] ([success: true] without
    an error after a fulfilment, [success: false] with the message of the
    error after a rejection, which is also logged), and the request at the
    head of the queue, if its sequence is registered, is taken off and
    handed to the executor in the same turn.  With an empty queue the
    executor stays idle. *)
Theorem X9_settlement_starts_the_next_request w cur parked outcome :
  awaiting w = cur :: parked ->
  isSequenceRunning (settled cur outcome (sequenceExecutor w)) = false ->
  let logged :=
    match outcome with
    | Fulfilled => []
    | Rejected error => [failure_line cur error]
    end in
  (forall r q s,
     executionQueue w = r :: q ->
     sequenceRegistry w !! sequenceName r = Some s ->
     exists w',
       settle outcome w = Normal (Some (settled_result cur outcome)) w'
       /\ executionQueue w' = q
       /\ sequenceExecutor w'
          = executeSequence r s (settled cur outcome (sequenceExecutor w))
       /\ awaiting w' = parked ++ [r]
       /\ trace w'
          = trace w ++ ExecutionSettled cur outcome :: logged
              ++ [Dequeue r; wait_line (clock w) r; ExecuteSequence r s])
  /\ (executionQueue w = [] ->
      exists w',
        settle outcome w = Normal (Some (settled_result cur outcome)) w'
        /\ executionQueue w' = []
        /\ sequenceExecutor w' = settled cur outcome (sequenceExecutor w)
        /\ awaiting w' = parked
        /\ trace w' = trace w ++ ExecutionSettled cur outcome :: logged).
Proof.
  intros Ha He logged. unfold settle. rewrite Ha.
  set (ws := set_awaiting parked _).
  split.
  - intros r q s Hq Hr.
    destruct outcome as [|e].
    + assert (Hhand : processSequenceQueue ws
                      = Normal (Parked r) (handed r s q ws)).
      { unfold processSequenceQueue. apply drain_hand; assumption. }
      exists (handed r s q ws). split.
      { unfold processSequenceQueue_resume, bind, ret. rewrite Hhand.
        reflexivity. }
      repeat split. unfold handed, ws, wait_line, logged.
      cbn [trace journal set_awaiting set_sequenceExecutor set_clock
           set_executionQueue clock app].
      rewrite <- !app_assoc. reflexivity.
    + set (w0 := journal (failure_line cur e) ws).
      assert (Hhand : processSequenceQueue w0
                      = Normal (Parked r) (handed r s q w0)).
      { unfold processSequenceQueue. apply drain_hand; assumption. }
      exists (handed r s q w0). split.
      { unfold processSequenceQueue_resume, bind, ret, console.
        fold (failure_line cur e). fold w0. rewrite Hhand. reflexivity. }
      repeat split. unfold handed, w0, ws, wait_line, logged.
      cbn [trace journal set_awaiting set_sequenceExecutor set_clock
           set_executionQueue clock app].
      rewrite <- !app_assoc. reflexivity.
  - intros Hq.
    destruct outcome as [|e].
    + assert (Hgate : processSequenceQueue ws
                      = Normal (Resolved not_processed) ws).
      { unfold processSequenceQueue. apply drain_gate. unfold drainable.
        cbn [executionQueue ws set_awaiting set_sequenceExecutor journal].
        rewrite Hq. reflexivity. }
      exists ws. split.
      { unfold processSequenceQueue_resume, bind, ret. rewrite Hgate.
        reflexivity. }
      split; [exact Hq|]. repeat split.
    + set (w0 := journal (failure_line cur e) ws).
      assert (Hgate : processSequenceQueue w0
                      = Normal (Resolved not_processed) w0).
      { unfold processSequenceQueue. apply drain_gate. unfold drainable.
        cbn [executionQueue w0 ws set_awaiting set_sequenceExecutor journal].
        rewrite Hq. reflexivity. }
      exists w0. split.
      { unfold processSequenceQueue_resume, bind, ret, console.
        fold (failure_line cur e). fold w0. rewrite Hgate. reflexivity. }
      split; [exact Hq|]. repeat split.
      unfold w0, ws, logged. cbn [trace journal set_awaiting set_sequenceExecutor].
      rewrite <- !app_assoc. reflexivity.
Qed.

(** ** No request waits while the executor is idle *)

Lemma drain_leaves_nothing fuel w a w' :
  (forall r s (e : E), isSequenceRunning (executeSequence r s e) = true) ->
  processSequenceQueue_fuel fuel w = Normal a w' ->
  drainable w' = false.
Proof.
  intros Hlaw. revert w a w'.
  induction fuel as [|fuel IH]; intros w a w' Hrun; [discriminate Hrun|].
  destruct (drainable w) eqn:Hg.
  2:{ rewrite (drain_gate fuel w Hg) in Hrun. injection Hrun as _ <-.
      exact Hg. }
  unfold drainable in Hg. apply andb_true_iff in Hg as [Hq He].
  destruct (executionQueue w) as [|r q] eqn:Eq; [discriminate Hq|].
  apply negb_true_iff in He.
  destruct (sequenceRegistry w !! sequenceName r) as [s|] eqn:Hr.
  - rewrite (drain_hand fuel w r q s He Eq Hr) in Hrun.
    injection Hrun as _ <-. unfold drainable, handed.
    cbn [sequenceExecutor set_awaiting set_sequenceExecutor].
    rewrite Hlaw. apply andb_false_r.
  - rewrite (drain_skip fuel w r q He Eq Hr) in Hrun. unfold bind in Hrun.
    destruct (processSequenceQueue_fuel fuel (skipped r q w))
      as [a0 w0| |] eqn:Hrec; try discriminate Hrun.
    injection Hrun as _ <-. exact (IH _ _ _ Hrec).
Qed.

Lemma turn_leaves_nothing `{!SerialExecutor E} t w :
  drainable w = false -> drainable (turn t w) = false.
Proof.
  intros Hg. destruct t as [n d p| |outcome]; unfold turn.
  - destruct (startSequence_paths w n d p) as (res & w' & Hrun & Hadm).
    rewrite Hrun. cbn [world_of].
    destruct Hadm as
      [w' Hreg Ht Hu | s e w' Hreg Hdd Ht Hu | s dd w' Hreg Hdd Hdup Ht Hu
      | s dd e w' Hreg Hdd Hdup Hdl Ht Hu
      | s dd dr w' Hreg Hdd Hdup Hdl Hrej Ht Hu
      | s dd dr w2 Hreg Hdd Hdup Hdl Hrej w1 Hw2 Hd ].
    1-5: (unfold drainable; rewrite (same_queue _ _ Hu), (same_executor _ _ Hu);
          exact Hg).
    unfold drainable, announced. cbn [executionQueue sequenceExecutor journal].
    destruct (isSequenceRunning (sequenceExecutor w)) eqn:He.
    + rewrite Hw2. cbn [executionQueue sequenceExecutor enqueued w1].
      rewrite He. apply andb_false_r.
    + destruct Hw2 as (a & Hdrain).
      exact (drain_leaves_nothing _ _ _ _ running_while_executing Hdrain).
  - destruct (processSequenceQueue_total w) as (a & w' & Hq & _).
    rewrite Hq. cbn [world_of].
    exact (drain_leaves_nothing _ _ _ _ running_while_executing Hq).
  - unfold settle. destruct (awaiting w) as [|cur rest]; [exact Hg|].
    set (ws := set_awaiting rest _).
    destruct outcome as [|e].
    + destruct (resume_fulfilled ws cur) as (a & w' & Hq & _ & Hres).
      unfold bind at 1. rewrite Hres. cbn [world_of ret].
      exact (drain_leaves_nothing _ _ _ _ running_while_executing Hq).
    + destruct (resume_rejected ws cur e) as (a & w' & Hq & _ & Hres).
      unfold bind at 1. rewrite Hres. cbn [world_of ret].
      exact (drain_leaves_nothing _ _ _ _ running_while_executing Hq).
Qed.

(** X10.  A call of [processSequenceQueue] always goes as far as it can:
    when it gives control back, the queue is empty or the executor reports
    a running sequence.  Hence, with an executor that reports a running
    sequence from [executeSequence] on, no request is ever left waiting for
    an idle executor: if that holds of a world, it holds after every
    sequence of turns (admissions, calls of the drainer, settlements), and
    [getDebugInfo], which changes nothing, then never reports
    [isExecuting: false] together with a [queueSize] other than 0.  Its
    [processedSequences] is 0 whatever has been processed. *)
Theorem X10_no_request_waits_for_an_idle_executor w ts :
  SerialExecutor E ->
  (exists a w',
     processSequenceQueue w = Normal a w' /\ drainable w' = false)
  /\ (drainable w = false ->
      drainable (run ts w) = false
      /\ exists info,
           getDebugInfo (run ts w) = Normal info (run ts w)
           /\ queueSize info = length (executionQueue (run ts w))
           /\ isExecuting info
              = isSequenceRunning (sequenceExecutor (run ts w))
           /\ (isExecuting info = false -> queueSize info = 0)
           /\ processedSequences info = 0).
Proof.
  intros Hlaw. split.
  - destruct (processSequenceQueue_total w) as (a & w' & Hq & _).
    exists a, w'. split; [exact Hq|].
    exact (drain_leaves_nothing _ _ _ _ running_while_executing Hq).
  - intros Hg.
    assert (Hrun : drainable (run ts w) = false).
    { revert w Hg. induction ts as [|t ts IH]; intros w Hg; [exact Hg|].
      cbn. apply IH, turn_leaves_nothing, Hg. }
    split; [exact Hrun|].
    eexists. split; [reflexivity|]. cbn [queueSize isExecuting processedSequences].
    split; [reflexivity|]. split; [reflexivity|]. split; [|reflexivity].
    intros He. unfold drainable in Hrun. rewrite He in Hrun.
    unfold ExecutionQueue.size.
    destruct (executionQueue (run ts w)); [reflexivity|discriminate Hrun].
Qed.

(** ** The books of a run *)

Lemma enqueues_app t1 t2 : enqueues (t1 ++ t2) = enqueues t1 ++ enqueues t2.
Proof.
  induction t1 as [|e t1 IH]; [reflexivity|].
  destruct e; cbn; rewrite ?IH; reflexivity.
Qed.

Lemma dequeues_app t1 t2 : dequeues (t1 ++ t2) = dequeues t1 ++ dequeues t2.
Proof.
  induction t1 as [|e t1 IH]; [reflexivity|].
  destruct e; cbn; rewrite ?IH; reflexivity.
Qed.

Lemma handed_over_app t1 t2 :
  handed_over (t1 ++ t2) = handed_over t1 ++ handed_over t2.
Proof.
  induction t1 as [|e t1 IH]; [reflexivity|].
  destruct e; cbn; rewrite ?IH; reflexivity.
Qed.

Lemma queued_calls_app t1 t2 :
  queued_calls (t1 ++ t2) = queued_calls t1 + queued_calls t2.
Proof.
  induction t1 as [|e t1 IH]; [reflexivity|].
  destruct e as [| |c| | | |]; cbn; rewrite ?IH; try reflexivity.
  destruct c; cbn; rewrite ?IH; reflexivity.
Qed.

Lemma announced_ids_app t1 t2 :
  announced_ids (t1 ++ t2) = announced_ids t1 ++ announced_ids t2.
Proof.
  induction t1 as [|e t1 IH]; [reflexivity|].
  destruct e as [|topic payload| | | | |]; cbn [announced_ids app];
    rewrite ?IH; try reflexivity.
  destruct topic; rewrite ?IH; try reflexivity.
  destruct (payload_get "requestId" payload) as [[]|]; rewrite ?IH; reflexivity.
Qed.

Lemma queued_counted es k :
  queued
    (fold_left
       (fun k e => match e with Statistics c => count c k | _ => k end) es k)
  = queued k + queued_calls es.
Proof.
  revert k. induction es as [|e es IH]; intros k; [cbn; lia|].
  cbn [fold_left]. rewrite IH.
  destruct e as [| |c| | | |]; cbn [queued_calls]; try reflexivity.
  destruct c; cbn; lia.
Qed.

Lemma enqueue_permutation r (q : list SequenceRequest) :
  ExecutionQueue.enqueue r q ≡ₚ r :: q.
Proof.
  induction q as [|x q IH]; [reflexivity|]. cbn.
  destruct (ExecutionQueue.band (priority x) <=? ExecutionQueue.band (priority r))%nat;
    [|reflexivity].
  rewrite IH. apply Permutation_swap.
Qed.

Lemma accounted_refl w : accounted [] w w.
Proof.
  split; try reflexivity.
  - symmetry. apply app_nil_r.
  - cbn. rewrite app_nil_r. reflexivity.
  - constructor.
Qed.

Lemma accounted_trans es1 es2 w w1 w2 :
  accounted es1 w w1 -> accounted es2 w1 w2 -> accounted (es1 ++ es2) w w2.
Proof.
  intros [T1 R1 Q1 H1 A1 C1 P1] [T2 R2 Q2 H2 A2 C2 P2]. split.
  - rewrite T2, T1, app_assoc. reflexivity.
  - rewrite R2. exact R1.
  - rewrite enqueues_app, dequeues_app, app_assoc, Q1, <- app_assoc, Q2.
    rewrite app_assoc. reflexivity.
  - rewrite handed_over_app, dequeues_app, omap_app, H1, H2, R1. reflexivity.
  - rewrite announced_ids_app, enqueues_app, fmap_app, A1, A2. reflexivity.
  - rewrite queued_calls_app, enqueues_app, length_app, C1, C2. reflexivity.
  - apply Forall_app. split; assumption.
Qed.

(** A step that journals nothing about the queue, the executor or an
    admission. *)
Lemma accounted_quiet es w w' :
  trace w' = trace w ++ es ->
  sequenceRegistry w' = sequenceRegistry w ->
  executionQueue w' = executionQueue w ->
  enqueues es = [] /\ dequeues es = [] /\ handed_over es = []
  /\ announced_ids es = [] /\ queued_calls es = 0
  /\ Forall (fun e => reported e = true) es ->
  accounted es w w'.
Proof.
  intros Ht Hr Hq (He & Hd & Hh & Ha & Hc & Hp). split; try assumption.
  - rewrite He, Hd, Hq, app_nil_r. reflexivity.
  - rewrite Hh, Hd. reflexivity.
  - rewrite Ha, He. reflexivity.
  - rewrite Hc, He. reflexivity.
Qed.

Lemma accounted_drain fuel w a w' :
  processSequenceQueue_fuel fuel w = Normal a w' ->
  exists es, accounted es w w' /\ enqueues es = [].
Proof.
  revert w a w'.
  induction fuel as [|fuel IH]; intros w a w' Hrun; [discriminate Hrun|].
  destruct (drainable w) eqn:Hg.
  2:{ rewrite (drain_gate fuel w Hg) in Hrun. injection Hrun as _ <-.
      exists []. split; [apply accounted_refl|reflexivity]. }
  unfold drainable in Hg. apply andb_true_iff in Hg as [Hq He].
  destruct (executionQueue w) as [|r q] eqn:Eq; [discriminate Hq|].
  apply negb_true_iff in He.
  destruct (sequenceRegistry w !! sequenceName r) as [s|] eqn:Hr.
  - rewrite (drain_hand fuel w r q s He Eq Hr) in Hrun.
    injection Hrun as _ <-.
    exists [Dequeue r; wait_line (clock w) r; ExecuteSequence r s].
    split; [|reflexivity]. split; try reflexivity.
    + unfold handed, wait_line.
      cbn [trace journal set_awaiting set_sequenceExecutor set_clock
           set_executionQueue].
      rewrite <- !app_assoc. reflexivity.
    + rewrite Eq. cbn. rewrite app_nil_r. reflexivity.
    + cbn. rewrite Hr. reflexivity.
    + repeat constructor.
  - rewrite (drain_skip fuel w r q He Eq Hr) in Hrun. unfold bind in Hrun.
    destruct (processSequenceQueue_fuel fuel (skipped r q w))
      as [a0 w0| |] eqn:Hrec; try discriminate Hrun.
    injection Hrun as _ <-.
    destruct (IH _ _ _ Hrec) as (es & Hacc & Hes).
    exists ([Dequeue r; wait_line (clock w) r; missing_line r] ++ es).
    split.
    2:{ rewrite enqueues_app, Hes. reflexivity. }
    refine (accounted_trans _ _ w (skipped r q w) _ _ Hacc).
    split; try reflexivity.
    + unfold skipped, wait_line, missing_line.
      cbn [trace journal set_clock set_executionQueue].
      rewrite <- !app_assoc. reflexivity.
    + rewrite Eq. cbn. rewrite app_nil_r. reflexivity.
    + cbn. rewrite Hr. reflexivity.
    + repeat constructor.
Qed.

Lemma accounted_admission w n d p res w' :
  Admission w n d p res w' -> exists es, accounted es w w'.
Proof.
  intros Hadm.
  destruct Hadm as
    [w' Hreg Ht Hu | s e w' Hreg Hdd Ht Hu | s dd w' Hreg Hdd Hdup Ht Hu
    | s dd e w' Hreg Hdd Hdup Hdl Ht Hu
    | s dd dr w' Hreg Hdd Hdup Hdl Hrej Ht Hu
    | s dd dr w2 Hreg Hdd Hdup Hdl Hrej w1 Hw2 Hd ].
  1-5: (eexists; apply accounted_quiet;
        [exact Ht|apply Hu|apply Hu|]).
  - unfold notFound_lines.
    case_decide; repeat split; try reflexivity; repeat constructor.
  - repeat split; try reflexivity; repeat constructor.
  - repeat split; try reflexivity; repeat constructor.
  - repeat split; try reflexivity; repeat constructor.
  - repeat split; try reflexivity; repeat constructor.
  - assert (Hdrain : exists es, accounted es w1 w2 /\ enqueues es = []).
    { destruct (isSequenceRunning (sequenceExecutor w)).
      - subst w2. exists []. split; [apply accounted_refl|reflexivity].
      - destruct Hw2 as (a & Hrun). exact (accounted_drain _ _ _ _ Hrun). }
    destruct Hdrain as (es & [T R Q Hh A C P] & Hes).
    exists ([recording_line (hash dd); Statistics recordSequenceQueued;
             Enqueue (request_in n d p dd dr w)]
              ++ es
              ++ [Emit SEQUENCE_QUEUED
                    (queued_payload n (requestId_at n (clock w)) p
                       (ExecutionQueue.size (executionQueue w2)));
                  queued_line n]).
    split.
    + unfold announced. cbn [trace journal]. rewrite T.
      cbn [trace enqueued w1]. rewrite <- !app_assoc. reflexivity.
    + unfold announced. cbn [sequenceRegistry journal]. rewrite R. reflexivity.
    + rewrite !enqueues_app, !dequeues_app, Hes.
      unfold announced, recording_line, queued_line.
      cbn [executionQueue journal enqueues dequeues app].
      rewrite app_nil_r. rewrite <- Q, Hes, app_nil_r.
      cbn [executionQueue enqueued w1].
      rewrite enqueue_permutation. symmetry. apply Permutation_cons_append.
    + rewrite !handed_over_app, !dequeues_app.
      unfold recording_line, queued_line.
      cbn [handed_over dequeues app]. rewrite !app_nil_r. exact Hh.
    + rewrite !announced_ids_app, !enqueues_app, A, Hes. reflexivity.
    + rewrite !queued_calls_app, !enqueues_app, C, Hes. reflexivity.
    + apply Forall_app. split; [repeat constructor|].
      apply Forall_app. split; [exact P|repeat constructor].
Qed.

Lemma accounted_turn t w : exists es, accounted es w (turn t w).
Proof.
  destruct t as [n d p| |outcome]; unfold turn.
  - destruct (startSequence_paths w n d p) as (res & w' & Hrun & Hadm).
    rewrite Hrun. cbn [world_of]. exact (accounted_admission _ _ _ _ _ _ Hadm).
  - destruct (processSequenceQueue_total w) as (a & w' & Hq & _).
    rewrite Hq. cbn [world_of].
    destruct (accounted_drain _ _ _ _ Hq) as (es & Hacc & _).
    exists es. exact Hacc.
  - unfold settle. destruct (awaiting w) as [|cur rest].
    { exists []. apply accounted_refl. }
    set (ws := set_awaiting rest _).
    assert (Hs : accounted [ExecutionSettled cur outcome] w ws).
    { apply accounted_quiet; try reflexivity.
      repeat split; try reflexivity; repeat constructor. }
    destruct outcome as [|e].
    + destruct (resume_fulfilled ws cur) as (a & w' & Hq & _ & Hres).
      unfold bind at 1. rewrite Hres. cbn [world_of ret].
      destruct (accounted_drain _ _ _ _ Hq) as (es & Hacc & _).
      eexists. exact (accounted_trans _ _ _ _ _ Hs Hacc).
    + destruct (resume_rejected ws cur e) as (a & w' & Hq & _ & Hres).
      unfold bind at 1. rewrite Hres. cbn [world_of ret].
      destruct (accounted_drain _ _ _ _ Hq) as (es & Hacc & _).
      eexists.
      refine (accounted_trans _ _ _ _ _ Hs (accounted_trans _ _ _ _ _ _ Hacc)).
      apply accounted_quiet; try reflexivity.
      repeat split; try reflexivity; repeat constructor.
Qed.

Lemma accounted_run ts w : exists es, accounted es w (run ts w).
Proof.
  revert w. induction ts as [|t ts IH]; intros w.
  { exists []. apply accounted_refl. }
  destruct (accounted_turn t w) as (es1 & H1).
  destruct (IH (turn t w)) as (es2 & H2).
  exists (es1 ++ es2). exact (accounted_trans _ _ _ _ _ H1 H2).
Qed.

(** X11.  No request is lost and none is made up.  Over every sequence of
    turns (admissions, calls of the drainer, settlements), the requests that
    were in the queue at the start together with those passed to [enqueue]
    since are, up to their order, the requests [dequeue] has returned since
    together with those in the queue at the end. *)
Theorem X11_requests_are_conserved w ts :
  exists es,
    trace (run ts w) = trace w ++ es
    /\ executionQueue w ++ enqueues es
       ≡ₚ dequeues es ++ executionQueue (run ts w).
Proof.
  destruct (accounted_run ts w) as (es & Hacc).
  exists es. split; [apply Hacc|apply Hacc].
Qed.

Lemma handed_sublist (g : SequenceRequest -> option Sequence)
  (l : list SequenceRequest) :
  (omap (fun r => pair r <$> g r) l).*1 `sublist_of` l.
Proof.
  induction l as [|r l IH]; [constructor|].
  cbn [omap list_omap]. destruct (g r) as [s|]; cbn.
  - apply sublist_skip, IH.
  - apply sublist_cons, IH.
Qed.

(** X12.  Over every sequence of turns the registry stays as it is, and
    the calls of [executeSequence] are, in order, exactly the dequeued
    requests whose sequence is registered, each with the sequence
    registered under its name: a request is never executed without having
    been taken off the queue, never with another sequence, and a dequeued
    request whose sequence is registered is never dropped.  So no request
    is executed more often than it was put into the queue: the executed
    requests are, with their multiplicity, among those that were in the
    queue at the start or were passed to [enqueue] since. *)
Theorem X12_executor_gets_the_registered_dequeued_requests w ts :
  exists es,
    trace (run ts w) = trace w ++ es
    /\ sequenceRegistry (run ts w) = sequenceRegistry w
    /\ handed_over es
       = omap (fun r => pair r <$> (sequenceRegistry w !! sequenceName r))
           (dequeues es)
    /\ (handed_over es).*1 ⊆+ executionQueue w ++ enqueues es.
Proof.
  destruct (accounted_run ts w) as (es & Hacc).
  exists es. split; [apply Hacc|]. split; [apply Hacc|].
  split; [apply Hacc|].
  rewrite (accounted_queue _ _ _ Hacc), (accounted_handed _ _ _ Hacc).
  apply submseteq_inserts_r, sublist_submseteq, handed_sublist.
Qed.

(** X13.  Over every sequence of turns, the requests passed to [enqueue],
    the calls of [recordSequenceQueued] and the SEQUENCE_QUEUED events go
    together: the events carry, in order, the request ids of the enqueued
    requests, and the queued counter has advanced by their number. *)
Theorem X13_every_enqueue_is_counted_and_announced w ts :
  exists es,
    trace (run ts w) = trace w ++ es
    /\ announced_ids es = requestId <$> enqueues es
    /\ queued (statistics (trace (run ts w)))
       = queued (statistics (trace w)) + length (enqueues es).
Proof.
  destruct (accounted_run ts w) as (es & Hacc).
  exists es. split; [apply Hacc|]. split; [apply Hacc|].
  rewrite (accounted_trace _ _ _ Hacc), statistics_app, queued_counted.
  rewrite (accounted_counted _ _ _ Hacc). reflexivity.
Qed.

Lemma reported_statistics es k :
  Forall (fun e => reported e = true) es ->
  let k' :=
    fold_left
      (fun k e => match e with Statistics c => count c k | _ => k end) es k in
  started k' = started k /\ completed k' = completed k
  /\ cancelled k' = cancelled k /\ duplicates k' = duplicates k.
Proof.
  intros Hes. revert k.
  induction Hes as [|e es He _ IH]; intros k; [repeat split|].
  cbn [fold_left] in *.
  destruct (IH (match e with Statistics c => count c k | _ => k end))
    as (H1 & H2 & H3 & H4).
  rewrite H1, H2, H3, H4.
  destruct e as [| |c| | | |]; try (repeat split; reflexivity).
  destruct c; try discriminate He; repeat split; reflexivity.
Qed.

Lemma reported_published es :
  Forall (fun e => reported e = true) es ->
  Forall (fun ev => ev.1 = SEQUENCE_QUEUED \/ ev.1 = SEQUENCE_CANCELLED)
    (published es).
Proof.
  induction 1 as [|e es He _ IH]; [constructor|].
  destruct e as [|topic payload| | | | |]; cbn [published]; try exact IH.
  constructor; [|exact IH].
  destruct topic; try discriminate He; [left|right]; reflexivity.
Qed.

(** X14.  What the class never reports.  Over every sequence of turns
    (admissions, calls of the drainer, settlements) the only topics it
    publishes are SEQUENCE_QUEUED and SEQUENCE_CANCELLED, and the only
    methods of the statistics manager it calls are [recordSequenceQueued],
    [recordError] and [updateQueueWaitTime]: no SEQUENCE_STARTED,
    SEQUENCE_COMPLETED or SEQUENCE_FAILED comes from it, and the started,
    completed, cancelled and duplicates counters stay where they were. *)
Theorem X14_only_two_topics_and_three_statistics w ts :
  exists es,
    trace (run ts w) = trace w ++ es
    /\ Forall (fun e => reported e = true) es
    /\ Forall (fun ev => ev.1 = SEQUENCE_QUEUED \/ ev.1 = SEQUENCE_CANCELLED)
         (published es)
    /\ started (statistics (trace (run ts w))) = started (statistics (trace w))
    /\ completed (statistics (trace (run ts w)))
       = completed (statistics (trace w))
    /\ cancelled (statistics (trace (run ts w)))
       = cancelled (statistics (trace w))
    /\ duplicates (statistics (trace (run ts w)))
       = duplicates (statistics (trace w)).
Proof.
  destruct (accounted_run ts w) as (es & Hacc).
  exists es. split; [apply Hacc|].
  pose proof (accounted_reported _ _ _ Hacc) as Hrep.
  split; [exact Hrep|]. split; [exact (reported_published es Hrep)|].
  rewrite (accounted_trace _ _ _ Hacc), statistics_app.
  exact (reported_statistics es (statistics (trace w)) Hrep).
Qed.

(** ** Request ids *)

Lemma pretty_N_go_head (x : N) : forall s,
  (exists c s', s = String c s' /\ c <> "d"%char) ->
  exists c s', pretty_N_go x s = String c s' /\ c <> "d"%char.
Proof.
  induction (N.lt_wf_0 x) as [x _ IH]; intros s Hs.
  assert (x = 0 \/ 0 < x)%N as [->|Hpos] by lia.
  - rewrite pretty_N_go_0. exact Hs.
  - rewrite pretty_N_go_step by exact Hpos. apply IH.
    { apply N.div_lt; [exact Hpos|reflexivity]. }
    eexists _, _. split; [reflexivity|].
    unfold pretty_N_char. repeat case_match; discriminate.
Qed.

Lemma pretty_Z_head (z : Z) :
  exists c s', pretty z = String c s' /\ c <> "d"%char.
Proof.
  destruct z as [|x|x].
  - exists "0"%char, "". split; [reflexivity|discriminate].
  - unfold pretty, pretty_Z, pretty, pretty_positive, pretty, pretty_N.
    case_decide; [discriminate|].
    rewrite pretty_N_go_step by reflexivity. apply pretty_N_go_head.
    eexists _, _. split; [reflexivity|].
    unfold pretty_N_char. repeat case_match; discriminate.
  - exists "-"%char, (pretty x). split; [reflexivity|discriminate].
Qed.

Lemma append_cancel (a b c : string) : a +:+ b = a +:+ c -> b = c.
Proof.
  induction a as [|x a IH]; [intros Heq; exact Heq|].
  intros Heq. apply IH.
  change (String x (a +:+ b) = String x (a +:+ c)) in Heq.
  congruence.
Qed.

(** X15.  The id [handleDuplicateSequence] makes for a duplicate can never
    be taken for an id [generateRequestId] makes for the same sequence name,
    whatever the clock and the random source return: after the name and the
    dash the first has the tag ["duplicate"], the second a decimal digit or
    a minus sign. *)
Theorem X15_duplicate_ids_are_set_apart n t t' :
  duplicateRequestId_at n t <> requestId_at n t'.
Proof.
  unfold duplicateRequestId_at, requestId_at. intros Heq.
  apply append_cancel in Heq.
  destruct (pretty_Z_head (Date_now t')) as (c & s' & Hp & Hc).
  rewrite Hp in Heq.
  change (String "-" (String "d"
            ("uplicate-" +:+ pretty (Date_now t) +:+ "-"
               +:+ Math_random_suffix (S t)))
          = String "-" (String c (s' +:+ "-" +:+ Math_random_suffix (S t'))))
    in Heq.
  congruence.
Qed.

(** ** The backlog is worked off *)

Lemma drain_takes_the_head w r q a w' :
  isSequenceRunning (sequenceExecutor w) = false ->
  executionQueue w = r :: q ->
  processSequenceQueue w = Normal a w' ->
  length (executionQueue w') <= length q.
Proof.
  intros He Hq Hrun. unfold processSequenceQueue in Hrun.
  rewrite Hq in Hrun. cbn [length] in Hrun.
  destruct (sequenceRegistry w !! sequenceName r) as [s|] eqn:Hr.
  - rewrite (drain_hand _ w r q s He Hq Hr) in Hrun.
    injection Hrun as _ <-. reflexivity.
  - rewrite (drain_skip _ w r q He Hq Hr) in Hrun. unfold bind in Hrun.
    destruct (drain_total (S (length q)) (skipped r q w))
      as (a0 & w0 & Hrec & [es Hd]).
    { cbn. lia. }
    rewrite Hrec in Hrun. injection Hrun as _ <-.
    destruct (drained_queue _ _ _ Hd) as [taken Htaken].
    cbn [executionQueue skipped journal set_clock set_executionQueue] in Htaken.
    rewrite Htaken, length_app. lia.
Qed.

Lemma drain_never_lengthens w a w' :
  processSequenceQueue w = Normal a w' ->
  length (executionQueue w') <= length (executionQueue w).
Proof.
  intros Hrun.
  destruct (processSequenceQueue_total w) as (a0 & w0 & Hrun0 & [es Hd]).
  rewrite Hrun in Hrun0. injection Hrun0 as _ <-.
  destruct (drained_queue _ _ _ Hd) as [taken Htaken].
  rewrite Htaken, length_app. lia.
Qed.

Lemma settlement_shortens `{!SerialExecutor E} w outcome :
  serial w -> drainable w = false ->
  length (executionQueue (turn (ExecutorSettles outcome) w))
  <= pred (length (executionQueue w)).
Proof.
  intros [_ Hp] Hg. unfold turn, settle.
  destruct (executionQueue w) as [|r q] eqn:Hq.
  - destruct (awaiting w) as [|cur rest]; [cbn [world_of]; rewrite Hq; cbn; lia|].
    set (ws := set_awaiting rest _).
    assert (Hqs : executionQueue ws = []) by exact Hq.
    destruct outcome as [|e].
    + destruct (resume_fulfilled ws cur) as (a & w' & Hrun & _ & Hres).
      unfold bind at 1. rewrite Hres. cbn [world_of ret].
      apply drain_never_lengthens in Hrun. rewrite Hqs in Hrun. exact Hrun.
    + destruct (resume_rejected ws cur e) as (a & w' & Hrun & _ & Hres).
      unfold bind at 1. rewrite Hres. cbn [world_of ret].
      apply drain_never_lengthens in Hrun.
      cbn [executionQueue journal] in Hrun. rewrite Hqs in Hrun. exact Hrun.
  - unfold drainable in Hg. rewrite Hq in Hg. cbn in Hg.
    apply negb_false_iff in Hg. rewrite Hg in Hp.
    destruct (awaiting w) as [|cur rest]; [discriminate Hp|].
    set (ws := set_awaiting rest _).
    assert (Hqs : executionQueue ws = r :: q) by exact Hq.
    assert (Hes : isSequenceRunning (sequenceExecutor ws) = false)
      by apply idle_when_settled.
    destruct outcome as [|e].
    + destruct (resume_fulfilled ws cur) as (a & w' & Hrun & _ & Hres).
      unfold bind at 1. rewrite Hres. cbn [world_of ret length pred].
      exact (drain_takes_the_head ws r q a w' Hes Hqs Hrun).
    + destruct (resume_rejected ws cur e) as (a & w' & Hrun & _ & Hres).
      unfold bind at 1. rewrite Hres. cbn [world_of ret length pred].
      exact (drain_takes_the_head (journal _ ws) r q a w' Hes Hqs Hrun).
Qed.

(** X16.  With an executor that reports a running sequence from
    [executeSequence] until its promise settles, a backlog never gets stuck:
    from a world in which executions are serial and no request waits for an
    idle executor, as many settlements as the queue holds requests empty the
    queue, whatever the outcomes (fulfilled or rejected) and whether or not
    the sequences of the queued requests are still registered; and by then
    every request that was in the queue and whose sequence is registered
    has been handed to the executor with that sequence. *)
Theorem X16_backlog_is_worked_off w outcomes :
  SerialExecutor E ->
  serial w ->
  drainable w = false ->
  length (executionQueue w) <= length outcomes ->
  let w' := run (ExecutorSettles <$> outcomes) w in
  executionQueue w' = []
  /\ exists es,
       trace w' = trace w ++ es
       /\ forall r s,
            r ∈ executionQueue w ->
            sequenceRegistry w !! sequenceName r = Some s ->
            (r, s) ∈ handed_over es.
Proof.
  intros Hlaw Hs Hg Hlen w'.
  assert (Hempty : executionQueue w' = []).
  { unfold w'. clear w'. revert w Hs Hg Hlen.
    induction outcomes as [|o os IH]; intros w Hs Hg Hlen.
    - cbn in *. destruct (executionQueue w); [reflexivity|cbn in Hlen; lia].
    - cbn [fmap list_fmap run fold_left].
      apply IH.
      + apply turn_serial, Hs.
      + apply turn_leaves_nothing, Hg.
      + pose proof (settlement_shortens w o Hs Hg) as Hshort.
        cbn [length] in Hlen. lia. }
  split; [exact Hempty|].
  destruct (accounted_run (ExecutorSettles <$> outcomes) w) as (es & Hacc).
  fold w' in Hacc.
  exists es. split; [apply Hacc|].
  intros r s Hin Hreg.
  rewrite (accounted_handed _ _ _ Hacc).
  apply list_elem_of_omap. exists r. split; [|rewrite Hreg; reflexivity].
  pose proof (accounted_queue _ _ _ Hacc) as Hq.
  rewrite Hempty, app_nil_r in Hq. rewrite <- Hq.
  apply elem_of_app. left. exact Hin.
Qed.

End Coverage.

(** * The further properties on concrete runs *)

(** The validator throws on the first play. *)
Lemma X2_collaborator_errors_are_returned_witness :
  exists w',
    startSequence "Demo.ping-symphony" ∅ NORMAL jinxed
    = Normal {| start_requestId := requestId_at "Demo.ping-symphony" 0;
                start_success := false;
                start_reason := Some "boom";
                start_isDuplicate := None |} w'
    /\ published (trace w') = published (trace jinxed)
    /\ errored (statistics (trace w')) = S (errored (statistics (trace jinxed)))
    /\ executionQueue w' = executionQueue jinxed
    /\ sequenceExecutor w' = sequenceExecutor jinxed.
Proof.
  apply (X2_collaborator_errors_are_returned jinxed "Demo.ping-symphony" ∅
           NORMAL ping boom).
  - vm_compute. reflexivity.
  - left. reflexivity.
Defined.

(** The duplicate answer on the conductor that has seen the play before. *)
Lemma X3_result_shape_witness :
  let res :=
    {| start_requestId := duplicateRequestId_at "Demo.ping-symphony" 2;
       start_success := false;
       start_reason := Some (dedup_reason seen);
       start_isDuplicate := Some true |} in
  (start_success res = true <-> start_reason res = None)
  /\ (start_isDuplicate res = None
      /\ start_requestId res = requestId_at "Demo.ping-symphony" 0
      \/ start_isDuplicate res = Some true
         /\ start_success res = false
         /\ start_requestId res = duplicateRequestId_at "Demo.ping-symphony" 2)
  /\ names_sequence (start_requestId res) "Demo.ping-symphony".
Proof.
  refine (X3_result_shape replayed "Demo.ping-symphony" ∅ NORMAL _
            replay_cancelled _).
  vm_compute. reflexivity.
Defined.

(** An unknown sequence, a duplicate, and a rejected request. *)
Lemma X6_failed_admission_keeps_collaborator_effects_witness :
  (exists res w',
     startSequence "Demo.pong" ∅ NORMAL fresh = Normal res w'
     /\ sequenceValidator w' = sequenceValidator fresh
     /\ sequenceUtilities w' = sequenceUtilities fresh
     /\ resourceDelegator w' = resourceDelegator fresh)
  /\ (exists res w',
        startSequence "Demo.ping-symphony" ∅ NORMAL replayed = Normal res w'
        /\ sequenceValidator w'
           = (deduplication "Demo.ping-symphony" ∅ NORMAL replayed).2
        /\ sequenceUtilities w' = sequenceUtilities replayed
        /\ resourceDelegator w' = resourceDelegator replayed)
  /\ (exists res w',
        startSequence "Demo.ping-symphony" ∅ NORMAL contended = Normal res w'
        /\ start_success res = false
        /\ sequenceValidator w'
           = (deduplication "Demo.ping-symphony" ∅ NORMAL contended).2
        /\ sequenceUtilities w'
           = (createSequenceInstanceId "Demo.ping-symphony" ∅ "NORMAL"
                (sequenceUtilities contended)).2
        /\ resourceDelegator w'
           = (delegation "Demo.ping-symphony" ∅ NORMAL contended).2).
Proof.
  split; [|split].
  - apply (proj1 (X6_failed_admission_keeps_collaborator_effects fresh
                    "Demo.pong" ∅ NORMAL)).
    vm_compute. reflexivity.
  - apply (proj1 (proj2 (X6_failed_admission_keeps_collaborator_effects
                           replayed "Demo.ping-symphony" ∅ NORMAL)) ping seen).
    + vm_compute. reflexivity.
    + vm_compute. reflexivity.
    + reflexivity.
  - apply (proj2 (proj2 (X6_failed_admission_keeps_collaborator_effects
                           contended "Demo.ping-symphony" ∅ NORMAL))
             ping unseen denied).
    + vm_compute. reflexivity.
    + vm_compute. reflexivity.
    + reflexivity.
    + vm_compute. reflexivity.
    + reflexivity.
Defined.

(** The first play on a fresh conductor. *)
Lemma X7_idle_admission_starts_at_once_witness :
  let id := requestId_at "Demo.ping-symphony" 0 in
  let request :=
    request_in "Demo.ping-symphony" ∅ NORMAL unseen allowed fresh in
  exists w' : Conductor,
    startSequence "Demo.ping-symphony" ∅ NORMAL fresh = Normal (succeeded id) w'
    /\ executionQueue w' = []
    /\ sequenceExecutor w' = Some request
    /\ awaiting w' = [request]
    /\ trace w'
       = [recording_line (hash unseen);
          Statistics recordSequenceQueued;
          Enqueue request;
          Dequeue request;
          wait_line 3 request;
          ExecuteSequence request ping;
          Emit SEQUENCE_QUEUED (queued_payload "Demo.ping-symphony" id NORMAL 0);
          queued_line "Demo.ping-symphony"].
Proof.
  refine (X7_idle_admission_starts_at_once fresh "Demo.ping-symphony" ∅ NORMAL
            ping unseen allowed _ _ _ _ _ _ _).
  - vm_compute. reflexivity.
  - vm_compute. reflexivity.
  - reflexivity.
  - vm_compute. reflexivity.
  - discriminate.
  - reflexivity.
  - reflexivity.
Defined.

(** A queue whose head is gone and whose second request can run, and a
    queue that holds only a request whose sequence is gone. *)
Lemma X8_drainer_skips_to_the_first_registered_request_witness :
  (exists w' : Conductor,
     processSequenceQueue backlog = Normal (Resolved (not_in_registry orphan)) w'
     /\ executionQueue w' = [orphan]
     /\ sequenceExecutor w' = Some urgent
     /\ awaiting w' = [urgent]
     /\ trace w'
        = [Dequeue orphan; wait_line 7 orphan; missing_line orphan;
           Dequeue urgent; wait_line 8 urgent; ExecuteSequence urgent ping])
  /\ (exists w' : Conductor,
        processSequenceQueue orphaned
        = Normal (Resolved (not_in_registry orphan)) w'
        /\ executionQueue w' = []
        /\ sequenceExecutor w' = None
        /\ awaiting w' = []
        /\ trace w' = [Dequeue orphan; wait_line 0 orphan; missing_line orphan]).
Proof.
  split.
  - refine (proj1 (X8_drainer_skips_to_the_first_registered_request backlog
                     [orphan] _ _) urgent ping [orphan] _ _).
    + reflexivity.
    + constructor; [vm_compute; reflexivity|constructor].
    + reflexivity.
    + vm_compute. reflexivity.
  - refine (proj2 (X8_drainer_skips_to_the_first_registered_request orphaned
                     [orphan] _ _) _).
    + reflexivity.
    + constructor; [vm_compute; reflexivity|constructor].
    + reflexivity.
Defined.

(** The running play settles while a second request waits, and while none
    does. *)
Lemma X9_settlement_starts_the_next_request_witness :
  (exists w' : Conductor,
     settle (Rejected boom) encore
     = Normal (Some (settled_result on_stage (Rejected boom))) w'
     /\ executionQueue w' = []
     /\ sequenceExecutor w' = Some in_the_wings
     /\ awaiting w' = [in_the_wings]
     /\ trace w'
        = trace encore
            ++ [ExecutionSettled on_stage (Rejected boom);
                failure_line on_stage boom;
                Dequeue in_the_wings;
                wait_line (clock encore) in_the_wings;
                ExecuteSequence in_the_wings ping])
  /\ (exists w' : Conductor,
        settle Fulfilled playing
        = Normal (Some (settled_result on_stage Fulfilled)) w'
        /\ executionQueue w' = []
        /\ sequenceExecutor w' = None
        /\ awaiting w' = []
        /\ trace w' = trace playing ++ [ExecutionSettled on_stage Fulfilled]).
Proof.
  split.
  - refine (proj1 (X9_settlement_starts_the_next_request encore on_stage []
                     (Rejected boom) _ _) in_the_wings [] ping _ _).
    + vm_compute. reflexivity.
    + reflexivity.
    + vm_compute. reflexivity.
    + vm_compute. reflexivity.
  - refine (proj2 (X9_settlement_starts_the_next_request playing on_stage []
                     Fulfilled _ _) _).
    + vm_compute. reflexivity.
    + reflexivity.
    + vm_compute. reflexivity.
Defined.

(** A busy evening on a fresh conductor. *)
Lemma X10_no_request_waits_for_an_idle_executor_witness :
  (exists a (w' : Conductor),
     processSequenceQueue backlog = Normal a w' /\ drainable w' = false)
  /\ drainable (run evening fresh) = false
  /\ exists info,
       getDebugInfo (run evening fresh) = Normal info (run evening fresh)
       /\ queueSize info = length (executionQueue (run evening fresh))
       /\ isExecuting info
          = isSequenceRunning (sequenceExecutor (run evening fresh))
       /\ (isExecuting info = false -> queueSize info = 0)
       /\ processedSequences info = 0.
Proof.
  split.
  - exact (proj1 (X10_no_request_waits_for_an_idle_executor backlog []
                    current_executor_is_serial)).
  - refine (proj2 (X10_no_request_waits_for_an_idle_executor fresh evening
                     current_executor_is_serial) _).
    reflexivity.
Defined.

(** Two settlements work off the one request that waits behind the running
    play. *)
Lemma X16_backlog_is_worked_off_witness :
  let w' :=
    run (ExecutorSettles <$> [Rejected boom; Fulfilled]) encore in
  executionQueue w' = []
  /\ exists es,
       trace w' = trace encore ++ es
       /\ forall r s,
            r ∈ executionQueue encore ->
            sequenceRegistry encore !! sequenceName r = Some s ->
            (r, s) ∈ handed_over es.
Proof.
  refine (X16_backlog_is_worked_off encore [Rejected boom; Fulfilled]
            current_executor_is_serial _ _ _).
  - split; vm_compute; reflexivity.
  - vm_compute. reflexivity.
  - vm_compute. lia.
Defined.
